(** * Texture2DArray (OpenGL back end): a model of
      Source/Urho3D/Graphics/OpenGL/OGLTexture2DArray.cpp

    The texture array object, the Graphics subsystem it talks to and the
    log channel are kept in one explicit world; every member function of
    the source is a computation over that world.  Collaborators whose code
    lives in other translation units (the Texture base class, Image,
    Graphics' format helpers, the resource cache, the OpenGL driver) are
    gathered in the [Externals] interface. *)

From Stdlib Require Import ZArith Lia Bool.
From stdpp Require Import base numbers list strings.

Open Scope Z_scope.
Set Primitive Projections.

(** ** Machine integers *)

(** [unsigned] is 32 bits wide; arithmetic wraps modulo 2^32. *)
Definition u32 (x : Z) : Z := x mod 2 ^ 32.

(** [int] is 32 bits wide, two's complement. *)
Definition s32 (x : Z) : Z := (x + 2 ^ 31) mod 2 ^ 32 - 2 ^ 31.

(** A buffer of bytes behind a [void*] or [unsigned char*]; a null pointer
    is [None]. *)
Definition Buffer : Type := list Byte.byte.

(** ** Enumerations of GraphicsDefs.h used by the file *)

Inductive TextureUsage : Type :=
| TEXTURE_STATIC
| TEXTURE_DYNAMIC
| TEXTURE_RENDERTARGET
| TEXTURE_DEPTHSTENCIL.

Definition TextureUsage_eqb (a b : TextureUsage) : bool :=
  match a, b with
  | TEXTURE_STATIC, TEXTURE_STATIC
  | TEXTURE_DYNAMIC, TEXTURE_DYNAMIC
  | TEXTURE_RENDERTARGET, TEXTURE_RENDERTARGET
  | TEXTURE_DEPTHSTENCIL, TEXTURE_DEPTHSTENCIL => true
  | _, _ => false
  end.

Inductive TextureFilterMode : Type :=
| FILTER_NEAREST
| FILTER_BILINEAR
| FILTER_TRILINEAR
| FILTER_ANISOTROPIC
| FILTER_DEFAULT.

Inductive CompressedFormat : Type :=
| CF_NONE
| CF_RGBA
| CF_DXT1
| CF_DXT3
| CF_DXT5
| CF_ETC1
| CF_PVRTC_RGB_2BPP
| CF_PVRTC_RGBA_2BPP
| CF_PVRTC_RGB_4BPP
| CF_PVRTC_RGBA_4BPP.

Inductive AsyncLoadState : Type :=
| ASYNC_DONE
| ASYNC_QUEUED
| ASYNC_LOADING
| ASYNC_SUCCESS
| ASYNC_FAIL.

(** Material quality levels; [QUALITY_HIGH] is the default texture quality
    when there is no Renderer. *)
Definition QUALITY_LOW : Z := 0.
Definition QUALITY_MEDIUM : Z := 1.
Definition QUALITY_HIGH : Z := 2.

(** ** Images (Resource/Image.h), as far as the texture reads them *)

Module CompressedLevel.
Record t : Type := mk {
  data_ : option Buffer;
  width_ : Z;
  height_ : Z;
  rowSize_ : Z;
  rows_ : Z
}.
(** The level handed back for an index outside the table. *)
Definition empty : t :=
  {| data_ := None; width_ := 0; height_ := 0; rowSize_ := 0; rows_ := 0 |}.
End CompressedLevel.

Module Image.
Record t : Type := mk {
  data_ : option Buffer;
  width_ : Z;
  height_ : Z;
  components_ : Z;
  compressedFormat_ : CompressedFormat;
  numCompressedLevels_ : Z;
  compressedLevels_ : list CompressedLevel.t
}.

Definition GetData (i : t) : option Buffer := data_ i.
Definition GetWidth (i : t) : Z := width_ i.
Definition GetHeight (i : t) : Z := height_ i.
Definition GetComponents (i : t) : Z := components_ i.
Definition GetCompressedFormat (i : t) : CompressedFormat := compressedFormat_ i.
Definition GetNumCompressedLevels (i : t) : Z := numCompressedLevels_ i.

Definition IsCompressed (i : t) : bool :=
  match compressedFormat_ i with
  | CF_NONE => false
  | _ => true
  end.

(** The compressed-level table is read by index; an index past its end
    yields the empty level. *)
Definition GetCompressedLevel (i : t) (index : Z) : CompressedLevel.t :=
  default CompressedLevel.empty (compressedLevels_ i !! Z.to_nat index).
End Image.

(** ** XML descriptor: what the load parameters are read from *)

(** A child element of the descriptor's root: its tag and attributes. *)
Record XMLElement : Type := mkXMLElement {
  tag_ : string;
  attributes_ : list (string * string)
}.

(** The parsed descriptor: the children of its root, in document order. *)
Record XMLFile : Type := mkXMLFile {
  rootChildren_ : list XMLElement
}.

(** [GetAttribute]: the value of the first attribute of that name, or the
    empty string. *)
Fixpoint lookupAttribute (name : string) (attrs : list (string * string)) : string :=
  match attrs with
  | [] => ""
  | (k, v) :: rest => if String.eqb k name then v else lookupAttribute name rest
  end.

Definition GetAttribute (e : XMLElement) (name : string) : string :=
  lookupAttribute name (attributes_ e).

(** [GetChild(name)] followed by repeated [GetNext(name)]: the children
    carrying that tag, in document order. *)
Definition childrenNamed (f : XMLFile) (name : string) : list XMLElement :=
  filter (fun c => String.eqb (tag_ c) name = true) (rootChildren_ f).

(** ** Container/Vector.h: PODVector<unsigned> *)

Module PODVector.
Record t : Type := mk {
  buffer_ : list Z;
  capacity_ : Z
}.
Definition empty : t := {| buffer_ := []; capacity_ := 0 |}.
Definition Size (v : t) : Z := Z.of_nat (length (buffer_ v)).
Definition Capacity (v : t) : Z := capacity_ v.
(** [operator[]] as an lvalue, in range. *)
Definition set (i : Z) (x : Z) (v : t) : t :=
  {| buffer_ := <[Z.to_nat i := x]> (buffer_ v); capacity_ := capacity_ v |}.
Definition get (i : Z) (v : t) : option Z := buffer_ v !! Z.to_nat i.
End PODVector.

(** ** The render surface owned by a render-target texture *)

(** Modelled from the spec: RenderSurface is declared outside this file.
    The attachment is owned by the texture array and released together
    with it; the model keeps its render-buffer name, which the release
    clears. *)
Record RenderSurface : Type := mkRenderSurface {
  renderBuffer_ : Z
}.

Definition RenderSurface_new : RenderSurface := {| renderBuffer_ := 0 |}.
Definition RenderSurface_Release (r : RenderSurface) : RenderSurface :=
  {| renderBuffer_ := 0 |}.

(** ** The texture array object *)

Record Texture2DArray : Type := mkTexture2DArray {
  object_name_ : Z;                        (* object_.name_, 0 when absent *)
  target_ : Z;
  width_ : Z;
  height_ : Z;
  format_ : Z;
  layers_ : Z;
  levels_ : Z;
  requestedLevels_ : Z;
  usage_ : TextureUsage;
  filterMode_ : TextureFilterMode;
  sRGB_ : bool;
  mipsToSkip_ : list Z;                    (* indexed by texture quality *)
  renderSurface_ : option RenderSurface;
  subscribedToRenderSurfaceUpdate_ : bool; (* E_RENDERSURFACEUPDATE handler *)
  layerMemoryUse_ : PODVector.t;
  memoryUse_ : Z;
  dataPending_ : bool;
  dataLost_ : bool;
  loadParameters_ : option XMLFile;
  loadImages_ : list (option Image.t);
  name_ : string;                          (* resource name *)
  asyncLoadState_ : AsyncLoadState
}.

Definition set_object_name_ (v : Z) (t : Texture2DArray) : Texture2DArray :=
  {| object_name_ := v; target_ := target_ t; width_ := width_ t; height_ := height_ t;
     format_ := format_ t; layers_ := layers_ t; levels_ := levels_ t;
     requestedLevels_ := requestedLevels_ t; usage_ := usage_ t; filterMode_ := filterMode_ t;
     sRGB_ := sRGB_ t; mipsToSkip_ := mipsToSkip_ t; renderSurface_ := renderSurface_ t;
     subscribedToRenderSurfaceUpdate_ := subscribedToRenderSurfaceUpdate_ t;
     layerMemoryUse_ := layerMemoryUse_ t; memoryUse_ := memoryUse_ t;
     dataPending_ := dataPending_ t; dataLost_ := dataLost_ t;
     loadParameters_ := loadParameters_ t; loadImages_ := loadImages_ t; name_ := name_ t;
     asyncLoadState_ := asyncLoadState_ t |}.

Definition set_width_ (v : Z) (t : Texture2DArray) : Texture2DArray :=
  {| object_name_ := object_name_ t; target_ := target_ t; width_ := v; height_ := height_ t;
     format_ := format_ t; layers_ := layers_ t; levels_ := levels_ t;
     requestedLevels_ := requestedLevels_ t; usage_ := usage_ t; filterMode_ := filterMode_ t;
     sRGB_ := sRGB_ t; mipsToSkip_ := mipsToSkip_ t; renderSurface_ := renderSurface_ t;
     subscribedToRenderSurfaceUpdate_ := subscribedToRenderSurfaceUpdate_ t;
     layerMemoryUse_ := layerMemoryUse_ t; memoryUse_ := memoryUse_ t;
     dataPending_ := dataPending_ t; dataLost_ := dataLost_ t;
     loadParameters_ := loadParameters_ t; loadImages_ := loadImages_ t; name_ := name_ t;
     asyncLoadState_ := asyncLoadState_ t |}.

Definition set_height_ (v : Z) (t : Texture2DArray) : Texture2DArray :=
  {| object_name_ := object_name_ t; target_ := target_ t; width_ := width_ t; height_ := v;
     format_ := format_ t; layers_ := layers_ t; levels_ := levels_ t;
     requestedLevels_ := requestedLevels_ t; usage_ := usage_ t; filterMode_ := filterMode_ t;
     sRGB_ := sRGB_ t; mipsToSkip_ := mipsToSkip_ t; renderSurface_ := renderSurface_ t;
     subscribedToRenderSurfaceUpdate_ := subscribedToRenderSurfaceUpdate_ t;
     layerMemoryUse_ := layerMemoryUse_ t; memoryUse_ := memoryUse_ t;
     dataPending_ := dataPending_ t; dataLost_ := dataLost_ t;
     loadParameters_ := loadParameters_ t; loadImages_ := loadImages_ t; name_ := name_ t;
     asyncLoadState_ := asyncLoadState_ t |}.

Definition set_format_ (v : Z) (t : Texture2DArray) : Texture2DArray :=
  {| object_name_ := object_name_ t; target_ := target_ t; width_ := width_ t;
     height_ := height_ t; format_ := v; layers_ := layers_ t; levels_ := levels_ t;
     requestedLevels_ := requestedLevels_ t; usage_ := usage_ t; filterMode_ := filterMode_ t;
     sRGB_ := sRGB_ t; mipsToSkip_ := mipsToSkip_ t; renderSurface_ := renderSurface_ t;
     subscribedToRenderSurfaceUpdate_ := subscribedToRenderSurfaceUpdate_ t;
     layerMemoryUse_ := layerMemoryUse_ t; memoryUse_ := memoryUse_ t;
     dataPending_ := dataPending_ t; dataLost_ := dataLost_ t;
     loadParameters_ := loadParameters_ t; loadImages_ := loadImages_ t; name_ := name_ t;
     asyncLoadState_ := asyncLoadState_ t |}.

Definition set_layers_ (v : Z) (t : Texture2DArray) : Texture2DArray :=
  {| object_name_ := object_name_ t; target_ := target_ t; width_ := width_ t;
     height_ := height_ t; format_ := format_ t; layers_ := v; levels_ := levels_ t;
     requestedLevels_ := requestedLevels_ t; usage_ := usage_ t; filterMode_ := filterMode_ t;
     sRGB_ := sRGB_ t; mipsToSkip_ := mipsToSkip_ t; renderSurface_ := renderSurface_ t;
     subscribedToRenderSurfaceUpdate_ := subscribedToRenderSurfaceUpdate_ t;
     layerMemoryUse_ := layerMemoryUse_ t; memoryUse_ := memoryUse_ t;
     dataPending_ := dataPending_ t; dataLost_ := dataLost_ t;
     loadParameters_ := loadParameters_ t; loadImages_ := loadImages_ t; name_ := name_ t;
     asyncLoadState_ := asyncLoadState_ t |}.

Definition set_levels_ (v : Z) (t : Texture2DArray) : Texture2DArray :=
  {| object_name_ := object_name_ t; target_ := target_ t; width_ := width_ t;
     height_ := height_ t; format_ := format_ t; layers_ := layers_ t; levels_ := v;
     requestedLevels_ := requestedLevels_ t; usage_ := usage_ t; filterMode_ := filterMode_ t;
     sRGB_ := sRGB_ t; mipsToSkip_ := mipsToSkip_ t; renderSurface_ := renderSurface_ t;
     subscribedToRenderSurfaceUpdate_ := subscribedToRenderSurfaceUpdate_ t;
     layerMemoryUse_ := layerMemoryUse_ t; memoryUse_ := memoryUse_ t;
     dataPending_ := dataPending_ t; dataLost_ := dataLost_ t;
     loadParameters_ := loadParameters_ t; loadImages_ := loadImages_ t; name_ := name_ t;
     asyncLoadState_ := asyncLoadState_ t |}.

Definition set_requestedLevels_ (v : Z) (t : Texture2DArray) : Texture2DArray :=
  {| object_name_ := object_name_ t; target_ := target_ t; width_ := width_ t;
     height_ := height_ t; format_ := format_ t; layers_ := layers_ t; levels_ := levels_ t;
     requestedLevels_ := v; usage_ := usage_ t; filterMode_ := filterMode_ t; sRGB_ := sRGB_ t;
     mipsToSkip_ := mipsToSkip_ t; renderSurface_ := renderSurface_ t;
     subscribedToRenderSurfaceUpdate_ := subscribedToRenderSurfaceUpdate_ t;
     layerMemoryUse_ := layerMemoryUse_ t; memoryUse_ := memoryUse_ t;
     dataPending_ := dataPending_ t; dataLost_ := dataLost_ t;
     loadParameters_ := loadParameters_ t; loadImages_ := loadImages_ t; name_ := name_ t;
     asyncLoadState_ := asyncLoadState_ t |}.

Definition set_usage_ (v : TextureUsage) (t : Texture2DArray) : Texture2DArray :=
  {| object_name_ := object_name_ t; target_ := target_ t; width_ := width_ t;
     height_ := height_ t; format_ := format_ t; layers_ := layers_ t; levels_ := levels_ t;
     requestedLevels_ := requestedLevels_ t; usage_ := v; filterMode_ := filterMode_ t;
     sRGB_ := sRGB_ t; mipsToSkip_ := mipsToSkip_ t; renderSurface_ := renderSurface_ t;
     subscribedToRenderSurfaceUpdate_ := subscribedToRenderSurfaceUpdate_ t;
     layerMemoryUse_ := layerMemoryUse_ t; memoryUse_ := memoryUse_ t;
     dataPending_ := dataPending_ t; dataLost_ := dataLost_ t;
     loadParameters_ := loadParameters_ t; loadImages_ := loadImages_ t; name_ := name_ t;
     asyncLoadState_ := asyncLoadState_ t |}.

Definition set_filterMode_ (v : TextureFilterMode) (t : Texture2DArray) : Texture2DArray :=
  {| object_name_ := object_name_ t; target_ := target_ t; width_ := width_ t;
     height_ := height_ t; format_ := format_ t; layers_ := layers_ t; levels_ := levels_ t;
     requestedLevels_ := requestedLevels_ t; usage_ := usage_ t; filterMode_ := v;
     sRGB_ := sRGB_ t; mipsToSkip_ := mipsToSkip_ t; renderSurface_ := renderSurface_ t;
     subscribedToRenderSurfaceUpdate_ := subscribedToRenderSurfaceUpdate_ t;
     layerMemoryUse_ := layerMemoryUse_ t; memoryUse_ := memoryUse_ t;
     dataPending_ := dataPending_ t; dataLost_ := dataLost_ t;
     loadParameters_ := loadParameters_ t; loadImages_ := loadImages_ t; name_ := name_ t;
     asyncLoadState_ := asyncLoadState_ t |}.

Definition set_renderSurface_ (v : option RenderSurface) (t : Texture2DArray) : Texture2DArray :=
  {| object_name_ := object_name_ t; target_ := target_ t; width_ := width_ t;
     height_ := height_ t; format_ := format_ t; layers_ := layers_ t; levels_ := levels_ t;
     requestedLevels_ := requestedLevels_ t; usage_ := usage_ t; filterMode_ := filterMode_ t;
     sRGB_ := sRGB_ t; mipsToSkip_ := mipsToSkip_ t; renderSurface_ := v;
     subscribedToRenderSurfaceUpdate_ := subscribedToRenderSurfaceUpdate_ t;
     layerMemoryUse_ := layerMemoryUse_ t; memoryUse_ := memoryUse_ t;
     dataPending_ := dataPending_ t; dataLost_ := dataLost_ t;
     loadParameters_ := loadParameters_ t; loadImages_ := loadImages_ t; name_ := name_ t;
     asyncLoadState_ := asyncLoadState_ t |}.

Definition set_subscribedToRenderSurfaceUpdate_ (v : bool) (t : Texture2DArray) : Texture2DArray :=
  {| object_name_ := object_name_ t; target_ := target_ t; width_ := width_ t;
     height_ := height_ t; format_ := format_ t; layers_ := layers_ t; levels_ := levels_ t;
     requestedLevels_ := requestedLevels_ t; usage_ := usage_ t; filterMode_ := filterMode_ t;
     sRGB_ := sRGB_ t; mipsToSkip_ := mipsToSkip_ t; renderSurface_ := renderSurface_ t;
     subscribedToRenderSurfaceUpdate_ := v; layerMemoryUse_ := layerMemoryUse_ t;
     memoryUse_ := memoryUse_ t; dataPending_ := dataPending_ t; dataLost_ := dataLost_ t;
     loadParameters_ := loadParameters_ t; loadImages_ := loadImages_ t; name_ := name_ t;
     asyncLoadState_ := asyncLoadState_ t |}.

Definition set_layerMemoryUse_ (v : PODVector.t) (t : Texture2DArray) : Texture2DArray :=
  {| object_name_ := object_name_ t; target_ := target_ t; width_ := width_ t;
     height_ := height_ t; format_ := format_ t; layers_ := layers_ t; levels_ := levels_ t;
     requestedLevels_ := requestedLevels_ t; usage_ := usage_ t; filterMode_ := filterMode_ t;
     sRGB_ := sRGB_ t; mipsToSkip_ := mipsToSkip_ t; renderSurface_ := renderSurface_ t;
     subscribedToRenderSurfaceUpdate_ := subscribedToRenderSurfaceUpdate_ t;
     layerMemoryUse_ := v; memoryUse_ := memoryUse_ t; dataPending_ := dataPending_ t;
     dataLost_ := dataLost_ t; loadParameters_ := loadParameters_ t;
     loadImages_ := loadImages_ t; name_ := name_ t; asyncLoadState_ := asyncLoadState_ t |}.

Definition set_memoryUse_ (v : Z) (t : Texture2DArray) : Texture2DArray :=
  {| object_name_ := object_name_ t; target_ := target_ t; width_ := width_ t;
     height_ := height_ t; format_ := format_ t; layers_ := layers_ t; levels_ := levels_ t;
     requestedLevels_ := requestedLevels_ t; usage_ := usage_ t; filterMode_ := filterMode_ t;
     sRGB_ := sRGB_ t; mipsToSkip_ := mipsToSkip_ t; renderSurface_ := renderSurface_ t;
     subscribedToRenderSurfaceUpdate_ := subscribedToRenderSurfaceUpdate_ t;
     layerMemoryUse_ := layerMemoryUse_ t; memoryUse_ := v; dataPending_ := dataPending_ t;
     dataLost_ := dataLost_ t; loadParameters_ := loadParameters_ t;
     loadImages_ := loadImages_ t; name_ := name_ t; asyncLoadState_ := asyncLoadState_ t |}.

Definition set_dataPending_ (v : bool) (t : Texture2DArray) : Texture2DArray :=
  {| object_name_ := object_name_ t; target_ := target_ t; width_ := width_ t;
     height_ := height_ t; format_ := format_ t; layers_ := layers_ t; levels_ := levels_ t;
     requestedLevels_ := requestedLevels_ t; usage_ := usage_ t; filterMode_ := filterMode_ t;
     sRGB_ := sRGB_ t; mipsToSkip_ := mipsToSkip_ t; renderSurface_ := renderSurface_ t;
     subscribedToRenderSurfaceUpdate_ := subscribedToRenderSurfaceUpdate_ t;
     layerMemoryUse_ := layerMemoryUse_ t; memoryUse_ := memoryUse_ t; dataPending_ := v;
     dataLost_ := dataLost_ t; loadParameters_ := loadParameters_ t;
     loadImages_ := loadImages_ t; name_ := name_ t; asyncLoadState_ := asyncLoadState_ t |}.

Definition set_dataLost_ (v : bool) (t : Texture2DArray) : Texture2DArray :=
  {| object_name_ := object_name_ t; target_ := target_ t; width_ := width_ t;
     height_ := height_ t; format_ := format_ t; layers_ := layers_ t; levels_ := levels_ t;
     requestedLevels_ := requestedLevels_ t; usage_ := usage_ t; filterMode_ := filterMode_ t;
     sRGB_ := sRGB_ t; mipsToSkip_ := mipsToSkip_ t; renderSurface_ := renderSurface_ t;
     subscribedToRenderSurfaceUpdate_ := subscribedToRenderSurfaceUpdate_ t;
     layerMemoryUse_ := layerMemoryUse_ t; memoryUse_ := memoryUse_ t;
     dataPending_ := dataPending_ t; dataLost_ := v; loadParameters_ := loadParameters_ t;
     loadImages_ := loadImages_ t; name_ := name_ t; asyncLoadState_ := asyncLoadState_ t |}.

Definition set_loadParameters_ (v : option XMLFile) (t : Texture2DArray) : Texture2DArray :=
  {| object_name_ := object_name_ t; target_ := target_ t; width_ := width_ t;
     height_ := height_ t; format_ := format_ t; layers_ := layers_ t; levels_ := levels_ t;
     requestedLevels_ := requestedLevels_ t; usage_ := usage_ t; filterMode_ := filterMode_ t;
     sRGB_ := sRGB_ t; mipsToSkip_ := mipsToSkip_ t; renderSurface_ := renderSurface_ t;
     subscribedToRenderSurfaceUpdate_ := subscribedToRenderSurfaceUpdate_ t;
     layerMemoryUse_ := layerMemoryUse_ t; memoryUse_ := memoryUse_ t;
     dataPending_ := dataPending_ t; dataLost_ := dataLost_ t; loadParameters_ := v;
     loadImages_ := loadImages_ t; name_ := name_ t; asyncLoadState_ := asyncLoadState_ t |}.

Definition set_loadImages_ (v : list (option Image.t)) (t : Texture2DArray) : Texture2DArray :=
  {| object_name_ := object_name_ t; target_ := target_ t; width_ := width_ t;
     height_ := height_ t; format_ := format_ t; layers_ := layers_ t; levels_ := levels_ t;
     requestedLevels_ := requestedLevels_ t; usage_ := usage_ t; filterMode_ := filterMode_ t;
     sRGB_ := sRGB_ t; mipsToSkip_ := mipsToSkip_ t; renderSurface_ := renderSurface_ t;
     subscribedToRenderSurfaceUpdate_ := subscribedToRenderSurfaceUpdate_ t;
     layerMemoryUse_ := layerMemoryUse_ t; memoryUse_ := memoryUse_ t;
     dataPending_ := dataPending_ t; dataLost_ := dataLost_ t;
     loadParameters_ := loadParameters_ t; loadImages_ := v; name_ := name_ t;
     asyncLoadState_ := asyncLoadState_ t |}.

(** ** The Graphics subsystem and the OpenGL command stream *)

(** What a texture unit of Graphics refers to. *)
Inductive TextureRef : Type :=
| ThisTexture
| OtherTexture (id : Z).

(** Commands that reach the GPU context, in the order they are issued. *)
Inductive Command : Type :=
| glGenTextures (name : Z)
| glDeleteTextures (name : Z)
| glGetError
| glTexImage3D (target level internalFormat width height depth border format type : Z)
    (data : option Buffer)
| glTexSubImage3D (target level xoffset yoffset zoffset width height depth format type : Z)
    (data : option Buffer)
| glCompressedTexImage3D (target level internalFormat width height depth border imageSize : Z)
    (data : option Buffer)
| glCompressedTexSubImage3D
    (target level xoffset yoffset zoffset width height depth format imageSize : Z)
    (data : option Buffer)
| glGetTexImage (target level format type : Z)
| glGetCompressedTexImage (target level : Z)
| glTexParameteri (target pname param : Z)
| BindForUpdate (name : Z)        (* Graphics::SetTextureForUpdate *)
| BindUnit (unit : Z) (texture : option TextureRef)  (* Graphics::SetTexture *)
| UpdateParameters (name : Z).    (* Texture::UpdateParameters *)

Definition GL_TEXTURE_2D_ARRAY : Z := 0x8C1A.
Definition GL_TEXTURE_BASE_LEVEL : Z := 0x813C.
Definition GL_TEXTURE_MAX_LEVEL : Z := 0x813D.

(** Modelled from the spec: Graphics is declared outside this file.  Its
    interface here is [isDeviceLost], [bindForUpdate], [unbind(unit)] and
    the texture-unit table those act on; [nextName_] is the state of the
    driver's name generator, whose names are never 0. *)
Record Graphics : Type := mkGraphics {
  deviceLost_ : bool;
  textures_ : list (option TextureRef);
  commands_ : list Command;
  nextName_ : positive
}.

Definition issue (c : Command) (g : Graphics) : Graphics :=
  {| deviceLost_ := deviceLost_ g; textures_ := textures_ g;
     commands_ := commands_ g ++ [c]; nextName_ := nextName_ g |}.

Definition Graphics_GetTexture (g : Graphics) (index : Z) : option TextureRef :=
  default None (textures_ g !! Z.to_nat index).

Definition Graphics_SetTexture (index : Z) (texture : option TextureRef) (g : Graphics)
  : Graphics :=
  {| deviceLost_ := deviceLost_ g;
     textures_ := <[Z.to_nat index := texture]> (textures_ g);
     commands_ := commands_ g ++ [BindUnit index texture];
     nextName_ := nextName_ g |}.

Definition Graphics_SetTextureForUpdate (name : Z) (g : Graphics) : Graphics :=
  {| deviceLost_ := deviceLost_ g;
     textures_ := <[0%nat := Some ThisTexture]> (textures_ g);
     commands_ := commands_ g ++ [BindForUpdate name];
     nextName_ := nextName_ g |}.

(** ** Renderer, resource cache, log *)

Record Renderer : Type := mkRenderer {
  textureQuality_ : Z
}.

(** The cache's record of the files this resource depends on. *)
Record ResourceCache : Type := mkResourceCache {
  dependencies_ : list string
}.

Inductive LogEntry : Type :=
| LOGERROR (message : string)
| LOGWARNING (message : string).

(** ** The world *)

Record World : Type := mkWorld {
  this : Texture2DArray;
  graphics_ : option Graphics;   (* the texture's weak pointer to Graphics *)
  renderer_ : option Renderer;   (* GetSubsystem<Renderer>() *)
  cache_ : ResourceCache;        (* GetSubsystem<ResourceCache>() *)
  log_ : list LogEntry
}.

Definition set_this (v : Texture2DArray) (w : World) : World :=
  {| this := v; graphics_ := graphics_ w; renderer_ := renderer_ w; cache_ := cache_ w;
     log_ := log_ w |}.

Definition set_graphics_ (v : option Graphics) (w : World) : World :=
  {| this := this w; graphics_ := v; renderer_ := renderer_ w; cache_ := cache_ w;
     log_ := log_ w |}.

Definition set_cache_ (v : ResourceCache) (w : World) : World :=
  {| this := this w; graphics_ := graphics_ w; renderer_ := renderer_ w; cache_ := v;
     log_ := log_ w |}.

Definition set_log_ (v : list LogEntry) (w : World) : World :=
  {| this := this w; graphics_ := graphics_ w; renderer_ := renderer_ w; cache_ := cache_ w;
     log_ := v |}.

(** A byte stream handed to a load. *)
Definition Deserializer : Type := list Byte.byte.

(** ** Collaborators defined in other translation units *)

Class Externals : Type := {
  (* GraphicsDefs.h, object layout *)
  MAX_TEXTURE_UNITS : Z;
  sizeof_Texture2DArray : Z;
  (* Graphics: static format queries *)
  GetGL3Support : bool;
  GetAlphaFormat : Z;
  GetLuminanceFormat : Z;
  GetLuminanceAlphaFormat : Z;
  GetRGBFormat : Z;
  GetRGBAFormat : Z;
  GetFormat : CompressedFormat -> Z;
  (* Texture base class *)
  IsCompressedFormat : Z -> bool;
  GetSRGBFormat : Z -> Z;
  GetExternalFormat : Z -> Z;
  GetDataType : Z -> Z;
  GetDataSize : Z -> Z -> Z -> Z;          (* format, width, height *)
  GetDataSize3 : Z -> Z -> Z -> Z -> Z;    (* format, width, height, depth *)
  GetLevelWidth : Texture2DArray -> Z -> Z;
  GetLevelHeight : Texture2DArray -> Z -> Z;
  SetParameters : option XMLFile -> Texture2DArray -> Texture2DArray;
  (* Image; the result of GetNextLevel is dereferenced unchecked by the
     callers here, so it is taken to be an image *)
  GetNextLevel : Image.t -> Image.t;
  ConvertToRGBA : Image.t -> option Image.t;
  PrecalculateLevels : Image.t -> Image.t;
  Decompress : CompressedLevel.t -> Buffer;
  (* OpenGL driver: the error code a command leaves behind *)
  glError : Command -> Z;
  (* XMLFile, FileSystem *)
  XMLFile_Load : Deserializer -> option XMLFile;
  GetPath : string -> string;
  SplitPath : string -> string * string * string;
  (* ResourceCache *)
  Exists : string -> bool;
  GetTempResource : string -> option Image.t;
  ReloadResource : World -> bool * World;
  CheckTextureBudget : ResourceCache -> ResourceCache;
  (* PODVector growth policy and the contents of fresh storage *)
  growCapacity : Z -> Z -> Z;
  indeterminate : Z
}.

(** ** Computations over the world *)

(** Paths on which the source has undefined behaviour. *)
Inductive Fault : Type :=
| NullGraphics        (* graphics_ dereferenced while null *)
| IndexOutOfRange     (* array or vector indexed past its end *)
| ShiftOutOfRange     (* 1 << n with n >= 31 *)
| AssertionFailed.    (* assert(false) *)

Inductive Outcome (A : Type) : Type :=
| Done (a : A) (w : World)
| Crash (f : Fault).
Arguments Done {A} a w.
Arguments Crash {A} f.

Definition M (A : Type) : Type := World -> Outcome A.

Definition ret {A : Type} (a : A) : M A := fun w => Done a w.

Definition bind {A B : Type} (c : M A) (k : A -> M B) : M B :=
  fun w => match c w with
           | Done a w' => k a w'
           | Crash f => Crash f
           end.

Definition crash {A : Type} (f : Fault) : M A := fun _ => Crash f.

Notation "'let*' x ':=' c 'in' k" := (bind c (fun x => k))
  (at level 10, x name, c at level 100, k at level 200).
Notation "c ;; k" := (bind c (fun _ => k))
  (at level 100, k at level 200, right associativity).

Definition self : M Texture2DArray := fun w => Done (this w) w.
Definition update (f : Texture2DArray -> Texture2DArray) : M unit :=
  fun w => Done tt (set_this (f (this w)) w).

(** A pointer tested for being non-null. *)
Definition nonNull {A : Type} (p : option A) : bool :=
  match p with
  | Some _ => true
  | None => false
  end.

Definition hasGraphics : M bool := fun w => Done (nonNull (graphics_ w)) w.

(** [graphics_->...]: dereference the weak pointer. *)
Definition graphics : M Graphics :=
  fun w => match graphics_ w with
           | Some g => Done g w
           | None => Crash NullGraphics
           end.

Definition onGraphics (f : Graphics -> Graphics) : M unit :=
  let* g := graphics in fun w => Done tt (set_graphics_ (Some (f g)) w).

Definition IsDeviceLost : M bool := let* g := graphics in ret (deviceLost_ g).

Definition URHO3D_LOGERROR (message : string) : M unit :=
  fun w => Done tt (set_log_ (log_ w ++ [LOGERROR message]) w).

Definition URHO3D_LOGWARNING (message : string) : M unit :=
  fun w => Done tt (set_log_ (log_ w ++ [LOGWARNING message]) w).

Definition when (b : bool) (c : M unit) : M unit := if b then c else ret tt.

(** [for (unsigned i = start; i < start + n; ++i) s = body(i, s)], for a
    bound the body does not write; [s] stands for the locals the loop
    carries from one round to the next. *)
Fixpoint forAccum {S : Type} (n : nat) (i : Z) (s : S) (body : Z -> S -> M S) : M S :=
  match n with
  | O => ret s
  | S n' => let* s' := body i s in forAccum n' (i + 1) s' body
  end.

Definition forRange (n : nat) (body : Z -> M unit) : M unit :=
  forAccum n 0 tt (fun i _ => body i).

(** ** The member functions of Texture2DArray (desktop OpenGL build, that
       is, without GL_ES_VERSION_2_0) *)

Section Model.
Context {E : Externals}.

Definition IsCompressed (t : Texture2DArray) : bool := IsCompressedFormat (format_ t).
Definition GetSRGB (t : Texture2DArray) : bool := sRGB_ t.

Definition isThisTexture (r : option TextureRef) : bool :=
  match r with
  | Some ThisTexture => true
  | _ => false
  end.

(** [PODVector::Resize]: the first elements are kept, added ones are not
    initialised. *)
Definition PODVector_Resize (newSize : Z) (v : PODVector.t) : PODVector.t :=
  let n := Z.to_nat newSize in
  {| PODVector.buffer_ :=
       take n (PODVector.buffer_ v)
       ++ replicate (n - length (PODVector.buffer_ v))%nat indeterminate;
     PODVector.capacity_ :=
       if PODVector.capacity_ v <? newSize
       then growCapacity (PODVector.capacity_ v) newSize
       else PODVector.capacity_ v |}.

(** Modelled from the spec: Texture::SetNumLevels belongs to the base
    class; it records the requested mip-level count. *)
Definition SetNumLevels (levels : Z) : M unit := update (set_requestedLevels_ levels).

(** [Resource::SetMemoryUse]. *)
Definition SetMemoryUse (size : Z) : M unit := update (set_memoryUse_ size).

(** Modelled from the spec: Texture::UpdateParameters belongs to the base
    class; it applies the filtering and wrap parameters to the bound
    object, and does nothing without an object or without Graphics. *)
Definition Texture_UpdateParameters : M unit :=
  let* t := self in
  let* present := hasGraphics in
  if (object_name_ t =? 0) || negb present then ret tt
  else onGraphics (issue (UpdateParameters (object_name_ t))).

(** [graphics_->SetTextureForUpdate(this)] *)
Definition SetTextureForUpdate : M unit :=
  let* t := self in onGraphics (Graphics_SetTextureForUpdate (object_name_ t)).

(** [glGenTextures(1, &object_.name_)] *)
Definition glGenTextures_object : M unit :=
  let* g := graphics in
  let name := Z.pos (nextName_ g) in
  onGraphics (fun g => issue (glGenTextures name)
                         {| deviceLost_ := deviceLost_ g; textures_ := textures_ g;
                            commands_ := commands_ g;
                            nextName_ := Pos.succ (nextName_ g) |}) ;;
  update (set_object_name_ name).

(** *** Release *)

(** [for (unsigned i = 0; i < MAX_TEXTURE_UNITS; ++i)
      if (graphics_->GetTexture(i) == this) graphics_->SetTexture(i, 0);] *)
Definition unbindFromUnits : M unit :=
  forRange (Z.to_nat MAX_TEXTURE_UNITS) (fun i =>
    let* g := graphics in
    when (isThisTexture (Graphics_GetTexture g i))
         (onGraphics (Graphics_SetTexture i None))).

Definition Release : M unit :=
  let* t := self in
  if negb (object_name_ t =? 0) then
    let* present := hasGraphics in
    if negb present then ret tt
    else
      let* lost := IsDeviceLost in
      when (negb lost)
        (unbindFromUnits ;;
         onGraphics (issue (glDeleteTextures (object_name_ t)))) ;;
      update (fun t => set_renderSurface_ (RenderSurface_Release <$> renderSurface_ t) t) ;;
      update (set_object_name_ 0)
  else ret tt.

(** *** Create *)

(** [while (maxSize) { maxSize >>= 1; ++levels_; }] *)
Fixpoint countLevels (fuel : nat) (maxSize levels : Z) : Z :=
  match fuel with
  | O => levels
  | S fuel' =>
      if maxSize =? 0 then levels
      else countLevels fuel' (Z.shiftr maxSize 1) (u32 (levels + 1))
  end.

Definition Create : M bool :=
  Release ;;
  let* t := self in
  let* present := hasGraphics in
  if negb present || (width_ t =? 0) || (height_ t =? 0) || (layers_ t =? 0) then ret false
  else
    let* lost := IsDeviceLost in
    if lost then
      URHO3D_LOGWARNING "Texture array creation while device is lost" ;;
      ret true
    else
      glGenTextures_object ;;
      (* Ensure that our texture is bound to OpenGL texture unit 0 *)
      SetTextureForUpdate ;;
      let* t := self in
      let format := if GetSRGB t then GetSRGBFormat (format_ t) else format_ t in
      let externalFormat := GetExternalFormat (format_ t) in
      let dataType := GetDataType (format_ t) in
      (* If not compressed, create the initial level 0 texture with null data *)
      let* success :=
        (if negb (IsCompressed t) then
           let alloc := glTexImage3D (target_ t) 0 format (width_ t) (height_ t)
                          (layers_ t) 0 externalFormat dataType None in
           onGraphics (issue glGetError) ;;
           onGraphics (issue alloc) ;;
           onGraphics (issue glGetError) ;;
           ret (glError alloc =? 0)
         else ret true) in
      when (negb success) (URHO3D_LOGERROR "Failed to create texture array") ;;
      (* Set mipmapping *)
      update (fun t => set_levels_ (requestedLevels_ t) t) ;;
      let* t := self in
      when (levels_ t =? 0)
        (update (set_levels_
                   (countLevels 32 (u32 (Z.max (width_ t) (height_ t))) 0))) ;;
      let* t := self in
      onGraphics (issue (glTexParameteri (target_ t) GL_TEXTURE_BASE_LEVEL 0)) ;;
      onGraphics (issue (glTexParameteri (target_ t) GL_TEXTURE_MAX_LEVEL
                           (s32 (levels_ t - 1)))) ;;
      (* Set initial parameters, then unbind the texture *)
      Texture_UpdateParameters ;;
      onGraphics (Graphics_SetTexture 0 None) ;;
      ret success.

(** *** SetLayers, SetSize *)

Definition SetLayers (layers : Z) : M unit :=
  Release ;;
  update (set_layers_ layers).

(** [for (unsigned i = 0; i < layers_; ++i) layerMemoryUse_[i] = 0;] *)
Definition clearLayerMemoryUse : M unit :=
  let* t := self in
  forRange (Z.to_nat (layers_ t)) (fun i =>
    update (fun t => set_layerMemoryUse_ (PODVector.set i 0 (layerMemoryUse_ t)) t)).

Definition SetSize (layers width height format : Z) (usage : TextureUsage) : M bool :=
  if (width <=? 0) || (height <=? 0) then
    URHO3D_LOGERROR "Zero or negative texture array size" ;;
    ret false
  else if TextureUsage_eqb usage TEXTURE_DEPTHSTENCIL then
    URHO3D_LOGERROR "Depth-stencil usage not supported for texture arrays" ;;
    ret false
  else
    (* Delete the old rendersurface if any *)
    update (set_renderSurface_ None) ;;
    update (set_usage_ usage) ;;
    when (TextureUsage_eqb usage TEXTURE_RENDERTARGET)
      (update (set_renderSurface_ (Some RenderSurface_new)) ;;
       (* Nearest filtering and mipmaps disabled by default *)
       update (set_filterMode_ FILTER_NEAREST) ;;
       update (set_requestedLevels_ 1)) ;;
    update (set_subscribedToRenderSurfaceUpdate_
              (TextureUsage_eqb usage TEXTURE_RENDERTARGET)) ;;
    update (set_width_ width) ;;
    update (set_height_ height) ;;
    update (set_format_ format) ;;
    when (negb (layers =? 0)) (update (set_layers_ layers)) ;;
    update (fun t =>
              set_layerMemoryUse_ (PODVector_Resize (layers_ t) (layerMemoryUse_ t)) t) ;;
    clearLayerMemoryUse ;;
    Create.

(** *** SetData(layer, level, x, y, width, height, data) *)

Definition SetData (layer level x y width height : Z) (data : option Buffer) : M bool :=
  let* t := self in
  let* present := hasGraphics in
  if (object_name_ t =? 0) || negb present then
    URHO3D_LOGERROR "Texture array not created, can not set data" ;;
    ret false
  else if negb (nonNull data) then
    URHO3D_LOGERROR "Null source for setting data" ;;
    ret false
  else if layers_ t <=? layer then
    URHO3D_LOGERROR "Illegal layer for setting data" ;;
    ret false
  else if levels_ t <=? level then
    URHO3D_LOGERROR "Illegal mip level for setting data" ;;
    ret false
  else
    let* lost := IsDeviceLost in
    if lost then
      URHO3D_LOGWARNING "Texture array data assignment while device is lost" ;;
      update (set_dataPending_ true) ;;
      ret true
    else
      let x := if IsCompressed t then Z.land x (Z.lnot 3) else x in
      let y := if IsCompressed t then Z.land y (Z.lnot 3) else y in
      let levelWidth := GetLevelWidth t level in
      let levelHeight := GetLevelHeight t level in
      if (x <? 0) || (levelWidth <? s32 (x + width)) || (y <? 0)
         || (levelHeight <? s32 (y + height)) || (width <=? 0) || (height <=? 0) then
        URHO3D_LOGERROR "Illegal dimensions for setting data" ;;
        ret false
      else
        SetTextureForUpdate ;;
        let wholeLevel := (x =? 0) && (y =? 0) && (width =? levelWidth)
                          && (height =? levelHeight) && (layer =? 0) in
        let format := if GetSRGB t then GetSRGBFormat (format_ t) else format_ t in
        (if negb (IsCompressed t) then
           when wholeLevel
             (onGraphics (issue (glTexImage3D (target_ t) level format width height
                                   (layers_ t) 0 (GetExternalFormat (format_ t))
                                   (GetDataType (format_ t)) None))) ;;
           onGraphics (issue (glTexSubImage3D (target_ t) level x y layer width height 1
                                (GetExternalFormat (format_ t))
                                (GetDataType (format_ t)) data))
         else
           when wholeLevel
             (onGraphics (issue (glCompressedTexImage3D (target_ t) level format width
                                   height (layers_ t) 0
                                   (GetDataSize3 (format_ t) width height (layers_ t))
                                   None))) ;;
           onGraphics (issue (glCompressedTexSubImage3D (target_ t) level x y layer width
                                height 1 format (GetDataSize (format_ t) width height)
                                data))) ;;
        onGraphics (Graphics_SetTexture 0 None) ;;
        ret true.

(** *** SetData(layer, image, useAlpha) *)

(** [mipsToSkip_[quality]]; the table has one entry per quality level. *)
Definition mipsToSkipAt (quality : Z) : M Z :=
  let* t := self in
  match (if quality <? 0 then None else mipsToSkip_ t !! Z.to_nat quality) with
  | Some n => ret n
  | None => crash IndexOutOfRange
  end.

(** [1 << n] on int. *)
Definition shl1 (n : Z) : Z := s32 (Z.shiftl 1 n).

(** [if (mipsToSkip >= levels) mipsToSkip = levels - 1;] *)
Definition clampToLevels (mipsToSkip levels : Z) : Z :=
  if levels <=? mipsToSkip then u32 (levels - 1) else mipsToSkip.

(** [while (mipsToSkip && (width / (1 << mipsToSkip) < 4 ||
            height / (1 << mipsToSkip) < 4)) --mipsToSkip;] *)
Fixpoint decrementWhileSmall (fuel : nat) (width height mipsToSkip : Z) : Z :=
  match fuel with
  | O => mipsToSkip
  | S fuel' =>
      if negb (mipsToSkip =? 0)
         && ((width ÷ shl1 mipsToSkip <? 4) || (height ÷ shl1 mipsToSkip <? 4))
      then decrementWhileSmall fuel' width height (u32 (mipsToSkip - 1))
      else mipsToSkip
  end.

(** The skip count the compressed path ends up with.  Every round of the
    loop lowers the count by one, so [mipsToSkip] rounds are enough. *)
Definition clampMipsToSkip (requested levels width height : Z) : Z :=
  let mipsToSkip := clampToLevels requested levels in
  decrementWhileSmall (Z.to_nat mipsToSkip) width height mipsToSkip.

(** [switch (components)]; [None] is the [default:] label. *)
Definition formatFor (components : Z) (useAlpha : bool) : option Z :=
  if components =? 1 then Some (if useAlpha then GetAlphaFormat else GetLuminanceFormat)
  else if components =? 2 then Some GetLuminanceAlphaFormat
  else if components =? 3 then Some GetRGBFormat
  else if components =? 4 then Some GetRGBAFormat
  else None.

Definition formatOfComponents (components : Z) (useAlpha : bool) : M Z :=
  match formatFor components useAlpha with
  | Some format => ret format
  | None => crash AssertionFailed   (* assert(false); Should not reach here *)
  end.

(** [Renderer* renderer = GetSubsystem<Renderer>(); if (renderer) ...] *)
Definition textureQuality (w : World) : Z :=
  match renderer_ w with
  | Some r => textureQuality_ r
  | None => QUALITY_HIGH
  end.

(** Convert unsuitable formats to RGBA. *)
Definition convertUnsuitable (image : Image.t) (useAlpha : bool) : option Image.t :=
  let components := Image.GetComponents image in
  if GetGL3Support && (((components =? 1) && negb useAlpha) || (components =? 2))
  then ConvertToRGBA image else Some image.

(** The test every layer but the first must pass before its upload. *)
Definition checkAgainstLayer0 (width height format : Z) : M bool :=
  let* t := self in
  if object_name_ t =? 0 then
    URHO3D_LOGERROR "Texture array layer 0 must be loaded first" ;;
    ret false
  else if negb (width =? width_ t) || negb (height =? height_ t)
          || negb (format =? format_ t) then
    URHO3D_LOGERROR "Texture array layer does not match size or format of layer 0" ;;
    ret false
  else ret true.

(** [for (unsigned i = 0; i < levels_; ++i)] of the uncompressed arm: one
    upload per level, stepping down the image's mip chain.  [levelData],
    [levelWidth] and [levelHeight] always mirror the current [image]. *)
Definition uploadMipChain (layer components : Z) (image : Image.t) : M Z :=
  let* t := self in
  let* final :=
    forAccum (Z.to_nat (levels_ t)) 0 (image, 0)
      (fun i '(image, memoryUse) =>
         let levelWidth := Image.GetWidth image in
         let levelHeight := Image.GetHeight image in
         let* _ := SetData layer i 0 0 levelWidth levelHeight (Image.GetData image) in
         let memoryUse := u32 (memoryUse + levelWidth * levelHeight * components) in
         let* t := self in
         ret (if i <? u32 (levels_ t - 1) then GetNextLevel image else image,
              memoryUse)) in
  ret (snd final).

(** [for (unsigned i = 0; i < levels_ && i < levels - mipsToSkip; ++i)] of
    the compressed arm. *)
Definition uploadCompressedLevels (layer : Z) (image : Image.t)
    (levels mipsToSkip : Z) (needDecompress : bool) : M Z :=
  let* t := self in
  forAccum (Z.to_nat (Z.min (levels_ t) (u32 (levels - mipsToSkip)))) 0 0
    (fun i memoryUse =>
       let level := Image.GetCompressedLevel image (u32 (i + mipsToSkip)) in
       if negb needDecompress then
         let* _ := SetData layer i 0 0 (CompressedLevel.width_ level)
                     (CompressedLevel.height_ level) (CompressedLevel.data_ level) in
         ret (u32 (memoryUse
                   + CompressedLevel.rows_ level * CompressedLevel.rowSize_ level))
       else
         let rgbaData := Decompress level in
         let* _ := SetData layer i 0 0 (CompressedLevel.width_ level)
                     (CompressedLevel.height_ level) (Some rgbaData) in
         ret (u32 (memoryUse
                   + CompressedLevel.width_ level * CompressedLevel.height_ level * 4))).

(** The arm for an uncompressed image; [None] is an early [return false],
    [Some memoryUse] falls through to the common tail. *)
Definition SetData_uncompressed (layer : Z) (image : Image.t) (useAlpha : bool)
    (quality : Z) : M (option Z) :=
  match convertUnsuitable image useAlpha with
  | None => ret None
  | Some image =>
      let components := Image.GetComponents image in
      (* Discard unnecessary mip levels *)
      let* skip := mipsToSkipAt quality in
      let image := Nat.iter (Z.to_nat skip) GetNextLevel image in
      let levelWidth := Image.GetWidth image in
      let levelHeight := Image.GetHeight image in
      let* format := formatOfComponents components useAlpha in
      let* proceed :=
        (if layer =? 0 then
           let* t := self in
           when (IsCompressed t && (1 <? requestedLevels_ t))
                (update (set_requestedLevels_ 0)) ;;
           let* _ := SetSize 0 levelWidth levelHeight format TEXTURE_STATIC in
           ret true
         else checkAgainstLayer0 levelWidth levelHeight format) in
      if negb proceed then ret None
      else
        let* memoryUse := uploadMipChain layer components image in
        ret (Some memoryUse)
  end.

(** The arm for a compressed image. *)
Definition SetData_compressed (layer : Z) (image : Image.t) (quality : Z)
    : M (option Z) :=
  let width := Image.GetWidth image in
  let height := Image.GetHeight image in
  let levels := Image.GetNumCompressedLevels image in
  let* _ := graphics in   (* graphics_->GetFormat(...) *)
  let looked := GetFormat (Image.GetCompressedFormat image) in
  let needDecompress := looked =? 0 in
  let format := if needDecompress then GetRGBAFormat else looked in
  let* requested := mipsToSkipAt quality in
  if 31 <=? clampToLevels requested levels then crash ShiftOutOfRange
  else
    let mipsToSkip := clampMipsToSkip requested levels width height in
    let width := width ÷ shl1 mipsToSkip in
    let height := height ÷ shl1 mipsToSkip in
    let* proceed :=
      (if layer =? 0 then
         SetNumLevels (Z.max (u32 (levels - mipsToSkip)) 1) ;;
         let* _ := SetSize 0 width height format TEXTURE_STATIC in
         ret true
       else checkAgainstLayer0 width height format) in
    if negb proceed then ret None
    else
      let* memoryUse :=
        uploadCompressedLevels layer image levels mipsToSkip needDecompress in
      ret (Some memoryUse).

(** [for (unsigned i = 0; i < layers_; ++i)
      totalMemoryUse += layerMemoryUse_[i];] *)
Definition addLayerMemoryUse (totalMemoryUse : Z) : M Z :=
  let* t := self in
  forAccum (Z.to_nat (layers_ t)) 0 totalMemoryUse
    (fun i total =>
       match PODVector.get i (layerMemoryUse_ t) with
       | Some use => ret (u32 (total + use))
       | None => crash IndexOutOfRange
       end).

(** [layerMemoryUse_[layer] = memoryUse] and the total that follows it. *)
Definition recordMemoryUse (layer memoryUse : Z) : M unit :=
  let* t := self in
  if PODVector.Size (layerMemoryUse_ t) <=? layer then crash IndexOutOfRange
  else
    update (fun t =>
              set_layerMemoryUse_ (PODVector.set layer memoryUse (layerMemoryUse_ t)) t) ;;
    let* t := self in
    let* totalMemoryUse :=
      addLayerMemoryUse
        (u32 (sizeof_Texture2DArray + PODVector.Capacity (layerMemoryUse_ t) * 4)) in
    SetMemoryUse totalMemoryUse.

Definition SetData_image (layer : Z) (image : option Image.t) (useAlpha : bool) : M bool :=
  let* t := self in
  match image with
  | None =>
      URHO3D_LOGERROR "Null image, can not set data" ;;
      ret false
  | Some image =>
      if layers_ t =? 0 then
        URHO3D_LOGERROR "Number of layers in the array must be set first" ;;
        ret false
      else if layers_ t <=? layer then
        URHO3D_LOGERROR "Illegal layer for setting data" ;;
        ret false
      else
        let* quality := (fun w => Done (textureQuality w) w) in
        let* uploaded :=
          (if negb (Image.IsCompressed image)
           then SetData_uncompressed layer image useAlpha quality
           else SetData_compressed layer image quality) in
        match uploaded with
        | None => ret false
        | Some memoryUse =>
            recordMemoryUse layer memoryUse ;;
            ret true
        end
  end.

(** *** GetData *)

Definition GetData (layer level : Z) (dest : option Z) : M bool :=
  let* t := self in
  let* present := hasGraphics in
  if (object_name_ t =? 0) || negb present then
    URHO3D_LOGERROR "Texture array not created, can not get data" ;;
    ret false
  else if negb (nonNull dest) then
    URHO3D_LOGERROR "Null destination for getting data" ;;
    ret false
  else if negb (layer =? 0) then
    URHO3D_LOGERROR "Only the full download of the array is supported, set layer=0" ;;
    ret false
  else if levels_ t <=? level then
    URHO3D_LOGERROR "Illegal mip level for getting data" ;;
    ret false
  else
    let* lost := IsDeviceLost in
    if lost then
      URHO3D_LOGWARNING "Getting texture data while device is lost" ;;
      ret false
    else
      SetTextureForUpdate ;;
      (if negb (IsCompressed t) then
         onGraphics (issue (glGetTexImage (target_ t) level
                              (GetExternalFormat (format_ t)) (GetDataType (format_ t))))
       else onGraphics (issue (glGetCompressedTexImage (target_ t) level))) ;;
      onGraphics (Graphics_SetTexture 0 None) ;;
      ret true.

(** *** BeginLoad, EndLoad *)

Definition onCache (f : ResourceCache -> ResourceCache) : M unit :=
  fun w => Done tt (set_cache_ (f (cache_ w)) w).

Definition ResetDependencies (c : ResourceCache) : ResourceCache :=
  {| dependencies_ := [] |}.

Definition StoreResourceDependency (name : string) (c : ResourceCache) : ResourceCache :=
  {| dependencies_ := dependencies_ c ++ [name] |}.

Definition isAsyncLoading (s : AsyncLoadState) : bool :=
  match s with
  | ASYNC_LOADING => true
  | _ => false
  end.

(** [for each x in xs: body(x)] *)
Fixpoint forEach {A : Type} (xs : list A) (body : A -> M unit) : M unit :=
  match xs with
  | [] => ret tt
  | x :: rest => body x ;; forEach rest body
  end.

Definition BeginLoad (source : Deserializer) : M bool :=
  (* In headless mode, do not actually load the texture, just return success *)
  let* present := hasGraphics in
  if negb present then ret true
  else
    (* If device is lost, retry later *)
    let* lost := IsDeviceLost in
    if lost then
      URHO3D_LOGWARNING "Texture load while device is lost" ;;
      update (set_dataPending_ true) ;;
      ret true
    else
      onCache ResetDependencies ;;
      let* t := self in
      let texPath := fst (fst (SplitPath (name_ t))) in
      match XMLFile_Load source with
      | None =>
          update (set_loadParameters_ None) ;;
          ret false
      | Some xml =>
          update (set_loadParameters_ (Some xml)) ;;
          update (set_loadImages_ []) ;;
          forEach (childrenNamed xml "layer") (fun layerElem =>
            let name := GetAttribute layerElem "name" in
            (* If path is empty, add the XML file path *)
            let name := if String.eqb (GetPath name) "" then texPath +:+ name else name in
            update (fun t => set_loadImages_ (loadImages_ t ++ [GetTempResource name]) t) ;;
            onCache (StoreResourceDependency name)) ;;
          (* Precalculate mip levels if async loading *)
          let* t := self in
          when (isAsyncLoading (asyncLoadState_ t))
            (update (fun t => set_loadImages_
                                (map (option_map PrecalculateLevels) (loadImages_ t)) t)) ;;
          ret true
      end.

(** [for (unsigned i = 0; i < loadImages_.Size(); ++i)
      SetData(i, loadImages_[i]);] *)
Definition uploadLoadedImages : M unit :=
  let* t := self in
  forRange (length (loadImages_ t)) (fun i =>
    let* t := self in
    let* _ := SetData_image i (default None (loadImages_ t !! Z.to_nat i)) false in
    ret tt).

Definition EndLoad : M bool :=
  (* In headless mode, do not actually load the texture, just return success *)
  let* present := hasGraphics in
  if negb present then ret true
  else
    let* lost := IsDeviceLost in
    if lost then ret true
    else
      (* If over the texture budget, see if materials can be freed *)
      onCache CheckTextureBudget ;;
      update (fun t => SetParameters (loadParameters_ t) t) ;;
      let* t := self in
      SetLayers (Z.of_nat (length (loadImages_ t))) ;;
      uploadLoadedImages ;;
      update (set_loadImages_ []) ;;
      update (set_loadParameters_ None) ;;
      ret true.

(** *** OnDeviceReset *)

Definition cache_ReloadResource : M bool :=
  fun w => let '(ok, w') := ReloadResource w in Done ok w'.

Definition OnDeviceReset : M unit :=
  let* t := self in
  when ((object_name_ t =? 0) || dataPending_ t)
    ((* If has a resource file, reload through the resource cache.
        Otherwise just recreate. *)
     when (Exists (name_ t))
       (let* ok := cache_ReloadResource in update (set_dataLost_ (negb ok))) ;;
     let* t := self in
     when (object_name_ t =? 0)
       (let* _ := Create in update (set_dataLost_ true))) ;;
  update (set_dataPending_ false).
End Model.

Arguments u32 : simpl never.
Arguments s32 : simpl never.
Arguments countLevels : simpl never.
Arguments shl1 : simpl never.
Arguments clampMipsToSkip : simpl never.
Arguments decrementWhileSmall : simpl never.
Arguments PODVector_Resize : simpl never.
Arguments forAccum : simpl never.
Arguments forRange : simpl never.

(** ** The object as the constructors leave it *)

(** [Texture2DArray::Texture2DArray]: [layers_(0)] and the array target;
    the other members carry the defaults of the Texture base class. *)
Definition Texture2DArray_new (name : string) : Texture2DArray :=
  {| object_name_ := 0; target_ := GL_TEXTURE_2D_ARRAY; width_ := 0; height_ := 0;
     format_ := 0; layers_ := 0; levels_ := 0; requestedLevels_ := 0;
     usage_ := TEXTURE_STATIC; filterMode_ := FILTER_DEFAULT; sRGB_ := false;
     mipsToSkip_ := [2; 1; 0]; renderSurface_ := None;
     subscribedToRenderSurfaceUpdate_ := false; layerMemoryUse_ := PODVector.empty;
     memoryUse_ := 0; dataPending_ := false; dataLost_ := false;
     loadParameters_ := None; loadImages_ := []; name_ := name;
     asyncLoadState_ := ASYNC_DONE |}.

(** ** A concrete setting: desktop OpenGL 2 with S3TC support *)

Definition GL_ALPHA : Z := 0x1906.
Definition GL_RGB : Z := 0x1907.
Definition GL_RGBA : Z := 0x1908.
Definition GL_LUMINANCE : Z := 0x1909.
Definition GL_LUMINANCE_ALPHA : Z := 0x190A.
Definition GL_UNSIGNED_BYTE : Z := 0x1401.
Definition GL_COMPRESSED_RGBA_S3TC_DXT1_EXT : Z := 0x83F1.
Definition GL_COMPRESSED_RGBA_S3TC_DXT3_EXT : Z := 0x83F2.
Definition GL_COMPRESSED_RGBA_S3TC_DXT5_EXT : Z := 0x83F3.
Definition GL_INVALID_VALUE : Z := 0x0501.

Definition desktop_GetFormat (f : CompressedFormat) : Z :=
  match f with
  | CF_RGBA => GL_RGBA
  | CF_DXT1 => GL_COMPRESSED_RGBA_S3TC_DXT1_EXT
  | CF_DXT3 => GL_COMPRESSED_RGBA_S3TC_DXT3_EXT
  | CF_DXT5 => GL_COMPRESSED_RGBA_S3TC_DXT5_EXT
  | _ => 0
  end.

Definition desktop_IsCompressedFormat (format : Z) : bool :=
  (format =? GL_COMPRESSED_RGBA_S3TC_DXT1_EXT)
  || (format =? GL_COMPRESSED_RGBA_S3TC_DXT3_EXT)
  || (format =? GL_COMPRESSED_RGBA_S3TC_DXT5_EXT).

Definition desktop_GetDataSize (format width height : Z) : Z :=
  if format =? GL_COMPRESSED_RGBA_S3TC_DXT1_EXT
  then ((width + 3) / 4) * ((height + 3) / 4) * 8
  else if desktop_IsCompressedFormat format
       then ((width + 3) / 4) * ((height + 3) / 4) * 16
       else width * height * 4.

Definition desktop_GetLevelWidth (t : Texture2DArray) (level : Z) : Z :=
  if levels_ t <? level then 0 else Z.max (Z.shiftr (width_ t) level) 1.

Definition desktop_GetLevelHeight (t : Texture2DArray) (level : Z) : Z :=
  if levels_ t <? level then 0 else Z.max (Z.shiftr (height_ t) level) 1.

Definition blank (size : Z) : Buffer := replicate (Z.to_nat size) Byte.x00.

Definition desktop_GetNextLevel (i : Image.t) : Image.t :=
  let w := Z.max (Image.width_ i / 2) 1 in
  let h := Z.max (Image.height_ i / 2) 1 in
  {| Image.data_ := Some (blank (w * h * Image.components_ i));
     Image.width_ := w; Image.height_ := h;
     Image.components_ := Image.components_ i;
     Image.compressedFormat_ := CF_NONE;
     Image.numCompressedLevels_ := 0;
     Image.compressedLevels_ := [] |}.

Definition desktop_ConvertToRGBA (i : Image.t) : option Image.t :=
  if Image.IsCompressed i then None
  else Some {| Image.data_ := Some (blank (Image.width_ i * Image.height_ i * 4));
               Image.width_ := Image.width_ i; Image.height_ := Image.height_ i;
               Image.components_ := 4;
               Image.compressedFormat_ := CF_NONE;
               Image.numCompressedLevels_ := 0;
               Image.compressedLevels_ := [] |}.

(** Modelled from the spec: PODVector::Resize is outside this file.  An
    empty vector takes the new size as its capacity; otherwise
    [while (capacity_ < newSize) capacity_ += (capacity_ + 1) >> 1;].  The
    capacity is at least 1 there and grows in every round, so [newSize]
    rounds are enough. *)
Fixpoint growWhileSmaller (fuel : nat) (capacity newSize : Z) : Z :=
  match fuel with
  | O => capacity
  | S fuel' =>
      if capacity <? newSize
      then growWhileSmaller fuel' (u32 (capacity + Z.shiftr (u32 (capacity + 1)) 1)) newSize
      else capacity
  end.

Definition desktop_growCapacity (capacity newSize : Z) : Z :=
  if capacity =? 0 then newSize
  else growWhileSmaller (Z.to_nat newSize) capacity newSize.

(** Modelled from the spec: the path helpers of IO/FileSystem are outside
    this file.  [SplitPath] turns backslashes into slashes, cuts off the
    extension at the last dot when that dot comes after the last slash,
    lower-cases it, and cuts the rest after its last slash into path and
    file name; [GetPath] is the path part. *)
Fixpoint lastIndexOf (c : Ascii.ascii) (s : string) (i : nat) (found : option nat) : option nat :=
  match s with
  | EmptyString => found
  | String a rest => lastIndexOf c rest (S i) (if Ascii.eqb a c then Some i else found)
  end.

Fixpoint mapChars (f : Ascii.ascii -> Ascii.ascii) (s : string) : string :=
  match s with
  | EmptyString => EmptyString
  | String a rest => String (f a) (mapChars f rest)
  end.

Definition lowerChar (a : Ascii.ascii) : Ascii.ascii :=
  let n := Ascii.nat_of_ascii a in
  if (65 <=? n)%nat && (n <=? 90)%nat then Ascii.ascii_of_nat (n + 32) else a.

(** The characters the path helpers look for. *)
Definition backslash : Ascii.ascii := Ascii.ascii_of_nat 92.
Definition slash : Ascii.ascii := Ascii.ascii_of_nat 47.
Definition dot : Ascii.ascii := Ascii.ascii_of_nat 46.

Definition GetInternalPath (s : string) : string :=
  mapChars (fun a => if Ascii.eqb a backslash then slash else a) s.

Definition desktop_SplitPath (fullPath : string) : string * string * string :=
  let copy := GetInternalPath fullPath in
  let extPos := lastIndexOf dot copy 0 None in
  let pathPos := lastIndexOf slash copy 0 None in
  let '(extension, copy) :=
    match extPos, pathPos with
    | Some e, None =>
        (mapChars lowerChar (String.substring e (String.length copy - e) copy),
         String.substring 0 e copy)
    | Some e, Some p =>
        if (p <? e)%nat
        then (mapChars lowerChar (String.substring e (String.length copy - e) copy),
              String.substring 0 e copy)
        else (EmptyString, copy)
    | None, _ => (EmptyString, copy)
    end in
  match lastIndexOf slash copy 0 None with
  | Some p => (String.substring 0 (p + 1) copy,
               String.substring (p + 1) (String.length copy - (p + 1)) copy, extension)
  | None => (EmptyString, copy, extension)
  end.

Definition desktop_GetPath (fullPath : string) : string :=
  fst (fst (desktop_SplitPath fullPath)).

(** The setting is completed by the descriptor parser, the images and files
    the cache knows, what a reload does, and the driver's errors. *)
Definition desktop
    (parse : Deserializer -> option XMLFile)
    (images : string -> option Image.t)
    (files : string -> bool)
    (reload : World -> bool * World)
    (errors : Command -> Z) : Externals :=
  {| MAX_TEXTURE_UNITS := 16;
     sizeof_Texture2DArray := 384;
     GetGL3Support := false;
     GetAlphaFormat := GL_ALPHA;
     GetLuminanceFormat := GL_LUMINANCE;
     GetLuminanceAlphaFormat := GL_LUMINANCE_ALPHA;
     GetRGBFormat := GL_RGB;
     GetRGBAFormat := GL_RGBA;
     GetFormat := desktop_GetFormat;
     IsCompressedFormat := desktop_IsCompressedFormat;
     GetSRGBFormat := fun format => format;
     GetExternalFormat := fun format => format;
     GetDataType := fun _ => GL_UNSIGNED_BYTE;
     GetDataSize := desktop_GetDataSize;
     GetDataSize3 := fun format w h d => d * desktop_GetDataSize format w h;
     GetLevelWidth := desktop_GetLevelWidth;
     GetLevelHeight := desktop_GetLevelHeight;
     SetParameters := fun _ t => t;
     GetNextLevel := desktop_GetNextLevel;
     ConvertToRGBA := desktop_ConvertToRGBA;
     PrecalculateLevels := fun i => i;
     Decompress := fun l => blank (CompressedLevel.width_ l * CompressedLevel.height_ l * 4);
     glError := errors;
     XMLFile_Load := parse;
     GetPath := desktop_GetPath;
     SplitPath := desktop_SplitPath;
     Exists := files;
     GetTempResource := images;
     ReloadResource := reload;
     CheckTextureBudget := fun c => c;
     growCapacity := desktop_growCapacity;
     indeterminate := 0xCDCDCDCD |}.

Definition noDescriptor : Deserializer -> option XMLFile := fun _ => None.
Definition noImages : string -> option Image.t := fun _ => None.
Definition noFiles : string -> bool := fun _ => false.
Definition noReload : World -> bool * World := fun w => (false, w).
Definition noErrors : Command -> Z := fun _ => 0.

(** A manually created texture on a driver that raises no error. *)
Definition plain : Externals := desktop noDescriptor noImages noFiles noReload noErrors.

(** A driver whose array textures are at most 16384 texels wide and high
    and 2048 layers deep; a larger allocation raises GL_INVALID_VALUE. *)
Definition limited : Externals :=
  desktop noDescriptor noImages noFiles noReload
    (fun c => match c with
              | glTexImage3D _ _ _ width height depth _ _ _ _ =>
                  if (16384 <? width) || (16384 <? height) || (2048 <? depth)
                  then GL_INVALID_VALUE else 0
              | _ => 0
              end).

Definition freshGraphics : Graphics :=
  {| deviceLost_ := false; textures_ := replicate 16 None; commands_ := [];
     nextName_ := 1%positive |}.

Definition worldOf (t : Texture2DArray) (g : option Graphics) : World :=
  {| this := t; graphics_ := g; renderer_ := Some {| textureQuality_ := QUALITY_HIGH |};
     cache_ := {| dependencies_ := [] |}; log_ := [] |}.

(** A freshly constructed texture array on a live device. *)
Definition freshWorld : World := worldOf (Texture2DArray_new "") (Some freshGraphics).

(** An uncompressed image of the given size and channel count. *)
Definition solidImage (width height components : Z) : Image.t :=
  {| Image.data_ := Some (blank (width * height * components));
     Image.width_ := width; Image.height_ := height; Image.components_ := components;
     Image.compressedFormat_ := CF_NONE; Image.numCompressedLevels_ := 0;
     Image.compressedLevels_ := [] |}.

(** The world an outcome ends in; the starting world if it crashed. *)
Definition worldAfter {A : Type} (o : Outcome A) (otherwise : World) : World :=
  match o with
  | Done _ w => w
  | Crash _ => otherwise
  end.

Definition resultOf {A : Type} (o : Outcome A) : option A :=
  match o with
  | Done a _ => Some a
  | Crash _ => None
  end.

(** The same world with the device lost, or back. *)
Definition setDeviceLost (lost : bool) (w : World) : World :=
  set_graphics_
    (option_map (fun g => {| deviceLost_ := lost; textures_ := textures_ g;
                             commands_ := commands_ g; nextName_ := nextName_ g |})
       (graphics_ w)) w.

(** Modelled from the spec: the resource cache is outside this file; its
    reload replays the load pipeline on the resource, parse then
    finalize. *)
Definition replayLoad (E0 : Externals) (source : Deserializer) (w : World) : bool * World :=
  match (let* ok := BeginLoad (E := E0) source in
         if ok then EndLoad (E := E0) else ret false) w with
  | Done ok w' => (ok, w')
  | Crash _ => (false, w)
  end.

(** A descriptor file that parses and names no layer. *)
Definition emptyDescriptor : Deserializer -> option XMLFile :=
  fun _ => Some {| rootChildren_ := [] |}.

Definition layerless : Externals :=
  desktop emptyDescriptor noImages (fun _ => true)
    (replayLoad (desktop emptyDescriptor noImages (fun _ => true) noReload noErrors) [])
    noErrors.

(** A two-layer 4x4 RGBA array, sized on a live device. *)
Definition sizedWorld (E0 : Externals) (name : string) : World :=
  let w := worldOf (Texture2DArray_new name) (Some freshGraphics) in
  worldAfter (SetSize (E := E0) 2 4 4 GL_RGBA TEXTURE_STATIC w) w.

(** The Graphics subsystem of a world that has one. *)
Definition deviceOf (w : World) : Graphics := default freshGraphics (graphics_ w).

(** A DXT1 image with the given top size and the given table of levels. *)
Definition dxt1Image (width height : Z) (sizes : list (Z * Z)) : Image.t :=
  {| Image.data_ := Some (blank (desktop_GetDataSize GL_COMPRESSED_RGBA_S3TC_DXT1_EXT
                                   width height));
     Image.width_ := width; Image.height_ := height; Image.components_ := 4;
     Image.compressedFormat_ := CF_DXT1;
     Image.numCompressedLevels_ := Z.of_nat (length sizes);
     Image.compressedLevels_ :=
       map (fun '(w, h) =>
              {| CompressedLevel.data_ :=
                   Some (blank (desktop_GetDataSize GL_COMPRESSED_RGBA_S3TC_DXT1_EXT w h));
                 CompressedLevel.width_ := w; CompressedLevel.height_ := h;
                 CompressedLevel.rowSize_ := ((w + 3) / 4) * 8;
                 CompressedLevel.rows_ := (h + 3) / 4 |}) sizes |}.

(** A texture array with [layers] layers declared and nothing else done,
    whose quality table asks for [skip] levels at low quality, under a
    renderer set to low quality. *)
Definition layeredWorld (layers skip : Z) : World :=
  {| this := {| object_name_ := 0; target_ := GL_TEXTURE_2D_ARRAY; width_ := 0;
                height_ := 0; format_ := 0; layers_ := layers; levels_ := 0;
                requestedLevels_ := 0; usage_ := TEXTURE_STATIC;
                filterMode_ := FILTER_DEFAULT; sRGB_ := false;
                mipsToSkip_ := [skip; 1; 0]; renderSurface_ := None;
                subscribedToRenderSurfaceUpdate_ := false;
                layerMemoryUse_ := PODVector.empty; memoryUse_ := 0;
                dataPending_ := false; dataLost_ := false; loadParameters_ := None;
                loadImages_ := []; name_ := ""; asyncLoadState_ := ASYNC_DONE |};
     graphics_ := Some freshGraphics;
     renderer_ := Some {| textureQuality_ := QUALITY_LOW |};
     cache_ := {| dependencies_ := [] |};
     log_ := [] |}.

(** A descriptor that names two layers, in a setting where the cache finds
    neither image. *)
Definition twoLayerDescriptor : Deserializer -> option XMLFile :=
  fun _ => Some {| rootChildren_ :=
                     [ {| tag_ := "layer"; attributes_ := [("name", "a.png")] |};
                       {| tag_ := "layer"; attributes_ := [("name", "b.png")] |} ] |}.

Definition missingImages : Externals :=
  desktop twoLayerDescriptor noImages noFiles noReload noErrors.

(** A sized two-layer array that is bound to texture unit 3. *)
Definition boundWorld : World :=
  let w := sizedWorld plain "" in
  set_graphics_ (option_map (Graphics_SetTexture 3 (Some ThisTexture)) (graphics_ w)) w.

(** A one-layer 8x8 DXT1 array, sized on a live device. *)
Definition compressedWorld : World :=
  worldAfter (SetSize (E := plain) 1 8 8 GL_COMPRESSED_RGBA_S3TC_DXT1_EXT TEXTURE_STATIC
                freshWorld) freshWorld.

(** A freshly constructed texture array without a Graphics subsystem. *)
Definition headlessWorld : World := worldOf (Texture2DArray_new "") None.


(** The world after [BeginLoad] of the two-layer descriptor. *)
Definition parsedWorld : World :=
  worldAfter (BeginLoad (E := missingImages) [] freshWorld) freshWorld.

(** A setting in which the cache finds both images of the two-layer
    descriptor, the second of another size than the first. *)
Definition mismatchedImages : Externals :=
  desktop twoLayerDescriptor
    (fun name => if String.eqb name "a.png" then Some (solidImage 4 4 4)
                 else Some (solidImage 8 8 4))
    noFiles noReload noErrors.

(** The world after [BeginLoad] of the two-layer descriptor in that
    setting. *)
Definition mismatchedWorld : World :=
  worldAfter (BeginLoad (E := mismatchedImages) [] freshWorld) freshWorld.

(** ** Properties of the member functions *)

Section Properties.
Context {E : Externals}.

(** Symbolic execution of straight-line code: unfold the plumbing, leave
    the member functions and the loops folded. *)
Ltac mrun :=
  cbv beta iota delta [bind ret self update hasGraphics graphics onGraphics IsDeviceLost
                       URHO3D_LOGERROR URHO3D_LOGWARNING when crash nonNull
                       set_this set_graphics_ set_cache_ set_log_].

Ltac decide_branches :=
  repeat (simpl;
          match goal with
          | H : ?b = true |- context [?b] => rewrite H
          | H : ?b = false |- context [?b] => rewrite H
          end); simpl.

(** *** Notions the statements are written with *)

(** Two worlds that differ at most in what Graphics has bound and in the
    commands issued so far. *)
Definition sameButGraphics (w w' : World) : Prop :=
  this w' = this w /\ renderer_ w' = renderer_ w /\ cache_ w' = cache_ w
  /\ log_ w' = log_ w
  /\ match graphics_ w, graphics_ w' with
     | Some g, Some g' => deviceLost_ g' = deviceLost_ g /\ nextName_ g' = nextName_ g
     | None, None => True
     | _, _ => False
     end.

(** What [Release] leaves of the object when it goes through. *)
Definition releasedObject (t : Texture2DArray) : Texture2DArray :=
  set_object_name_ 0
    (set_renderSurface_ (RenderSurface_Release <$> renderSurface_ t) t).

(** The mip-level count [Create] settles on. *)
Definition createdLevels (t : Texture2DArray) : Z :=
  if requestedLevels_ t =? 0
  then countLevels 32 (u32 (Z.max (width_ t) (height_ t))) 0
  else requestedLevels_ t.

(** The level-0 allocation [Create] asks the driver for. *)
Definition baseAllocation (t : Texture2DArray) : Command :=
  glTexImage3D (target_ t) 0 (if GetSRGB t then GetSRGBFormat (format_ t) else format_ t)
    (width_ t) (height_ t) (layers_ t) 0 (GetExternalFormat (format_ t))
    (GetDataType (format_ t)) None.

Definition createSucceeds (t : Texture2DArray) : bool :=
  IsCompressed t || (glError (baseAllocation t) =? 0).

(** [Create] and [Release] write the handle, the level count and the
    render surface, and nothing else of the object. *)
Definition sameButHandle (t t' : Texture2DArray) : Prop :=
  exists n l rs, t' = set_object_name_ n (set_levels_ l (set_renderSurface_ rs t)).

Definition lostWarning : LogEntry :=
  LOGWARNING "Texture array creation while device is lost".

(** [layerMemoryUse_[i] = 0] for [i] from [k] on, [n] times. *)
Fixpoint zeroFrom (n k : nat) (l : list Z) : list Z :=
  match n with
  | O => l
  | S n' => zeroFrom n' (S k) (<[k := 0]> l)
  end.

Definition withBuffer (l : list Z) (t : Texture2DArray) : Texture2DArray :=
  set_layerMemoryUse_
    {| PODVector.buffer_ := l;
       PODVector.capacity_ := PODVector.capacity_ (layerMemoryUse_ t) |} t.

(** The object [SetSize] hands to [Create] once its arguments are
    accepted. *)
Definition sizedObject (layers width height format : Z) (usage : TextureUsage)
    (t : Texture2DArray) : Texture2DArray :=
  let t := set_usage_ usage (set_renderSurface_ None t) in
  let t := if TextureUsage_eqb usage TEXTURE_RENDERTARGET
           then set_requestedLevels_ 1
                  (set_filterMode_ FILTER_NEAREST
                     (set_renderSurface_ (Some RenderSurface_new) t))
           else t in
  let t := set_subscribedToRenderSurfaceUpdate_
             (TextureUsage_eqb usage TEXTURE_RENDERTARGET) t in
  let t := set_format_ format (set_height_ height (set_width_ width t)) in
  let t := if layers =? 0 then t else set_layers_ layers t in
  withBuffer (replicate (Z.to_nat (layers_ t)) 0)
    (set_layerMemoryUse_ (PODVector_Resize (layers_ t) (layerMemoryUse_ t)) t).

#[local] Arguments sizedObject : simpl never.

(** The condition of the clamping loop at skip count [k]. *)
Definition tooSmall (width height k : Z) : bool :=
  (width ÷ 2 ^ k <? 4) || (height ÷ 2 ^ k <? 4).

(** The world once the reload through the resource cache, if there is a
    file to reload from, has been tried. *)
Definition afterReloadAttempt (w : World) : World :=
  if Exists (name_ (this w))
  then let '(ok, w') := ReloadResource w in
       set_this (set_dataLost_ (negb ok) (this w')) w'
  else w.

(** [Create] gets as far as generating a name. *)
Definition canCreate (w : World) : bool :=
  match graphics_ w with
  | Some g => negb (deviceLost_ g) && negb (width_ (this w) =? 0)
              && negb (height_ (this w) =? 0) && negb (layers_ (this w) =? 0)
  | None => false
  end.

(** What an image is negotiated to before anything is uploaded: the
    width, height and format of its first surviving level, when the
    negotiation gets that far. *)
Definition negotiated (w : World) (image : Image.t) (useAlpha : bool)
    : option (Z * Z * Z) :=
  let quality := textureQuality w in
  match (if quality <? 0 then None else mipsToSkip_ (this w) !! Z.to_nat quality) with
  | None => None
  | Some requested =>
      if negb (Image.IsCompressed image) then
        match convertUnsuitable image useAlpha with
        | None => None
        | Some converted =>
            let level := Nat.iter (Z.to_nat requested) GetNextLevel converted in
            match formatFor (Image.GetComponents converted) useAlpha with
            | Some format => Some (Image.GetWidth level, Image.GetHeight level, format)
            | None => None
            end
        end
      else
        match graphics_ w with
        | None => None
        | Some _ =>
            let levels := Image.GetNumCompressedLevels image in
            if 31 <=? clampToLevels requested levels then None
            else
              let skip := clampMipsToSkip requested levels (Image.GetWidth image)
                            (Image.GetHeight image) in
              let looked := GetFormat (Image.GetCompressedFormat image) in
              Some (Image.GetWidth image ÷ shl1 skip, Image.GetHeight image ÷ shl1 skip,
                    if looked =? 0 then GetRGBAFormat else looked)
        end
  end.

Definition layer0Missing : LogEntry :=
  LOGERROR "Texture array layer 0 must be loaded first".
Definition layer0Mismatch : LogEntry :=
  LOGERROR "Texture array layer does not match size or format of layer 0".


(** Two worlds that differ at most in their logs. *)
Definition sameButLog (w w' : World) : Prop :=
  this w' = this w /\ graphics_ w' = graphics_ w
  /\ renderer_ w' = renderer_ w /\ cache_ w' = cache_ w.

(** One round of the loop of [Release] over the texture units. *)
Definition unbindOne (i : Z) : M unit :=
  let* g := graphics in
  when (isThisTexture (Graphics_GetTexture g i))
       (onGraphics (Graphics_SetTexture i None)).

(** What unit [j] holds. *)
Definition unitAt (g : Graphics) (j : nat) : option TextureRef :=
  default None (textures_ g !! j).

(** The conditions under which [GetData] goes through to the driver. *)
Definition GetData_accepts (layer level : Z) (dest : option Z) (w : World) : bool :=
  negb (object_name_ (this w) =? 0)
  && match graphics_ w with
     | Some g => negb (deviceLost_ g)
     | None => false
     end
  && nonNull dest && (layer =? 0) && (level <? levels_ (this w)).

Definition createFailed : LogEntry := LOGERROR "Failed to create texture array".

(** The object a live [Create] makes of [t]. *)
Definition createdObject (t : Texture2DArray) (g : Graphics) : Texture2DArray :=
  set_levels_ (createdLevels t) (set_object_name_ (Z.pos (nextName_ g)) t).

(** The name a [layer] element resolves to: a name without a path gets
    the path of the descriptor. *)
Definition resolvedName (texPath : string) (layerElem : XMLElement) : string :=
  let name := GetAttribute layerElem "name" in
  if String.eqb (GetPath name) "" then texPath +:+ name else name.

(** The image the cache hands out for a resolved name, with its levels
    precalculated when the load is asynchronous. *)
Definition prefetched (async : bool) (name : string) : option Image.t :=
  if async then option_map PrecalculateLevels (GetTempResource name)
  else GetTempResource name.

Definition nullImage : LogEntry := LOGERROR "Null image, can not set data".

(** The sum of a list of counters. *)
Definition total (l : list Z) : Z := foldr Z.add 0 l.

(** One level as the image form hands it to the per-region [SetData]:
    its size, its data, and the bytes it is counted as. *)
Record LevelUpload : Type := mkLevelUpload {
  levelWidth : Z;
  levelHeight : Z;
  levelData : option Buffer;
  levelBytes : Z
}.

(** An image followed by its next levels, [n] images in all. *)
Fixpoint mipChain (n : nat) (image : Image.t) : list Image.t :=
  match n with
  | O => []
  | S n' => image :: mipChain n' (GetNextLevel image)
  end.

Definition mipLevel (components : Z) (image : Image.t) : LevelUpload :=
  {| levelWidth := Image.GetWidth image; levelHeight := Image.GetHeight image;
     levelData := Image.GetData image;
     levelBytes := Image.GetWidth image * Image.GetHeight image * components |}.

(** The levels of the uncompressed arm. *)
Definition mipLevels (components : Z) (n : nat) (image : Image.t) : list LevelUpload :=
  map (mipLevel components) (mipChain n image).

Definition compressedLevel (image : Image.t) (mipsToSkip : Z) (needDecompress : bool)
    (i : nat) : LevelUpload :=
  let level := Image.GetCompressedLevel image (u32 (Z.of_nat i + mipsToSkip)) in
  {| levelWidth := CompressedLevel.width_ level;
     levelHeight := CompressedLevel.height_ level;
     levelData := if needDecompress then Some (Decompress level)
                  else CompressedLevel.data_ level;
     levelBytes := if needDecompress
                   then CompressedLevel.width_ level * CompressedLevel.height_ level * 4
                   else CompressedLevel.rows_ level * CompressedLevel.rowSize_ level |}.

(** The levels of the compressed arm. *)
Definition compressedLevels (image : Image.t) (mipsToSkip : Z) (needDecompress : bool)
    (n : nat) : list LevelUpload :=
  map (compressedLevel image mipsToSkip needDecompress) (seq 0 n).

(** The world after the per-region [SetData] has been called for each of
    the levels in turn, from mip level [level] on, whatever each call
    returned. *)
Fixpoint uploadEach (layer level : Z) (ls : list LevelUpload) (w : World) : World :=
  match ls with
  | [] => w
  | l :: rest =>
      uploadEach layer (level + 1) rest
        (worldAfter (SetData layer level 0 0 (levelWidth l) (levelHeight l) (levelData l) w)
           w)
  end.

(** The bytes the levels are counted as, added up in an unsigned. *)
Definition countBytes (start : Z) (ls : list LevelUpload) : Z :=
  foldl (fun acc l => u32 (acc + levelBytes l)) start ls.

(** The level passes the checks that come before the device is asked:
    there is a handle, the data is not null, and the layer and the mip
    level are in range. *)
Definition reachesDevice (t : Texture2DArray) (layer level : Z) (l : LevelUpload) : bool :=
  negb (object_name_ t =? 0) && nonNull (levelData l)
  && negb (layers_ t <=? layer) && negb (levels_ t <=? level).

(** The region (0, 0, width, height) lies within the mip level. *)
Definition fitsLevel (t : Texture2DArray) (level : Z) (l : LevelUpload) : bool :=
  negb ((GetLevelWidth t level <? s32 (levelWidth l))
        || (GetLevelHeight t level <? s32 (levelHeight l))
        || (levelWidth l <=? 0) || (levelHeight l <=? 0)).

Definition accepted (t : Texture2DArray) (layer level : Z) (l : LevelUpload) : bool :=
  reachesDevice t layer level l && fitsLevel t level l.

(** The commands an accepted level issues on a live device. *)
Definition levelCommands (t : Texture2DArray) (layer level : Z) (l : LevelUpload)
    : list Command :=
  let width := levelWidth l in
  let height := levelHeight l in
  let wholeLevel := (width =? GetLevelWidth t level) && (height =? GetLevelHeight t level)
                    && (layer =? 0) in
  let format := if GetSRGB t then GetSRGBFormat (format_ t) else format_ t in
  [BindForUpdate (object_name_ t)]
  ++ (if negb (IsCompressed t) then
        (if wholeLevel
         then [glTexImage3D (target_ t) level format width height (layers_ t) 0
                 (GetExternalFormat (format_ t)) (GetDataType (format_ t)) None]
         else [])
        ++ [glTexSubImage3D (target_ t) level 0 0 layer width height 1
              (GetExternalFormat (format_ t)) (GetDataType (format_ t)) (levelData l)]
      else
        (if wholeLevel
         then [glCompressedTexImage3D (target_ t) level format width height (layers_ t) 0
                 (GetDataSize3 (format_ t) width height (layers_ t)) None]
         else [])
        ++ [glCompressedTexSubImage3D (target_ t) level 0 0 layer width height 1 format
              (GetDataSize (format_ t) width height) (levelData l)])
  ++ [BindUnit 0 None].

(** The commands a run of levels issues on a live device: a level that
    is not accepted issues none. *)
Fixpoint issuedFor (t : Texture2DArray) (layer level : Z) (ls : list LevelUpload)
    : list Command :=
  match ls with
  | [] => []
  | l :: rest =>
      (if accepted t layer level l then levelCommands t layer level l else [])
      ++ issuedFor t layer (level + 1) rest
  end.


(** [mipsToSkip_[quality]] at the renderer's texture quality, when the
    table has that entry. *)
Definition requestedSkip (w : World) : option Z :=
  if textureQuality w <? 0 then None
  else mipsToSkip_ (this w) !! Z.to_nat (textureQuality w).

(** The levels the image form hands to the per-region [SetData] for an
    array of [levels] mip levels, when the quality table asks to skip
    [requested] levels. *)
Definition imageLevels (levels requested : Z) (image : Image.t) (useAlpha : bool)
    : list LevelUpload :=
  if negb (Image.IsCompressed image) then
    match convertUnsuitable image useAlpha with
    | Some converted =>
        mipLevels (Image.GetComponents converted) (Z.to_nat levels)
          (Nat.iter (Z.to_nat requested) GetNextLevel converted)
    | None => []
    end
  else
    let stored := Image.GetNumCompressedLevels image in
    let mipsToSkip := clampMipsToSkip requested stored (Image.GetWidth image)
                        (Image.GetHeight image) in
    compressedLevels image mipsToSkip (GetFormat (Image.GetCompressedFormat image) =? 0)
      (Z.to_nat (Z.min levels (u32 (stored - mipsToSkip)))).

(** The requested level count the image form for layer 0 leaves in the
    object before it sizes the array. *)
Definition requestedFor (t : Texture2DArray) (requested : Z) (image : Image.t) : Z :=
  if negb (Image.IsCompressed image) then
    if IsCompressed t && (1 <? requestedLevels_ t) then 0 else requestedLevels_ t
  else
    let stored := Image.GetNumCompressedLevels image in
    Z.max (u32 (stored - clampMipsToSkip requested stored (Image.GetWidth image)
                           (Image.GetHeight image))) 1.

(** The world once [memoryUse] bytes have been recorded for [layer]. *)
Definition recorded (layer memoryUse : Z) (w : World) : World :=
  let counters := <[Z.to_nat layer := memoryUse]>
                    (PODVector.buffer_ (layerMemoryUse_ (this w))) in
  set_this
    (set_memoryUse_
       (u32 (sizeof_Texture2DArray
             + PODVector.capacity_ (layerMemoryUse_ (this w)) * 4
             + total counters))
       (withBuffer counters (this w))) w.

(** The world the image form for layer 0 sizes the array in, and the
    world that sizing leaves. *)
Definition preparedWorld (w : World) (requested : Z) (image : Image.t) : World :=
  set_this (set_requestedLevels_ (requestedFor (this w) requested image) (this w)) w.

Definition sizedFor (w : World) (requested : Z) (image : Image.t)
    (width height format : Z) : World :=
  worldAfter (SetSize 0 width height format TEXTURE_STATIC (preparedWorld w requested image))
    (preparedWorld w requested image).

(** The level count [Create] gives an array sized by the image form for
    layer 0. *)
Definition levelsFor (t : Texture2DArray) (requested : Z) (image : Image.t)
    (width height : Z) : Z :=
  if requestedFor t requested image =? 0
  then countLevels 32 (u32 (Z.max width height)) 0
  else requestedFor t requested image.


(** *** Lemmas *)

Lemma this_set_this v w : this (set_this v w) = v.
Proof. reflexivity. Qed.

(** The loops return once every round returns, and an invariant of the
    rounds holds at the end. *)
Lemma forAccum_invariant {St : Type} (I : St -> World -> Prop) (body : Z -> St -> M St) :
  (forall i s w, I s w -> exists s' w', body i s w = Done s' w' /\ I s' w') ->
  forall n i s w, I s w -> exists s' w', forAccum n i s body w = Done s' w' /\ I s' w'.
Proof.
  intros Hbody. induction n as [|n IH]; intros i s w Hinv.
  - exists s, w. split; [reflexivity | assumption].
  - change (forAccum (S n) i s body w)
      with (bind (body i s) (fun s' => forAccum n (i + 1) s' body) w).
    unfold bind. destruct (Hbody i s w Hinv) as (s1 & w1 & -> & H1).
    apply IH. assumption.
Qed.

Lemma sameButGraphics_refl w : sameButGraphics w w.
Proof. unfold sameButGraphics. destruct (graphics_ w); repeat split; auto. Qed.

Lemma unbindFromUnits_total w g :
  graphics_ w = Some g ->
  exists w', unbindFromUnits w = Done tt w' /\ sameButGraphics w w'.
Proof.
  intros Hg. unfold unbindFromUnits, forRange.
  match goal with
  | |- context [forAccum ?n 0 tt ?body w] =>
      assert (Hbody : forall i (s : unit) w1, sameButGraphics w w1 ->
                exists s' w', body i s w1 = Done s' w' /\ sameButGraphics w w');
      [| destruct (forAccum_invariant (fun _ w' => sameButGraphics w w') body Hbody
                     n 0 tt w (sameButGraphics_refl w)) as ([] & w' & Hrun & Hinv);
         exists w'; auto ]
  end.
  intros i s w1 (Ht & Hr & Hc & Hl & Hgr). rewrite Hg in Hgr.
  destruct (graphics_ w1) as [g1|] eqn:Hg1; [|contradiction].
  mrun. rewrite Hg1.
  destruct (isThisTexture (Graphics_GetTexture g1 i)); simpl.
  - rewrite Hg1. eexists tt, _. split; [reflexivity|].
    unfold sameButGraphics; simpl. rewrite Hg. repeat split; tauto.
  - eexists tt, _. split; [reflexivity|].
    unfold sameButGraphics; simpl. rewrite Hg, Hg1. repeat split; tauto.
Qed.

Lemma Release_absent w : object_name_ (this w) = 0 -> Release w = Done tt w.
Proof. intros H. unfold Release. mrun. rewrite H. reflexivity. Qed.

Lemma Release_headless w : graphics_ w = None -> Release w = Done tt w.
Proof.
  intros H. unfold Release. mrun.
  destruct (object_name_ (this w) =? 0); simpl; [reflexivity|].
  rewrite H. reflexivity.
Qed.

Lemma Release_present w g :
  graphics_ w = Some g -> object_name_ (this w) <> 0 ->
  exists g', Release w = Done tt (set_this (releasedObject (this w))
                                   (set_graphics_ (Some g') w))
             /\ deviceLost_ g' = deviceLost_ g /\ nextName_ g' = nextName_ g
             /\ (deviceLost_ g = true -> g' = g).
Proof.
  intros Hg Hn. unfold Release. mrun.
  apply Z.eqb_neq in Hn. rewrite Hn. simpl. rewrite Hg. simpl. rewrite Hg. simpl.
  destruct (deviceLost_ g) eqn:Hlost; simpl.
  - exists g. rewrite Hg. repeat split; auto.
  - destruct (unbindFromUnits_total w g Hg) as (w1 & Hrun & Ht & Hr & Hc & Hl & Hgr).
    rewrite Hrun.
    rewrite Hg in Hgr. destruct (graphics_ w1) as [g1|] eqn:Hg1; [|contradiction].
    destruct Hgr as [Hd Hnn].
    exists (issue (glDeleteTextures (object_name_ (this w))) g1).
    simpl. repeat split; auto; try congruence.
    unfold releasedObject, set_this, set_graphics_; simpl.
    rewrite Ht, Hr, Hc, Hl. reflexivity.
Qed.

(** *** Create *)

Lemma sameButHandle_refl t : sameButHandle t t.
Proof. exists (object_name_ t), (levels_ t), (renderSurface_ t). reflexivity. Qed.

Lemma sameButHandle_released t : sameButHandle t (releasedObject t).
Proof.
  exists 0, (levels_ t), (RenderSurface_Release <$> renderSurface_ t). reflexivity.
Qed.

Lemma sameButHandle_trans t1 t2 t3 :
  sameButHandle t1 t2 -> sameButHandle t2 t3 -> sameButHandle t1 t3.
Proof.
  intros (n & l & rs & ->) (n' & l' & rs' & ->). exists n', l', rs'. reflexivity.
Qed.

(** Every way [Release] can go, in one statement. *)
Lemma Release_total w :
  exists w', Release w = Done tt w'
    /\ renderer_ w' = renderer_ w /\ cache_ w' = cache_ w /\ log_ w' = log_ w
    /\ (this w' = this w \/ this w' = releasedObject (this w))
    /\ match graphics_ w with
       | None => w' = w
       | Some g => object_name_ (this w') = 0
                   /\ exists g', graphics_ w' = Some g'
                        /\ deviceLost_ g' = deviceLost_ g /\ nextName_ g' = nextName_ g
                        /\ (deviceLost_ g = true -> g' = g)
       end.
Proof.
  destruct (graphics_ w) as [g|] eqn:Hg.
  - destruct (Z.eq_dec (object_name_ (this w)) 0) as [H0|Hn].
    + exists w. rewrite (Release_absent w H0). repeat split; auto.
      exists g. auto.
    + destruct (Release_present w g Hg Hn) as (g' & -> & Hd & Hnn & Hsame).
      eexists. split; [reflexivity|]. simpl. repeat split; auto.
      exists g'. auto.
  - exists w. rewrite (Release_headless w Hg). repeat split; auto.
Qed.

Lemma Create_live w g :
  graphics_ w = Some g -> deviceLost_ g = false ->
  width_ (this w) <> 0 -> height_ (this w) <> 0 -> layers_ (this w) <> 0 ->
  exists w' g',
    Create w = Done (createSucceeds (this w)) w'
    /\ sameButHandle (this w) (this w')
    /\ object_name_ (this w') = Z.pos (nextName_ g)
    /\ levels_ (this w') = createdLevels (this w)
    /\ graphics_ w' = Some g' /\ deviceLost_ g' = false
    /\ renderer_ w' = renderer_ w /\ cache_ w' = cache_ w.
Proof.
  intros Hg Hlive Hw Hh Hl.
  destruct (Release_total w) as (w1 & Hrel & Hr & Hc & Hlog & Hthis & Hgr).
  rewrite Hg in Hgr. destruct Hgr as (Hname & g1 & Hg1 & Hd1 & Hn1 & _).
  assert (Hf : width_ (this w1) = width_ (this w) /\ height_ (this w1) = height_ (this w)
               /\ layers_ (this w1) = layers_ (this w)
               /\ format_ (this w1) = format_ (this w)
               /\ sRGB_ (this w1) = sRGB_ (this w)
               /\ target_ (this w1) = target_ (this w)
               /\ requestedLevels_ (this w1) = requestedLevels_ (this w)
               /\ sameButHandle (this w) (this w1)).
  { destruct Hthis as [-> | ->]; repeat split; auto using sameButHandle_refl,
      sameButHandle_released. }
  destruct Hf as (Hw1 & Hh1 & Hl1 & Hf1 & Hs1 & Ht1 & Hq1 & Hsame).
  unfold Create. mrun. rewrite Hrel.
  destruct w1 as [t1 gr1 r1 c1 l1]. simpl in *. subst gr1.
  rewrite Hw1, Hh1, Hl1.
  apply Z.eqb_neq in Hw, Hh, Hl. rewrite Hw, Hh, Hl. simpl.
  rewrite Hd1, Hlive.
  unfold glGenTextures_object, SetTextureForUpdate, Texture_UpdateParameters. mrun. simpl.
  unfold createSucceeds, createdLevels, baseAllocation, IsCompressed, GetSRGB. simpl.
  rewrite <- Hf1, <- Hs1, <- Ht1, <- Hw1, <- Hh1, <- Hl1, <- Hq1, <- Hn1.
  assert (Hpos : forall p : positive, (Z.pos p =? 0) = false) by (intros; apply Z.eqb_neq; lia).
  destruct (IsCompressedFormat (format_ t1)); simpl;
    [| destruct (glError _ =? 0); simpl ];
    (destruct (requestedLevels_ t1 =? 0) eqn:Hreq; simpl; rewrite ?Hreq, ?Hpos; simpl;
     eexists; eexists; (split; [reflexivity|]); simpl;
     (split; [eapply sameButHandle_trans; [exact Hsame|];
               exists (Z.pos (nextName_ g1)); eexists; exists (renderSurface_ t1); reflexivity|]);
     repeat split; auto;
     cbv [Graphics_SetTexture issue Graphics_SetTextureForUpdate]; simpl; congruence).
Qed.

Lemma Create_lost w g :
  graphics_ w = Some g -> deviceLost_ g = true ->
  width_ (this w) <> 0 -> height_ (this w) <> 0 -> layers_ (this w) <> 0 ->
  exists w',
    Create w = Done true w'
    /\ (this w' = this w \/ this w' = releasedObject (this w))
    /\ object_name_ (this w') = 0
    /\ graphics_ w' = Some g
    /\ renderer_ w' = renderer_ w /\ cache_ w' = cache_ w
    /\ log_ w' = log_ w ++ [lostWarning].
Proof.
  intros Hg Hlost Hw Hh Hl.
  destruct (Release_total w) as (w1 & Hrel & Hr & Hc & Hlog & Hthis & Hgr).
  rewrite Hg in Hgr. destruct Hgr as (Hname & g1 & Hg1 & Hd1 & Hn1 & Hsame).
  specialize (Hsame Hlost). subst g1.
  assert (Hf : width_ (this w1) = width_ (this w) /\ height_ (this w1) = height_ (this w)
               /\ layers_ (this w1) = layers_ (this w)).
  { destruct Hthis as [-> | ->]; repeat split; auto. }
  destruct Hf as (Hw1 & Hh1 & Hl1).
  unfold Create. mrun. rewrite Hrel.
  destruct w1 as [t1 gr1 r1 c1 l1]. simpl in *. subst gr1.
  rewrite Hw1, Hh1, Hl1.
  apply Z.eqb_neq in Hw, Hh, Hl. rewrite Hw, Hh, Hl. simpl.
  rewrite Hlost.
  eexists. split; [reflexivity|]. simpl. subst. repeat split; auto.
Qed.

Lemma Create_refused w :
  graphics_ w = None \/ width_ (this w) = 0 \/ height_ (this w) = 0
  \/ layers_ (this w) = 0 ->
  exists w', Create w = Done false w' /\ Release w = Done tt w'.
Proof.
  intros Hbad.
  destruct (Release_total w) as (w1 & Hrel & Hr & Hc & Hlog & Hthis & Hgr).
  assert (Hf : width_ (this w1) = width_ (this w) /\ height_ (this w1) = height_ (this w)
               /\ layers_ (this w1) = layers_ (this w)).
  { destruct Hthis as [-> | ->]; repeat split; auto. }
  destruct Hf as (Hw1 & Hh1 & Hl1).
  exists w1. split; [|assumption].
  unfold Create. mrun. rewrite Hrel.
  destruct (graphics_ w) as [g|] eqn:Hg.
  - destruct Hgr as (_ & g1 & Hg1 & _). rewrite Hg1, Hw1, Hh1, Hl1. simpl.
    destruct Hbad as [Hb | [Hb | [Hb | Hb]]]; try discriminate; rewrite Hb; simpl;
      rewrite ?orb_true_r; reflexivity.
  - subst w1. rewrite Hg. reflexivity.
Qed.

(** [Create] always returns, and writes nothing of the object but the
    handle, the level count and the render surface. *)
Lemma Create_total w :
  exists b w', Create w = Done b w'
    /\ sameButHandle (this w) (this w')
    /\ renderer_ w' = renderer_ w /\ cache_ w' = cache_ w.
Proof.
  destruct (graphics_ w) as [g|] eqn:Hg.
  2: { destruct (Create_refused w (or_introl Hg)) as (w' & HC & HR).
       rewrite (Release_headless w Hg) in HR. inversion HR; subst w'.
       exists false, w. repeat split; auto using sameButHandle_refl. }
  destruct (Z.eq_dec (width_ (this w)) 0) as [Hw|Hw];
    [|destruct (Z.eq_dec (height_ (this w)) 0) as [Hh|Hh];
      [|destruct (Z.eq_dec (layers_ (this w)) 0) as [Hl|Hl]]].
  1-3: (edestruct (Create_refused w) as (w' & HC & HR); [eauto|];
        destruct (Release_total w) as (w1 & Hrel & Hr & Hc & Hlog & Hthis & _);
        rewrite Hrel in HR; inversion HR; subst w';
        exists false, w1; repeat split; auto;
        destruct Hthis as [-> | ->]; auto using sameButHandle_refl, sameButHandle_released).
  destruct (deviceLost_ g) eqn:Hlost.
  - destruct (Create_lost w g Hg Hlost Hw Hh Hl) as (w' & HC & Hthis & _ & _ & Hr & Hc & _).
    exists true, w'. repeat split; auto.
    destruct Hthis as [-> | ->]; auto using sameButHandle_refl, sameButHandle_released.
  - destruct (Create_live w g Hg Hlost Hw Hh Hl)
      as (w' & g' & HC & Hsame & _ & _ & _ & _ & Hr & Hc).
    eauto 10.
Qed.

(** *** SetSize *)

Lemma zeroFrom_replicate n : forall k (rest : list Z),
  length rest = n -> zeroFrom n k (replicate k 0 ++ rest) = replicate (k + n) 0.
Proof.
  induction n as [|n IH]; intros k rest Hlen.
  - destruct rest; [|discriminate]. simpl. rewrite app_nil_r. f_equal. lia.
  - destruct rest as [|x rest]; [discriminate|]. simpl in Hlen.
    simpl. rewrite insert_app_r_alt by (rewrite length_replicate; lia).
    rewrite length_replicate, Nat.sub_diag. simpl.
    replace (replicate k 0 ++ 0 :: rest) with (replicate (S k) 0 ++ rest).
    + rewrite IH by lia. f_equal. lia.
    + rewrite replicate_S_end, <- app_assoc. reflexivity.
Qed.

Lemma clear_rounds n : forall k w,
  forAccum n (Z.of_nat k) tt
    (fun i _ => update (fun t => set_layerMemoryUse_
                                   (PODVector.set i 0 (layerMemoryUse_ t)) t)) w
  = Done tt (set_this (withBuffer (zeroFrom n k (PODVector.buffer_
                                                   (layerMemoryUse_ (this w))))
                         (this w)) w).
Proof.
  induction n as [|n IH]; intros k w.
  - reflexivity.
  - change (forAccum (S n) ?i ?s ?body w)
      with (bind (body i s) (fun s' => forAccum n (i + 1) s' body) w).
    mrun. replace (Z.of_nat k + 1) with (Z.of_nat (S k)) by lia.
    rewrite IH. unfold PODVector.set. simpl. rewrite Nat2Z.id. reflexivity.
Qed.

Lemma clearLayerMemoryUse_zeroes w :
  length (PODVector.buffer_ (layerMemoryUse_ (this w))) = Z.to_nat (layers_ (this w)) ->
  clearLayerMemoryUse w
  = Done tt (set_this (withBuffer (replicate (Z.to_nat (layers_ (this w))) 0) (this w)) w).
Proof.
  intros Hlen. unfold clearLayerMemoryUse, forRange. mrun.
  rewrite (clear_rounds _ 0 w).
  pose proof (zeroFrom_replicate _ 0%nat _ Hlen) as Hz. simpl in Hz.
  rewrite Hz. reflexivity.
Qed.

Lemma Resize_length n (v : PODVector.t) :
  length (PODVector.buffer_ (PODVector_Resize n v)) = Z.to_nat n.
Proof.
  unfold PODVector_Resize. simpl.
  rewrite length_app, length_take, length_replicate. lia.
Qed.

Lemma SetSize_accepted layers width height format usage w :
  0 < width -> 0 < height -> usage <> TEXTURE_DEPTHSTENCIL ->
  SetSize layers width height format usage w
  = Create (set_this (sizedObject layers width height format usage (this w)) w).
Proof.
  intros Hw Hh Hu. unfold SetSize.
  apply Z.leb_gt in Hw, Hh. rewrite Hw, Hh. simpl.
  assert (Hds : TextureUsage_eqb usage TEXTURE_DEPTHSTENCIL = false)
    by (destruct usage; try reflexivity; congruence).
  rewrite Hds. mrun.
  unfold sizedObject.
  destruct (TextureUsage_eqb usage TEXTURE_RENDERTARGET); simpl;
    destruct (layers =? 0); simpl;
    rewrite clearLayerMemoryUse_zeroes by (simpl; apply Resize_length);
    reflexivity.
Qed.

Lemma sameButHandle_fields t t' :
  sameButHandle t t' ->
  width_ t' = width_ t /\ height_ t' = height_ t /\ format_ t' = format_ t
  /\ layers_ t' = layers_ t /\ layerMemoryUse_ t' = layerMemoryUse_ t
  /\ usage_ t' = usage_ t /\ dataPending_ t' = dataPending_ t
  /\ requestedLevels_ t' = requestedLevels_ t.
Proof. intros (n & l & rs & ->). repeat split; reflexivity. Qed.

Lemma sizedObject_fields layers width height format usage t :
  width_ (sizedObject layers width height format usage t) = width
  /\ height_ (sizedObject layers width height format usage t) = height
  /\ format_ (sizedObject layers width height format usage t) = format
  /\ layers_ (sizedObject layers width height format usage t)
     = (if layers =? 0 then layers_ t else layers)
  /\ PODVector.buffer_ (layerMemoryUse_ (sizedObject layers width height format usage t))
     = replicate (Z.to_nat (if layers =? 0 then layers_ t else layers)) 0
  /\ sRGB_ (sizedObject layers width height format usage t) = sRGB_ t
  /\ target_ (sizedObject layers width height format usage t) = target_ t
  /\ dataPending_ (sizedObject layers width height format usage t) = dataPending_ t
  /\ object_name_ (sizedObject layers width height format usage t) = object_name_ t.
Proof.
  unfold sizedObject.
  destruct (TextureUsage_eqb usage TEXTURE_RENDERTARGET), (layers =? 0);
    repeat split; reflexivity.
Qed.

(** *** Counting mip levels *)

Lemma countLevels_log2 fuel : forall maxSize levels,
  0 <= maxSize < 2 ^ Z.of_nat fuel ->
  0 <= levels -> levels + Z.of_nat fuel < 2 ^ 32 ->
  countLevels fuel maxSize levels
  = levels + (if maxSize =? 0 then 0 else Z.log2 maxSize + 1).
Proof.
  induction fuel as [|fuel IH]; intros m acc Hm Hacc Hfuel.
  - change (2 ^ Z.of_nat 0) with 1 in Hm. assert (m = 0) by lia. subst m.
    unfold countLevels. simpl. lia.
  - change (countLevels (S fuel) m acc)
      with (if m =? 0 then acc else countLevels fuel (Z.shiftr m 1) (u32 (acc + 1))).
    destruct (m =? 0) eqn:Hz; [lia|]. apply Z.eqb_neq in Hz.
    assert (Hu : u32 (acc + 1) = acc + 1).
    { unfold u32. apply Z.mod_small. lia. }
    rewrite Hu.
    assert (Hhalf : Z.shiftr m 1 = m / 2).
    { rewrite Z.shiftr_div_pow2 by lia. reflexivity. }
    rewrite Nat2Z.inj_succ, Z.pow_succ_r in Hm by lia.
    rewrite IH; [| rewrite Hhalf; split;
                   [apply Z.div_pos; lia | apply Z.div_lt_upper_bound; lia]
                 | lia | lia].
    destruct (Z.shiftr m 1 =? 0) eqn:Hh.
    + apply Z.eqb_eq in Hh. rewrite Hhalf in Hh. assert (m = 1).
      { pose proof (Z.div_mod m 2 ltac:(lia)). pose proof (Z.mod_pos_bound m 2 ltac:(lia)).
        lia. }
      subst m. change (Z.log2 1) with 0. lia.
    + apply Z.eqb_neq in Hh. rewrite Hhalf in Hh.
      assert (2 <= m).
      { destruct (Z.lt_ge_cases m 2) as [Hlt|]; [|assumption].
        exfalso. apply Hh. apply Z.div_small. lia. }
      rewrite Z.log2_shiftr by lia.
      pose proof (Z.log2_le_mono 2 m ltac:(lia)) as Hmono.
      change (Z.log2 2) with 1 in Hmono. lia.
Qed.

(** ** The claims *)

(** C8.  [SetSize] with a width or height that is zero or negative, or
    with depth-stencil usage, returns false and leaves the texture array
    object, the Graphics subsystem, the renderer and the cache exactly as
    they were; an error is logged. *)
Theorem SetSize_rejected_leaves_state layers width height format usage w :
  width <= 0 \/ height <= 0 \/ usage = TEXTURE_DEPTHSTENCIL ->
  exists w', SetSize layers width height format usage w = Done false w'
    /\ this w' = this w /\ graphics_ w' = graphics_ w
    /\ renderer_ w' = renderer_ w /\ cache_ w' = cache_ w.
Proof.
  intros Hbad. unfold SetSize.
  destruct ((width <=? 0) || (height <=? 0)) eqn:Hdim.
  - mrun. eexists. split; [reflexivity|]. simpl. auto.
  - apply orb_false_iff in Hdim. destruct Hdim as [Hw Hh].
    apply Z.leb_gt in Hw, Hh.
    destruct Hbad as [Hb | [Hb | ->]]; try lia.
    simpl. mrun. eexists. split; [reflexivity|]. simpl. auto.
Qed.

(** C9.  [Release] is idempotent: running it twice from any state is the
    same as running it once; on an object without a handle it changes
    nothing; without a Graphics subsystem it changes nothing. *)
Theorem Release_idempotent w :
  (Release ;; Release) w = Release w
  /\ Release (set_this (set_object_name_ 0 (this w)) w)
     = Done tt (set_this (set_object_name_ 0 (this w)) w)
  /\ Release (set_graphics_ None w) = Done tt (set_graphics_ None w).
Proof.
  split; [|split].
  - unfold bind.
    destruct (Release_total w) as (w1 & Hrel & _ & _ & _ & _ & Hgr).
    rewrite Hrel. destruct (graphics_ w) as [g|] eqn:Hg.
    + destruct Hgr as [Hname _]. apply Release_absent. assumption.
    + subst w1. assumption.
  - apply Release_absent. reflexivity.
  - apply Release_headless. reflexivity.
Qed.

(** C10.  A [SetSize] call whose arguments pass validation keeps the
    stored layer count when [layers] is 0 and stores [layers] otherwise,
    and leaves the per-layer memory-use vector with exactly one counter
    per layer, each of them 0. *)
Theorem SetSize_layer_count_and_counters layers width height format usage w :
  0 < width -> 0 < height -> usage <> TEXTURE_DEPTHSTENCIL ->
  exists ok w', SetSize layers width height format usage w = Done ok w'
    /\ layers_ (this w') = (if layers =? 0 then layers_ (this w) else layers)
    /\ PODVector.buffer_ (layerMemoryUse_ (this w'))
       = replicate (Z.to_nat (layers_ (this w'))) 0.
Proof.
  intros Hw Hh Hu. rewrite SetSize_accepted by assumption.
  destruct (Create_total
              (set_this (sizedObject layers width height format usage (this w)) w))
    as (ok & w' & Hrun & Hsame & _).
  exists ok, w'. split; [assumption|].
  apply sameButHandle_fields in Hsame.
  destruct Hsame as (_ & _ & _ & Hl & Hm & _).
  destruct (sizedObject_fields layers width height format usage (this w))
    as (_ & _ & _ & Hl' & Hb' & _).
  rewrite this_set_this in Hl, Hm. rewrite Hl, Hm, Hl', Hb'. auto.
Qed.

(** C1, amended.  On a live device, with positive width and height, a
    usage other than depth-stencil and a nonzero resulting layer count,
    [SetSize] returns true provided the format is compressed or the driver
    raises no error on the level-0 allocation; afterwards width, height
    and format are the arguments, and the layer count is [layers] when
    that is nonzero and the previous layer count otherwise. *)
Theorem SetSize_succeeds_on_live_device layers width height format usage w g :
  0 < width -> 0 < height -> usage <> TEXTURE_DEPTHSTENCIL ->
  graphics_ w = Some g -> deviceLost_ g = false ->
  (if layers =? 0 then layers_ (this w) else layers) <> 0 ->
  IsCompressedFormat format = true
  \/ glError (glTexImage3D (target_ (this w)) 0
                (if sRGB_ (this w) then GetSRGBFormat format else format)
                width height (if layers =? 0 then layers_ (this w) else layers) 0
                (GetExternalFormat format) (GetDataType format) None) = 0 ->
  exists w', SetSize layers width height format usage w = Done true w'
    /\ width_ (this w') = width /\ height_ (this w') = height
    /\ format_ (this w') = format
    /\ layers_ (this w') = (if layers =? 0 then layers_ (this w) else layers)
    /\ object_name_ (this w') <> 0.
Proof.
  intros Hw Hh Hu Hg Hlive Hl Hdriver. rewrite SetSize_accepted by assumption.
  destruct (sizedObject_fields layers width height format usage (this w))
    as (Fw & Fh & Ff & Fl & _ & Fs & Ft & _).
  set (w0 := set_this (sizedObject layers width height format usage (this w)) w).
  destruct (Create_live w0 g) as (w' & g' & Hrun & Hsame & Hname & _); subst w0;
    rewrite ?this_set_this; try assumption; try lia.
  exists w'. split.
  - rewrite Hrun, this_set_this. f_equal.
    unfold createSucceeds, baseAllocation, IsCompressed, GetSRGB.
    rewrite Fw, Fh, Ff, Fl, Fs, Ft.
    destruct Hdriver as [-> | ->]; [reflexivity | apply orb_true_r].
  - apply sameButHandle_fields in Hsame. rewrite this_set_this in Hsame.
    destruct Hsame as (Hw' & Hh' & Hf' & Hl' & _).
    rewrite Hw', Hh', Hf', Hl', Hname. repeat split; auto; lia.
Qed.

(** C5, amended.  On a live device, with no explicit mip-level request,
    [Create] stores floor(log2(max(width, height))) + 1 as the level
    count, for every width and height from 1 up to the largest [int]. *)
Theorem Create_level_count w g :
  graphics_ w = Some g -> deviceLost_ g = false ->
  requestedLevels_ (this w) = 0 -> layers_ (this w) <> 0 ->
  1 <= width_ (this w) < 2 ^ 31 -> 1 <= height_ (this w) < 2 ^ 31 ->
  exists ok w', Create w = Done ok w'
    /\ levels_ (this w') = Z.log2 (Z.max (width_ (this w)) (height_ (this w))) + 1.
Proof.
  intros Hg Hlive Hreq Hl Hw Hh.
  destruct (Create_live w g) as (w' & g' & Hrun & _ & _ & Hlev & _);
    try assumption; try lia.
  exists (createSucceeds (this w)), w'. split; [assumption|].
  rewrite Hlev. unfold createdLevels. rewrite Hreq. simpl.
  assert (Hmax : 1 <= Z.max (width_ (this w)) (height_ (this w)) < 2 ^ 31) by lia.
  assert (Hu : u32 (Z.max (width_ (this w)) (height_ (this w)))
               = Z.max (width_ (this w)) (height_ (this w))).
  { unfold u32. apply Z.mod_small. lia. }
  rewrite Hu, countLevels_log2; [| change (Z.of_nat 32) with 32; lia | lia
                                 | change (Z.of_nat 32) with 32; lia].
  destruct (Z.max (width_ (this w)) (height_ (this w)) =? 0) eqn:Hz; [|lia].
  apply Z.eqb_eq in Hz. lia.
Qed.

(** *** The mip-skip clamp *)

Lemma shl1_pow2 n : 0 <= n < 31 -> shl1 n = 2 ^ n.
Proof.
  intros Hn. unfold shl1, s32. rewrite Z.shiftl_1_l.
  assert (0 < 2 ^ n) by (apply Z.pow_pos_nonneg; lia).
  assert (2 ^ n < 2 ^ 31) by (apply Z.pow_lt_mono_r; lia).
  rewrite Z.mod_small by lia. lia.
Qed.

Lemma decrementWhileSmall_spec fuel : forall width height m,
  0 <= m < 31 -> (Z.to_nat m <= fuel)%nat ->
  let r := decrementWhileSmall fuel width height m in
  0 <= r <= m
  /\ (r = 0 \/ tooSmall width height r = false)
  /\ (forall k, r < k <= m -> tooSmall width height k = true).
Proof.
  induction fuel as [|fuel IH]; intros width height m Hm Hfuel r.
  - assert (m = 0) by lia. subst m r. unfold decrementWhileSmall.
    repeat split; try (intros; lia); auto.
  - subst r.
    change (decrementWhileSmall (S fuel) width height m)
      with (if negb (m =? 0)
               && ((width ÷ shl1 m <? 4) || (height ÷ shl1 m <? 4))
            then decrementWhileSmall fuel width height (u32 (m - 1))
            else m).
    rewrite shl1_pow2 by assumption. fold (tooSmall width height m).
    destruct (m =? 0) eqn:Hz; simpl.
    + apply Z.eqb_eq in Hz. subst m. repeat split; try (intros; lia); auto.
    + apply Z.eqb_neq in Hz.
      destruct (tooSmall width height m) eqn:Hsmall.
      * assert (Hu : u32 (m - 1) = m - 1) by (unfold u32; apply Z.mod_small; lia).
        rewrite Hu.
        destruct (IH width height (m - 1)) as (Hr & Hstop & Habove); try lia.
        split; [lia | split; [assumption|]].
        intros k Hk. destruct (Z.eq_dec k m) as [-> | Hne]; [assumption|].
        apply Habove. lia.
      * split; [lia | split; [right; assumption|]]. intros k Hk. lia.
Qed.

(** *** While the device is lost *)

Lemma SetData_lost layer level x y width height data w g :
  graphics_ w = Some g -> deviceLost_ g = true ->
  object_name_ (this w) <> 0 ->
  layer < layers_ (this w) -> level < levels_ (this w) ->
  SetData layer level x y width height (Some data) w
  = Done true
      (set_this (set_dataPending_ true (this w))
         (set_log_ (log_ w ++ [LOGWARNING
                                 "Texture array data assignment while device is lost"])
            w)).
Proof.
  intros Hg Hlost Hname Hlayer Hlevel.
  destruct w as [t gr r c l]. simpl in *. subst gr.
  unfold SetData. mrun. simpl.
  apply Z.eqb_neq in Hname. apply Z.leb_gt in Hlayer, Hlevel.
  decide_branches. reflexivity.
Qed.

(** The per-region [SetData] always returns, and writes nothing of the
    object but [dataPending_]: the bounds of the loops around it stand. *)
Lemma SetData_total layer level x y width height data w :
  exists ok w', SetData layer level x y width height data w = Done ok w'
    /\ (this w' = this w \/ this w' = set_dataPending_ true (this w))
    /\ renderer_ w' = renderer_ w /\ cache_ w' = cache_ w.
Proof.
  destruct w as [t gr r c l]. unfold SetData. mrun. simpl.
  destruct gr as [g|]; simpl.
  2: { rewrite orb_true_r. eexists _, _. split; [reflexivity|]. simpl. auto. }
  rewrite orb_false_r.
  destruct (object_name_ t =? 0); simpl;
    [eexists _, _; split; [reflexivity|]; simpl; auto|].
  destruct data as [d|]; simpl;
    [|eexists _, _; split; [reflexivity|]; simpl; auto].
  destruct (layers_ t <=? layer); simpl;
    [eexists _, _; split; [reflexivity|]; simpl; auto|].
  destruct (levels_ t <=? level); simpl;
    [eexists _, _; split; [reflexivity|]; simpl; auto|].
  destruct (deviceLost_ g); simpl;
    [eexists _, _; split; [reflexivity|]; simpl; auto|].
  match goal with
  | |- context [if ?b then _ else _] => destruct b; simpl
  end; [eexists _, _; split; [reflexivity|]; simpl; auto|].
  unfold SetTextureForUpdate. mrun. simpl.
  destruct (IsCompressed t); simpl;
    match goal with
    | |- context [if ?b then _ else _] => destruct b; simpl
    end; eexists _, _; (split; [reflexivity|]); simpl; auto.
Qed.

Lemma GetData_lost level dest w g :
  graphics_ w = Some g -> deviceLost_ g = true ->
  object_name_ (this w) <> 0 -> level < levels_ (this w) ->
  GetData 0 level (Some dest) w
  = Done false
      (set_log_ (log_ w ++ [LOGWARNING "Getting texture data while device is lost"]) w).
Proof.
  intros Hg Hlost Hname Hlevel.
  destruct w as [t gr r c l]. simpl in *. subst gr.
  unfold GetData. mrun. simpl.
  apply Z.eqb_neq in Hname. apply Z.leb_gt in Hlevel.
  decide_branches. reflexivity.
Qed.




(** *** OnDeviceReset *)

Lemma Create_without_handle w :
  object_name_ (this w) = 0 ->
  exists b w', Create w = Done b w'
    /\ (object_name_ (this w') =? 0) = negb (canCreate w)
    /\ dataPending_ (this w') = dataPending_ (this w).
Proof.
  intros Hname. unfold canCreate.
  destruct (graphics_ w) as [g|] eqn:Hg.
  2: { destruct (Create_refused w (or_introl Hg)) as (w' & HC & HR).
       rewrite (Release_absent w Hname) in HR. inversion HR; subst w'.
       exists false, w. rewrite Hname. auto. }
  destruct (Z.eq_dec (width_ (this w)) 0) as [Hw|Hw];
    [|destruct (Z.eq_dec (height_ (this w)) 0) as [Hh|Hh];
      [|destruct (Z.eq_dec (layers_ (this w)) 0) as [Hl|Hl]]].
  1-3: (edestruct (Create_refused w) as (w' & HC & HR); [eauto|];
        rewrite (Release_absent w Hname) in HR; inversion HR; subst w';
        exists false, w; rewrite Hname; repeat split; auto;
        first [rewrite Hw | rewrite Hh | rewrite Hl]; simpl;
        rewrite ?andb_false_r; reflexivity).
  apply Z.eqb_neq in Hw as Hw', Hh as Hh', Hl as Hl'. rewrite Hw', Hh', Hl'.
  destruct (deviceLost_ g) eqn:Hlost; simpl.
  - destruct (Create_lost w g Hg Hlost Hw Hh Hl) as (w' & HC & Hthis & Hn & _).
    exists true, w'. rewrite Hn. repeat split; auto.
    destruct Hthis as [-> | ->]; reflexivity.
  - destruct (Create_live w g Hg Hlost Hw Hh Hl)
      as (w' & g' & HC & Hsame & Hn & _).
    eexists _, w'. split; [exact HC|]. rewrite Hn. split.
    + apply Z.eqb_neq. lia.
    + apply sameButHandle_fields in Hsame. tauto.
Qed.

Lemma OnDeviceReset_spec w :
  object_name_ (this w) = 0 \/ dataPending_ (this w) = true ->
  exists w', OnDeviceReset w = Done tt w'
    /\ dataPending_ (this w') = false
    /\ (object_name_ (this w') =? 0)
       = (object_name_ (this (afterReloadAttempt w)) =? 0)
         && negb (canCreate (afterReloadAttempt w)).
Proof.
  intros Hneed. unfold OnDeviceReset. mrun.
  assert (Hc : (object_name_ (this w) =? 0) || dataPending_ (this w) = true).
  { destruct Hneed as [-> | ->]; [reflexivity | apply orb_true_r]. }
  rewrite Hc. unfold afterReloadAttempt, cache_ReloadResource.
  destruct (Exists (name_ (this w))); simpl.
  - destruct (ReloadResource w) as [ok wr]. simpl.
    destruct (object_name_ (this wr) =? 0) eqn:Hn; simpl.
    + apply Z.eqb_eq in Hn.
      destruct (Create_without_handle
                  (set_this (set_dataLost_ (negb ok) (this wr)) wr) Hn)
        as (b & w' & HC & Hname & _).
      fold (set_this (set_dataLost_ (negb ok) (this wr)) wr). rewrite HC.
      eexists. split; [reflexivity|]. simpl. split; [reflexivity|]. exact Hname.
    + eexists. split; [reflexivity|]. simpl. split; [reflexivity|]. exact Hn.
  - destruct (object_name_ (this w) =? 0) eqn:Hn; simpl.
    + apply Z.eqb_eq in Hn.
      destruct (Create_without_handle w Hn) as (b & w' & HC & Hname & _).
      rewrite HC. eexists. split; [reflexivity|]. simpl. split; [reflexivity|].
      exact Hname.
    + eexists. split; [reflexivity|]. simpl. split; [reflexivity|]. exact Hn.
Qed.

Lemma OnDeviceReset_keeps w :
  object_name_ (this w) = 0 \/ dataPending_ (this w) = true ->
  object_name_ (this (afterReloadAttempt w)) <> 0 ->
  OnDeviceReset w
  = Done tt (set_this (set_dataPending_ false (this (afterReloadAttempt w)))
               (afterReloadAttempt w)).
Proof.
  intros Hneed. unfold OnDeviceReset. mrun.
  assert (Hc : (object_name_ (this w) =? 0) || dataPending_ (this w) = true).
  { destruct Hneed as [-> | ->]; [reflexivity | apply orb_true_r]. }
  rewrite Hc. unfold afterReloadAttempt, cache_ReloadResource.
  destruct (Exists (name_ (this w))); simpl.
  - destruct (ReloadResource w) as [ok wr]. simpl. intros Hn.
    apply Z.eqb_neq in Hn. rewrite Hn. reflexivity.
  - intros Hn. apply Z.eqb_neq in Hn. rewrite Hn. reflexivity.
Qed.

(** *** Layers after the first *)

Lemma checkAgainstLayer0_missing width height format w :
  object_name_ (this w) = 0 ->
  checkAgainstLayer0 width height format w
  = Done false (set_log_ (log_ w ++ [layer0Missing]) w).
Proof. intros H. unfold checkAgainstLayer0. mrun. rewrite H. reflexivity. Qed.

Lemma checkAgainstLayer0_mismatch width height format w :
  object_name_ (this w) <> 0 ->
  width <> width_ (this w) \/ height <> height_ (this w) \/ format <> format_ (this w) ->
  checkAgainstLayer0 width height format w
  = Done false (set_log_ (log_ w ++ [layer0Mismatch]) w).
Proof.
  intros Hn Hbad. unfold checkAgainstLayer0. mrun.
  apply Z.eqb_neq in Hn. rewrite Hn.
  assert (Hc : negb (width =? width_ (this w)) || negb (height =? height_ (this w))
               || negb (format =? format_ (this w)) = true).
  { destruct Hbad as [H | [H | H]]; apply Z.eqb_neq in H; rewrite H; simpl;
      rewrite ?orb_true_r; reflexivity. }
  rewrite Hc. reflexivity.
Qed.

(** A later layer whose check against layer 0 fails is rejected there,
    with nothing done but the log entry of the check. *)
Lemma SetData_image_rejected layer image useAlpha w lw lh format w' :
  0 < layer < layers_ (this w) ->
  negotiated w image useAlpha = Some (lw, lh, format) ->
  checkAgainstLayer0 lw lh format w = Done false w' ->
  SetData_image layer (Some image) useAlpha w = Done false w'.
Proof.
  intros Hlayer Hneg Hcheck.
  assert (H0 : (layers_ (this w) =? 0) = false) by (apply Z.eqb_neq; lia).
  assert (H1 : (layers_ (this w) <=? layer) = false) by (apply Z.leb_gt; lia).
  assert (H2 : (layer =? 0) = false) by (apply Z.eqb_neq; lia).
  unfold SetData_image. mrun. rewrite H0, H1.
  unfold negotiated in Hneg.
  destruct (if textureQuality w <? 0 then None
            else mipsToSkip_ (this w) !! Z.to_nat (textureQuality w))
    as [requested|] eqn:Hskip; [|discriminate].
  destruct (Image.IsCompressed image); simpl in *.
  - destruct (graphics_ w) as [g|] eqn:Hg; [|discriminate].
    destruct (31 <=? clampToLevels requested (Image.GetNumCompressedLevels image))
      eqn:Hshift; [discriminate|].
    inversion Hneg; subst lw lh format; clear Hneg.
    unfold SetData_compressed, mipsToSkipAt. mrun. rewrite Hg, Hskip, Hshift, H2.
    rewrite Hcheck. reflexivity.
  - destruct (convertUnsuitable image useAlpha) as [converted|] eqn:Hconv; [|discriminate].
    destruct (formatFor (Image.GetComponents converted) useAlpha) as [f|] eqn:Hfmt;
      [|discriminate].
    inversion Hneg; subst lw lh format; clear Hneg.
    unfold SetData_uncompressed, mipsToSkipAt, formatOfComponents. mrun.
    rewrite Hconv, Hskip, Hfmt, H2. rewrite Hcheck. reflexivity.
Qed.

(** C6, amended.  On a texture array that has no GPU handle (as after
    [SetLayers], or after a [SetSize] made while the device was lost), the
    image form of [SetData] for any layer index from 1 up to the layer
    count fails with "layer 0 must be loaded first" for every image that
    negotiates to a size and format, and changes nothing else. *)
Theorem later_layer_needs_layer0 layer image useAlpha w lw lh format :
  object_name_ (this w) = 0 ->
  0 < layer < layers_ (this w) ->
  negotiated w image useAlpha = Some (lw, lh, format) ->
  SetData_image layer (Some image) useAlpha w
  = Done false
      (set_log_ (log_ w ++ [LOGERROR "Texture array layer 0 must be loaded first"]) w).
Proof.
  intros Hname Hlayer Hneg.
  eapply SetData_image_rejected; eauto.
  apply checkAgainstLayer0_missing. assumption.
Qed.

(** C7.  With a GPU handle present, the image form of [SetData] for a
    layer index above 0 whose negotiated width, height or format differs
    from the array's returns false; the texture array object (dimensions,
    format, every memory-use counter), the Graphics subsystem (no command
    is issued, so what was uploaded stays as it is), the renderer and the
    cache are unchanged. *)
Theorem mismatched_layer_changes_nothing layer image useAlpha w lw lh format :
  object_name_ (this w) <> 0 ->
  0 < layer < layers_ (this w) ->
  negotiated w image useAlpha = Some (lw, lh, format) ->
  lw <> width_ (this w) \/ lh <> height_ (this w) \/ format <> format_ (this w) ->
  exists w', SetData_image layer (Some image) useAlpha w = Done false w'
    /\ this w' = this w /\ graphics_ w' = graphics_ w
    /\ renderer_ w' = renderer_ w /\ cache_ w' = cache_ w.
Proof.
  intros Hname Hlayer Hneg Hbad.
  eexists. split.
  - eapply SetData_image_rejected; eauto.
    apply checkAgainstLayer0_mismatch; assumption.
  - simpl. auto.
Qed.

(** *** The image form without a handle *)



Lemma sameButLog_refl w : sameButLog w w.
Proof. repeat split. Qed.






(** C2, amended.  A per-region [SetData] whose arguments pass the
    existence, null-data, layer and level checks while the device is lost
    returns true, raises [dataPending_] and issues no command to the GPU.
    An [OnDeviceReset] that follows, whatever the device is then, clears
    [dataPending_]; afterwards a handle is present exactly when the reload
    attempt left one, or left none but a live device and nonzero width,
    height and layer count (then [Create] makes one); when the resource
    has no file in the cache the handle it had is kept. *)
Theorem SetData_while_lost_then_reset layer level x y width height data w g g' :
  graphics_ w = Some g -> deviceLost_ g = true ->
  object_name_ (this w) <> 0 ->
  layer < layers_ (this w) -> level < levels_ (this w) ->
  exists w1,
    SetData layer level x y width height (Some data) w = Done true w1
    /\ dataPending_ (this w1) = true
    /\ graphics_ w1 = graphics_ w
    /\ exists w3,
         OnDeviceReset (set_graphics_ (Some g') w1) = Done tt w3
         /\ dataPending_ (this w3) = false
         /\ (object_name_ (this w3) =? 0)
            = (object_name_ (this (afterReloadAttempt (set_graphics_ (Some g') w1))) =? 0)
              && negb (canCreate (afterReloadAttempt (set_graphics_ (Some g') w1)))
         /\ (if Exists (name_ (this w)) then True
             else object_name_ (this w3) = object_name_ (this w)).
Proof.
  intros Hg Hlost Hname Hlayer Hlevel.
  eexists. split; [apply (SetData_lost _ _ _ _ _ _ _ _ g); assumption|].
  split; [reflexivity|]. split; [reflexivity|].
  match goal with
  | |- context [OnDeviceReset ?w2] =>
      destruct (OnDeviceReset_spec w2) as (w3 & Hrun & Hpending & Hhandle);
      [right; reflexivity|];
      pose proof (OnDeviceReset_keeps w2 (or_intror eq_refl)) as Hkeep
  end.
  exists w3. repeat split; try assumption.
  destruct (Exists (name_ (this w))) eqn:Hfile; [exact I|].
  unfold afterReloadAttempt in Hkeep. simpl in Hkeep. rewrite Hfile in Hkeep.
  rewrite Hkeep in Hrun by assumption. inversion Hrun. reflexivity.
Qed.

(** *** Further properties *)

(** *** Release and the texture units *)

Lemma unitAt_unbound g k j :
  unitAt (Graphics_SetTexture (Z.of_nat k) None g) j
  = if (j =? k)%nat then None else unitAt g j.
Proof.
  unfold unitAt, Graphics_SetTexture. simpl. rewrite Nat2Z.id.
  destruct (j =? k)%nat eqn:Hjk.
  - apply Nat.eqb_eq in Hjk. subst j.
    destruct (lt_dec k (length (textures_ g))) as [Hlt|Hge].
    + rewrite list_lookup_insert_eq by assumption. reflexivity.
    + rewrite list_insert_ge by lia. rewrite lookup_ge_None_2 by lia. reflexivity.
  - apply Nat.eqb_neq in Hjk. rewrite list_lookup_insert_ne by congruence. reflexivity.
Qed.

Lemma unbind_rounds n : forall (k : nat) w g,
  graphics_ w = Some g ->
  exists g',
    forAccum n (Z.of_nat k) tt (fun i _ => unbindOne i) w
    = Done tt (set_graphics_ (Some g') w)
    /\ deviceLost_ g' = deviceLost_ g /\ nextName_ g' = nextName_ g
    /\ (forall j, unitAt g' j
                  = if (k <=? j)%nat && (j <? k + n)%nat && isThisTexture (unitAt g j)
                    then None else unitAt g j)
    /\ (forall c, In c (commands_ g') ->
                  In c (commands_ g) \/ exists u, c = BindUnit u None).
Proof.
  induction n as [|n IH]; intros k w g Hg.
  - exists g. split.
    + unfold forAccum, ret. rewrite <- Hg. reflexivity.
    + repeat split; auto. intros j.
      replace (j <? k + 0)%nat with (j <? k)%nat by (f_equal; lia).
      destruct (k <=? j)%nat eqn:H1, (j <? k)%nat eqn:H2; simpl; try reflexivity.
      apply Nat.leb_le in H1. apply Nat.ltb_lt in H2. lia.
  - change (forAccum (S n) (Z.of_nat k) tt (fun i _ => unbindOne i) w)
      with (bind (unbindOne (Z.of_nat k))
              (fun s' => forAccum n (Z.of_nat k + 1) s' (fun i _ => unbindOne i)) w).
    replace (Z.of_nat k + 1) with (Z.of_nat (S k)) by lia.
    unfold bind at 1, unbindOne. mrun. rewrite Hg.
    assert (Hat : Graphics_GetTexture g (Z.of_nat k) = unitAt g k).
    { unfold Graphics_GetTexture, unitAt. rewrite Nat2Z.id. reflexivity. }
    rewrite Hat.
    destruct (isThisTexture (unitAt g k)) eqn:Hthis; simpl.
    + rewrite Hg.
      destruct (IH (S k) (set_graphics_ (Some (Graphics_SetTexture (Z.of_nat k) None g)) w)
                  (Graphics_SetTexture (Z.of_nat k) None g) eq_refl)
        as (g' & Hrun & Hd & Hn & Hunits & Hcmds).
      exists g'. split; [exact Hrun|].
      split; [assumption|]. split; [assumption|]. split.
      * intros j. rewrite Hunits, unitAt_unbound.
        destruct (j =? k)%nat eqn:Hjk.
        -- apply Nat.eqb_eq in Hjk. subst j.
           rewrite Hthis.
           replace (S k <=? k)%nat with false by (symmetry; apply Nat.leb_gt; lia).
           replace (k <=? k)%nat with true by (symmetry; apply Nat.leb_le; lia).
           replace (k <? k + S n)%nat with true by (symmetry; apply Nat.ltb_lt; lia).
           reflexivity.
        -- apply Nat.eqb_neq in Hjk.
           replace (S k <=? j)%nat with (k <=? j)%nat.
           2: { destruct (k <=? j)%nat eqn:H1; symmetry.
                - apply Nat.leb_le in H1. apply Nat.leb_le. lia.
                - apply Nat.leb_gt in H1. apply Nat.leb_gt. lia. }
           replace (j <? S k + n)%nat with (j <? k + S n)%nat by (f_equal; lia).
           reflexivity.
      * intros c Hc. destruct (Hcmds c Hc) as [Hold | Hnew]; [|right; assumption].
        simpl in Hold. apply in_app_or in Hold.
        destruct Hold as [Hold | [<- | []]]; [left; assumption | right; eauto].
    + destruct (IH (S k) w g Hg) as (g' & Hrun & Hd & Hn & Hunits & Hcmds).
      exists g'. split; [exact Hrun|].
      split; [assumption|]. split; [assumption|]. split; [|assumption].
      intros j. rewrite Hunits.
      destruct (Nat.eq_dec j k) as [-> | Hjk].
      * rewrite Hthis, !andb_false_r. reflexivity.
      * replace (S k <=? j)%nat with (k <=? j)%nat.
        2: { destruct (k <=? j)%nat eqn:H1; symmetry.
             - apply Nat.leb_le in H1. apply Nat.leb_le. lia.
             - apply Nat.leb_gt in H1. apply Nat.leb_gt. lia. }
        replace (j <? S k + n)%nat with (j <? k + S n)%nat by (f_equal; lia).
        reflexivity.
Qed.

(** X1.  On a live device [Release] of an object with a handle unbinds
    the texture from every texture unit below MAX_TEXTURE_UNITS that
    holds it and leaves every other unit as it was; its last command
    deletes the handle, the object is left without one, and any render
    surface is released. *)
Theorem Release_unbinds_and_deletes w g :
  graphics_ w = Some g -> deviceLost_ g = false -> object_name_ (this w) <> 0 ->
  exists g',
    Release w = Done tt (set_this (releasedObject (this w)) (set_graphics_ (Some g') w))
    /\ (forall i, 0 <= i ->
          Graphics_GetTexture g' i
          = if (i <? MAX_TEXTURE_UNITS) && isThisTexture (Graphics_GetTexture g i)
            then None else Graphics_GetTexture g i)
    /\ last (commands_ g') = Some (glDeleteTextures (object_name_ (this w))).
Proof.
  intros Hg Hlive Hname.
  destruct (unbind_rounds (Z.to_nat MAX_TEXTURE_UNITS) 0 w g Hg)
    as (g1 & Hrun & Hd & Hn & Hunits & _).
  exists (issue (glDeleteTextures (object_name_ (this w))) g1).
  split; [|split].
  - assert (Hunb : unbindFromUnits w = Done tt (set_graphics_ (Some g1) w)) by exact Hrun.
    unfold Release. mrun. apply Z.eqb_neq in Hname. rewrite Hname. simpl.
    rewrite Hg. simpl. rewrite Hg. simpl. rewrite Hlive. simpl.
    rewrite Hunb. reflexivity.
  - intros i Hi. unfold Graphics_GetTexture at 1. simpl.
    fold (unitAt g1 (Z.to_nat i)). rewrite Hunits. simpl.
    unfold Graphics_GetTexture. fold (unitAt g (Z.to_nat i)).
    replace (Z.to_nat i <? Z.to_nat MAX_TEXTURE_UNITS)%nat with (i <? MAX_TEXTURE_UNITS).
    + reflexivity.
    + destruct (i <? MAX_TEXTURE_UNITS) eqn:Hlt; symmetry.
      * apply Z.ltb_lt in Hlt. apply Nat.ltb_lt. lia.
      * apply Z.ltb_ge in Hlt. apply Nat.ltb_ge. lia.
  - simpl. apply last_snoc.
Qed.

(** X2.  [Release] always returns.  It changes nothing of the object but
    the handle and the render surface, logs nothing, and leaves the
    renderer and the cache alone; when the device is lost it issues no
    command and changes no texture unit. *)
Theorem Release_frame w :
  exists w', Release w = Done tt w'
    /\ (this w' = this w \/ this w' = releasedObject (this w))
    /\ renderer_ w' = renderer_ w /\ cache_ w' = cache_ w /\ log_ w' = log_ w
    /\ match graphics_ w with
       | None => w' = w
       | Some g => object_name_ (this w') = 0
                   /\ if deviceLost_ g then graphics_ w' = Some g
                      else nonNull (graphics_ w') = true
       end.
Proof.
  destruct (Release_total w) as (w' & Hrun & Hr & Hc & Hl & Hthis & Hgr).
  exists w'. repeat split; try assumption.
  destruct (graphics_ w) as [g|]; [|assumption].
  destruct Hgr as (Hname & g' & Hg' & Hd & Hn & Hsame). split; [assumption|].
  destruct (deviceLost_ g).
  - rewrite Hg', Hsame; reflexivity.
  - rewrite Hg'. reflexivity.
Qed.

(** *** GetData and the per-region SetData *)

Lemma unit0_unbound g : Graphics_GetTexture (Graphics_SetTexture 0 None g) 0 = None.
Proof.
  unfold Graphics_GetTexture, Graphics_SetTexture. simpl.
  destruct (textures_ g); reflexivity.
Qed.

(** X3.  [GetData] always returns and never changes the object, the
    renderer or the cache.  It returns true exactly when the object has a
    handle, Graphics is present and not lost, the destination is not
    null, the layer is 0 and the level is below the level count; then
    unit 0, used for the read-back, is left unbound.  In every other case
    no command is issued. *)
Theorem GetData_reads_only layer level dest w :
  exists w', GetData layer level dest w = Done (GetData_accepts layer level dest w) w'
    /\ this w' = this w /\ renderer_ w' = renderer_ w /\ cache_ w' = cache_ w
    /\ if GetData_accepts layer level dest w
       then exists g', graphics_ w' = Some g' /\ Graphics_GetTexture g' 0 = None
       else graphics_ w' = graphics_ w.
Proof.
  destruct w as [t gr r c l]. unfold GetData, GetData_accepts. mrun. simpl.
  destruct gr as [g|]; simpl.
  2: { rewrite orb_true_r, andb_false_r. simpl.
       eexists. split; [reflexivity|]. simpl. auto. }
  rewrite orb_false_r.
  destruct (object_name_ t =? 0); simpl;
    [eexists; split; [reflexivity|]; simpl; auto|].
  destruct dest as [d|]; simpl;
    [|rewrite andb_false_r; eexists; split; [reflexivity|]; simpl; auto].
  destruct (layer =? 0); simpl;
    [|rewrite andb_false_r; eexists; split; [reflexivity|]; simpl; auto].
  destruct (levels_ t <=? level) eqn:Hlev; simpl.
  { assert (Hlt : (level <? levels_ t) = false)
      by (apply Z.ltb_ge; apply Z.leb_le in Hlev; lia).
    rewrite Hlt, andb_false_r. eexists. split; [reflexivity|]. simpl. auto. }
  assert (Hlt : (level <? levels_ t) = true)
    by (apply Z.ltb_lt; apply Z.leb_gt in Hlev; lia).
  rewrite Hlt.
  destruct (deviceLost_ g); simpl;
    [eexists; split; [reflexivity|]; simpl; auto|].
  unfold SetTextureForUpdate. mrun. simpl.
  destruct (IsCompressed t); simpl;
    (eexists; split; [reflexivity|]; simpl; repeat split;
     eexists; split; [reflexivity | apply unit0_unbound]).
Qed.

(** X4.  The per-region [SetData] always returns.  When it returns false
    it has changed neither the object nor Graphics: nothing was bound and
    nothing uploaded.  When it returns true on a lost device the only
    change is [dataPending_]; when it returns true on a live device the
    object is unchanged and unit 0 is left unbound. *)
Theorem SetData_outcomes layer level x y width height data w :
  exists ok w', SetData layer level x y width height data w = Done ok w'
    /\ renderer_ w' = renderer_ w /\ cache_ w' = cache_ w
    /\ if ok
       then match graphics_ w with
            | Some g =>
                if deviceLost_ g
                then this w' = set_dataPending_ true (this w)
                     /\ graphics_ w' = graphics_ w
                else this w' = this w
                     /\ exists g', graphics_ w' = Some g'
                                   /\ Graphics_GetTexture g' 0 = None
            | None => False
            end
       else this w' = this w /\ graphics_ w' = graphics_ w.
Proof.
  destruct w as [t gr r c l]. unfold SetData. mrun. simpl.
  destruct gr as [g|]; simpl.
  2: { rewrite orb_true_r. eexists _, _. split; [reflexivity|]. simpl. auto. }
  rewrite orb_false_r.
  destruct (object_name_ t =? 0); simpl;
    [eexists _, _; split; [reflexivity|]; simpl; auto|].
  destruct data as [d|]; simpl;
    [|eexists _, _; split; [reflexivity|]; simpl; auto].
  destruct (layers_ t <=? layer); simpl;
    [eexists _, _; split; [reflexivity|]; simpl; auto|].
  destruct (levels_ t <=? level); simpl;
    [eexists _, _; split; [reflexivity|]; simpl; auto|].
  destruct (deviceLost_ g) eqn:Hlost; simpl;
    [eexists _, _; split; [reflexivity|]; simpl; rewrite ?Hlost; auto|].
  match goal with
  | |- context [if ?b then _ else _] => destruct b; simpl
  end; [eexists _, _; split; [reflexivity|]; simpl; auto|].
  unfold SetTextureForUpdate. mrun. simpl.
  destruct (IsCompressed t); simpl;
    match goal with
    | |- context [if ?b then _ else _] => destruct b; simpl
    end; (eexists _, _; split; [reflexivity|]); simpl; rewrite ?Hlost;
    repeat split; eexists; (split; [reflexivity | apply unit0_unbound]).
Qed.

Lemma align4 x : Z.land x (Z.lnot 3) = 4 * (x / 4).
Proof.
  rewrite <- Z.ldiff_land. change 3 with (Z.ones 2).
  rewrite Z.ldiff_ones_r by lia.
  rewrite Z.shiftl_mul_pow2, Z.shiftr_div_pow2 by lia.
  change (2 ^ 2) with 4. lia.
Qed.

(** X5.  On a compressed texture the per-region [SetData] rounds the
    position down to a multiple of 4 in each direction before anything
    else: a call at (x, y) is the call at (4 * (x / 4), 4 * (y / 4)). *)
Theorem SetData_compressed_alignment layer level x y width height data w :
  IsCompressed (this w) = true ->
  SetData layer level x y width height data w
  = SetData layer level (4 * (x / 4)) (4 * (y / 4)) width height data w.
Proof.
  intros Hc. destruct w as [t gr r c l]. simpl in Hc.
  unfold SetData. mrun. simpl. rewrite Hc.
  rewrite !align4.
  replace (4 * (x / 4) / 4) with (x / 4) by (rewrite Z.mul_comm, Z.div_mul; lia).
  replace (4 * (y / 4) / 4) with (y / 4) by (rewrite Z.mul_comm, Z.div_mul; lia).
  reflexivity.
Qed.

(** *** Create and SetSize on a live device *)

Lemma Create_live_full w g :
  graphics_ w = Some g -> deviceLost_ g = false ->
  width_ (this w) <> 0 -> height_ (this w) <> 0 -> layers_ (this w) <> 0 ->
  exists w' g',
    Create w = Done (createSucceeds (this w)) w'
    /\ (this w' = createdObject (this w) g
        \/ this w' = createdObject (releasedObject (this w)) g)
    /\ graphics_ w' = Some g' /\ deviceLost_ g' = false
    /\ nextName_ g' = Pos.succ (nextName_ g)
    /\ Graphics_GetTexture g' 0 = None
    /\ renderer_ w' = renderer_ w /\ cache_ w' = cache_ w
    /\ log_ w' = (if createSucceeds (this w) then log_ w else log_ w ++ [createFailed]).
Proof.
  intros Hg Hlive Hw Hh Hl.
  destruct (Release_total w) as (w1 & Hrel & Hr & Hc & Hlog & Hthis & Hgr).
  rewrite Hg in Hgr. destruct Hgr as (Hname & g1 & Hg1 & Hd1 & Hn1 & _).
  assert (Hf : width_ (this w1) = width_ (this w) /\ height_ (this w1) = height_ (this w)
               /\ layers_ (this w1) = layers_ (this w)
               /\ format_ (this w1) = format_ (this w)
               /\ sRGB_ (this w1) = sRGB_ (this w)
               /\ target_ (this w1) = target_ (this w)
               /\ requestedLevels_ (this w1) = requestedLevels_ (this w)).
  { destruct Hthis as [-> | ->]; repeat split; auto. }
  destruct Hf as (Hw1 & Hh1 & Hl1 & Hf1 & Hs1 & Ht1 & Hq1).
  assert (Hobj : forall L,
            L = createdLevels (this w) ->
            set_levels_ L (set_object_name_ (Z.pos (nextName_ g)) (this w1))
            = createdObject (this w) g
            \/ set_levels_ L (set_object_name_ (Z.pos (nextName_ g)) (this w1))
               = createdObject (releasedObject (this w)) g).
  { intros L ->. destruct Hthis as [-> | ->]; [left | right]; reflexivity. }
  unfold Create. mrun. rewrite Hrel.
  destruct w1 as [t1 gr1 r1 c1 l1]. simpl in *. subst gr1.
  rewrite Hw1, Hh1, Hl1.
  apply Z.eqb_neq in Hw, Hh, Hl. rewrite Hw, Hh, Hl. simpl.
  rewrite Hd1, Hlive.
  unfold glGenTextures_object, SetTextureForUpdate, Texture_UpdateParameters. mrun. simpl.
  unfold createSucceeds, baseAllocation, IsCompressed, GetSRGB. simpl.
  rewrite <- Hf1, <- Hs1, <- Ht1, <- Hw1, <- Hh1, <- Hl1, <- Hn1.
  assert (Hpos : forall p : positive, (Z.pos p =? 0) = false) by (intros; apply Z.eqb_neq; lia).
  assert (Hlev : (if requestedLevels_ t1 =? 0
                  then countLevels 32 (u32 (Z.max (width_ t1) (height_ t1))) 0
                  else requestedLevels_ t1) = createdLevels (this w)).
  { unfold createdLevels. rewrite Hw1, Hh1, Hq1. reflexivity. }
  destruct (IsCompressedFormat (format_ t1)); simpl;
    [| destruct (glError _ =? 0); simpl ];
    (destruct (requestedLevels_ t1 =? 0) eqn:Hreq; simpl; rewrite ?Hreq, ?Hpos; simpl;
     eexists; eexists; (split; [reflexivity|]);
     (split; [rewrite ?Hn1; apply Hobj; exact Hlev|]);
     (split; [reflexivity|]);
     (split; [cbv [Graphics_SetTexture issue Graphics_SetTextureForUpdate]; simpl;
              congruence|]);
     (split; [reflexivity|]); (split; [apply unit0_unbound|]);
     repeat split; simpl; unfold createFailed; congruence).
Qed.

Lemma createdObject_fields t g :
  sameButHandle t (createdObject t g)
  /\ sameButHandle t (createdObject (releasedObject t) g)
  /\ object_name_ (createdObject t g) = Z.pos (nextName_ g)
  /\ object_name_ (createdObject (releasedObject t) g) = Z.pos (nextName_ g)
  /\ levels_ (createdObject t g) = createdLevels t
  /\ levels_ (createdObject (releasedObject t) g) = createdLevels t.
Proof.
  repeat split.
  - exists (Z.pos (nextName_ g)), (createdLevels t), (renderSurface_ t). reflexivity.
  - exists (Z.pos (nextName_ g)), (createdLevels t),
      (RenderSurface_Release <$> renderSurface_ t). reflexivity.
Qed.

(** X6.  When the driver raises an error on the level-0 allocation of an
    uncompressed format, [SetSize] on a live device returns false and
    logs the failure, yet the object keeps the new handle and carries the
    new width, height and format. *)
Theorem SetSize_driver_error layers width height format usage w g :
  0 < width -> 0 < height -> usage <> TEXTURE_DEPTHSTENCIL ->
  graphics_ w = Some g -> deviceLost_ g = false ->
  (if layers =? 0 then layers_ (this w) else layers) <> 0 ->
  IsCompressedFormat format = false ->
  glError (glTexImage3D (target_ (this w)) 0
             (if sRGB_ (this w) then GetSRGBFormat format else format)
             width height (if layers =? 0 then layers_ (this w) else layers) 0
             (GetExternalFormat format) (GetDataType format) None) <> 0 ->
  exists w', SetSize layers width height format usage w = Done false w'
    /\ object_name_ (this w') = Z.pos (nextName_ g)
    /\ width_ (this w') = width /\ height_ (this w') = height
    /\ format_ (this w') = format
    /\ log_ w' = log_ w ++ [LOGERROR "Failed to create texture array"].
Proof.
  intros Hw Hh Hu Hg Hlive Hl Hfmt Herr. rewrite SetSize_accepted by assumption.
  destruct (sizedObject_fields layers width height format usage (this w))
    as (Fw & Fh & Ff & Fl & _ & Fs & Ft & _).
  set (w0 := set_this (sizedObject layers width height format usage (this w)) w).
  destruct (Create_live_full w0 g)
    as (w' & g' & Hrun & Hobj & _ & _ & _ & _ & _ & _ & Hlog); subst w0;
    rewrite ?this_set_this; try assumption; try lia.
  rewrite this_set_this in Hobj.
  destruct (createdObject_fields (sizedObject layers width height format usage (this w)) g)
    as (S1 & S2 & N1 & N2 & _).
  assert (Hsame : sameButHandle (sizedObject layers width height format usage (this w))
                    (this w')) by (destruct Hobj as [-> | ->]; assumption).
  assert (Hname : object_name_ (this w') = Z.pos (nextName_ g))
    by (destruct Hobj as [-> | ->]; assumption).
  assert (Hfail : createSucceeds (sizedObject layers width height format usage (this w))
                  = false).
  { unfold createSucceeds, baseAllocation, IsCompressed, GetSRGB.
    rewrite Fw, Fh, Ff, Fl, Fs, Ft, Hfmt. simpl. apply Z.eqb_neq. assumption. }
  rewrite this_set_this, Hfail in Hrun, Hlog.
  exists w'. split; [assumption|].
  apply sameButHandle_fields in Hsame.
  destruct Hsame as (Hw' & Hh' & Hf' & _).
  rewrite Hw', Hh', Hf', Hname. repeat split; auto.
Qed.

(** What [Create] can have done to the render surface and to the members
    beside the handle and the level count. *)
Lemma Create_surface w :
  exists b w', Create w = Done b w'
    /\ (renderSurface_ (this w') = renderSurface_ (this w)
        \/ renderSurface_ (this w') = RenderSurface_Release <$> renderSurface_ (this w))
    /\ usage_ (this w') = usage_ (this w)
    /\ subscribedToRenderSurfaceUpdate_ (this w')
       = subscribedToRenderSurfaceUpdate_ (this w)
    /\ filterMode_ (this w') = filterMode_ (this w)
    /\ requestedLevels_ (this w') = requestedLevels_ (this w).
Proof.
  assert (Hcases : graphics_ w = None \/ width_ (this w) = 0 \/ height_ (this w) = 0
                   \/ layers_ (this w) = 0
                   \/ exists g, graphics_ w = Some g /\ width_ (this w) <> 0
                                /\ height_ (this w) <> 0 /\ layers_ (this w) <> 0).
  { destruct (graphics_ w) as [g|]; [|auto].
    destruct (Z.eq_dec (width_ (this w)) 0); [auto|].
    destruct (Z.eq_dec (height_ (this w)) 0); [auto|].
    destruct (Z.eq_dec (layers_ (this w)) 0); [auto|].
    right. right. right. right. exists g. auto. }
  destruct Hcases as [H | [H | [H | [H | (g & Hg & Hw & Hh & Hl)]]]].
  1-4: (edestruct (Create_refused w) as (w' & HC & HR); [eauto|];
        destruct (Release_total w) as (w1 & Hrel & _ & _ & _ & Hthis & _);
        rewrite Hrel in HR; inversion HR; subst w';
        exists false, w1; split; [assumption|];
        destruct Hthis as [-> | ->]; repeat split; auto).
  destruct (deviceLost_ g) eqn:Hlost.
  - destruct (Create_lost w g Hg Hlost Hw Hh Hl) as (w' & HC & Hthis & _).
    exists true, w'. split; [assumption|].
    destruct Hthis as [-> | ->]; repeat split; auto.
  - destruct (Create_live_full w g Hg Hlost Hw Hh Hl) as (w' & g' & HC & Hthis & _).
    eexists _, w'. split; [exact HC|].
    destruct Hthis as [-> | ->]; repeat split; auto.
Qed.

(** X7.  A [SetSize] whose arguments pass validation records the usage.
    For a render target it attaches a render surface, subscribes to the
    render-surface update event, selects nearest filtering and requests a
    single mip level; for any other usage it drops the render surface and
    the subscription and leaves the filter mode and the requested level
    count as they were. *)
Theorem SetSize_usage layers width height format usage w :
  0 < width -> 0 < height -> usage <> TEXTURE_DEPTHSTENCIL ->
  exists ok w', SetSize layers width height format usage w = Done ok w'
    /\ usage_ (this w') = usage
    /\ nonNull (renderSurface_ (this w')) = TextureUsage_eqb usage TEXTURE_RENDERTARGET
    /\ subscribedToRenderSurfaceUpdate_ (this w')
       = TextureUsage_eqb usage TEXTURE_RENDERTARGET
    /\ filterMode_ (this w')
       = (if TextureUsage_eqb usage TEXTURE_RENDERTARGET then FILTER_NEAREST
          else filterMode_ (this w))
    /\ requestedLevels_ (this w')
       = (if TextureUsage_eqb usage TEXTURE_RENDERTARGET then 1
          else requestedLevels_ (this w)).
Proof.
  intros Hw Hh Hu. rewrite SetSize_accepted by assumption.
  destruct (Create_surface
              (set_this (sizedObject layers width height format usage (this w)) w))
    as (ok & w' & Hrun & Hrs & Hus & Hsub & Hfil & Hreq).
  rewrite this_set_this in Hrs, Hus, Hsub, Hfil, Hreq.
  exists ok, w'. split; [assumption|].
  rewrite Hus, Hsub, Hfil, Hreq.
  assert (Hn : nonNull (renderSurface_ (this w'))
               = nonNull (renderSurface_
                            (sizedObject layers width height format usage (this w)))).
  { destruct Hrs as [-> | ->]; [reflexivity|].
    destruct (renderSurface_ (sizedObject layers width height format usage (this w)));
      reflexivity. }
  rewrite Hn. unfold sizedObject.
  destruct (TextureUsage_eqb usage TEXTURE_RENDERTARGET) eqn:Hrt, (layers =? 0);
    repeat split; destruct usage; try discriminate; reflexivity.
Qed.

(** *** BeginLoad and EndLoad *)

Lemma collect_layers texPath (layers : list XMLElement) : forall w,
  forEach layers
    (fun layerElem =>
       let name := GetAttribute layerElem "name" in
       let name := if String.eqb (GetPath name) "" then texPath +:+ name else name in
       update (fun t => set_loadImages_ (loadImages_ t ++ [GetTempResource name]) t) ;;
       onCache (StoreResourceDependency name)) w
  = Done tt
      (set_this
         (set_loadImages_
            (loadImages_ (this w)
             ++ map (fun e => GetTempResource (resolvedName texPath e)) layers)
            (this w))
         (set_cache_
            {| dependencies_ := dependencies_ (cache_ w)
                                ++ map (resolvedName texPath) layers |} w)).
Proof.
  induction layers as [|e layers IH]; intros w.
  - simpl. rewrite !app_nil_r. reflexivity.
  - change (forEach (e :: layers) ?body w) with (bind (body e) (fun _ => forEach layers body) w).
    unfold bind at 1. unfold onCache, StoreResourceDependency. mrun.
    rewrite IH. simpl. rewrite <- !app_assoc. reflexivity.
Qed.

(** X8.  On a live device [BeginLoad] first forgets the recorded
    dependencies.  If the descriptor parses, it keeps it as the load
    parameters, replaces the prefetched images by one image per [layer]
    element, in document order, each fetched under its resolved name
    (and with levels precalculated during an asynchronous load), records
    those names as the dependencies, and returns true.  If the descriptor
    does not parse, it clears the load parameters, keeps the old images
    and returns false.  Nothing else changes and no command is issued. *)
Theorem BeginLoad_collects source w g :
  graphics_ w = Some g -> deviceLost_ g = false ->
  BeginLoad source w
  = match XMLFile_Load source with
    | Some xml =>
        let names := map (resolvedName (fst (fst (SplitPath (name_ (this w)))))) 
                       (childrenNamed xml "layer") in
        Done true
          (set_this
             (set_loadImages_
                (map (prefetched (isAsyncLoading (asyncLoadState_ (this w)))) names)
                (set_loadParameters_ (Some xml) (this w)))
             (set_cache_ {| dependencies_ := names |} w))
    | None =>
        Done false
          (set_this (set_loadParameters_ None (this w))
             (set_cache_ {| dependencies_ := [] |} w))
    end.
Proof.
  intros Hg Hlive. destruct w as [t gr r c l]. simpl in *. subst gr.
  unfold BeginLoad. mrun. simpl.
  rewrite Hlive. unfold onCache, ResetDependencies. simpl.
  destruct (XMLFile_Load source) as [xml|]; [|reflexivity].
  simpl.
  match goal with
  | |- context [forEach ?ls ?b ?w0] =>
      change (forEach ls b w0)
        with (forEach ls
                (fun layerElem =>
                   let name := GetAttribute layerElem "name" in
                   let name := if String.eqb (GetPath name) ""
                               then fst (fst (SplitPath (name_ t))) +:+ name else name in
                   update (fun t => set_loadImages_
                                      (loadImages_ t ++ [GetTempResource name]) t) ;;
                   onCache (StoreResourceDependency name)) w0)
  end.
  rewrite collect_layers. simpl.
  unfold prefetched.
  destruct (isAsyncLoading (asyncLoadState_ t)); simpl;
    rewrite ?map_map; reflexivity.
Qed.

(** X9.  Without a Graphics subsystem: [BeginLoad] and [EndLoad] return
    true and [Release] returns, all three changing nothing, whatever the
    stream holds and whether or not the object has a handle; [Create]
    returns false and changes nothing; a [SetSize] with valid arguments
    returns false although it has already recorded the new size, format
    and usage and cleared the per-layer counters; the per-region
    [SetData] and [GetData] return false and leave the object as it
    was. *)
Theorem headless_outcomes w source layers width height format usage
    layer level x y rw rh data dest :
  graphics_ w = None ->
  0 < width -> 0 < height -> usage <> TEXTURE_DEPTHSTENCIL ->
  BeginLoad source w = Done true w
  /\ EndLoad w = Done true w
  /\ Release w = Done tt w
  /\ Create w = Done false w
  /\ SetSize layers width height format usage w
     = Done false (set_this (sizedObject layers width height format usage (this w)) w)
  /\ (exists w', SetData layer level x y rw rh data w = Done false w'
                 /\ this w' = this w /\ graphics_ w' = None)
  /\ (exists w', GetData layer level dest w = Done false w'
                 /\ this w' = this w /\ graphics_ w' = None).
Proof.
  intros Hg Hw Hh Hu.
  assert (HC : forall w0, graphics_ w0 = None -> Create w0 = Done false w0).
  { intros w0 H0. destruct (Create_refused w0 (or_introl H0)) as (w' & HC & HR).
    rewrite (Release_headless w0 H0) in HR. inversion HR; subst w'. assumption. }
  split; [|split; [|split; [|split; [|split; [|split]]]]].
  - unfold BeginLoad. mrun. rewrite Hg. reflexivity.
  - unfold EndLoad. mrun. rewrite Hg. reflexivity.
  - apply Release_headless. assumption.
  - apply HC. assumption.
  - rewrite SetSize_accepted by assumption. apply HC. assumption.
  - unfold SetData. mrun. rewrite Hg. simpl. rewrite orb_true_r.
    eexists. split; [reflexivity|]. simpl. auto.
  - unfold GetData. mrun. rewrite Hg. simpl. rewrite orb_true_r.
    eexists. split; [reflexivity|]. simpl. auto.
Qed.

Lemma SetData_image_null layer useAlpha w :
  SetData_image layer None useAlpha w = Done false (set_log_ (log_ w ++ [nullImage]) w).
Proof. reflexivity. Qed.

Lemma uploadLoadedImages_all_missing w :
  Forall (fun image => image = None) (loadImages_ (this w)) ->
  exists w', uploadLoadedImages w = Done tt w' /\ sameButLog w w'.
Proof.
  intros Hall. unfold uploadLoadedImages, forRange. unfold bind at 1, self.
  match goal with
  | |- context [forAccum ?n 0 ?s0 ?body w] =>
      assert (Hbody : forall i (s : unit) w1, sameButLog w w1 ->
                exists s' w', body i s w1 = Done s' w' /\ sameButLog w w');
      [| destruct (forAccum_invariant (fun _ w' => sameButLog w w') body Hbody
                     n 0 s0 w (sameButLog_refl w)) as ([] & w' & Hrun & Hinv);
         exists w'; split; assumption ]
  end.
  intros i s w1 (Ht & Hgr & Hr & Hc). mrun. rewrite Ht.
  assert (Hnone : default None (loadImages_ (this w) !! Z.to_nat i) = None).
  { destruct (loadImages_ (this w) !! Z.to_nat i) as [im|] eqn:Hi; [|reflexivity].
    simpl. eapply Forall_lookup_1 in Hall; eauto. }
  rewrite Hnone, SetData_image_null. eexists tt, _. split; [reflexivity|].
  repeat split; simpl; assumption.
Qed.

(** X10.  On a live device, when none of the images named by the
    descriptor could be fetched, [EndLoad] still returns true: it
    applies the load parameters, declares as many layers as there are
    image slots, releases the handle, uploads nothing, and forgets the
    images and the load parameters. *)
Theorem EndLoad_all_images_missing w g :
  graphics_ w = Some g -> deviceLost_ g = false ->
  Forall (fun image => image = None)
    (loadImages_ (SetParameters (loadParameters_ (this w)) (this w))) ->
  exists w', EndLoad w = Done true w'
    /\ layers_ (this w')
       = Z.of_nat (length (loadImages_ (SetParameters (loadParameters_ (this w)) (this w))))
    /\ object_name_ (this w') = 0
    /\ loadImages_ (this w') = [] /\ loadParameters_ (this w') = None.
Proof.
  intros Hg Hlive Hall. unfold EndLoad. mrun. rewrite Hg. simpl. rewrite Hg. simpl.
  rewrite Hlive. unfold onCache. simpl.
  set (t1 := SetParameters (loadParameters_ (this w)) (this w)) in *.
  unfold SetLayers. mrun.
  match goal with
  | |- context [Release ?w0] =>
      destruct (Release_total w0) as (w1 & Hrel & _ & _ & _ & Hthis & Hgr);
      rewrite Hrel
  end.
  simpl in Hgr, Hthis. rewrite Hg in Hgr.
  destruct Hgr as (Hname & g1 & Hg1 & Hd1 & _).
  assert (Himg : loadImages_ (this w1) = loadImages_ t1)
    by (destruct Hthis as [-> | ->]; reflexivity).
  match goal with
  | |- context [uploadLoadedImages ?w2] =>
      destruct (uploadLoadedImages_all_missing w2) as (w3 & Hup & Ht3 & _);
      [simpl; rewrite Himg; assumption|]; rewrite Hup
  end.
  eexists. split; [reflexivity|]. simpl. rewrite Ht3. simpl.
  repeat split; assumption.
Qed.

(** X11.  [EndLoad] never reports failure: whenever it returns, it
    returns true, whatever became of the uploads of the layers. *)
Theorem EndLoad_never_false w ok w' :
  EndLoad w = Done ok w' -> ok = true.
Proof.
  unfold EndLoad. mrun.
  destruct (graphics_ w) as [g|] eqn:Hg; simpl.
  2: { intros H. inversion H. reflexivity. }
  rewrite Hg. simpl.
  destruct (deviceLost_ g); simpl.
  { intros H. inversion H. reflexivity. }
  unfold onCache, SetLayers. mrun.
  match goal with
  | |- context [Release ?w0] => destruct (Release w0) as [[] w1|f]
  end; [|discriminate].
  match goal with
  | |- context [uploadLoadedImages ?w2] => destruct (uploadLoadedImages w2) as [[] w3|f]
  end; [|discriminate].
  intros H. inversion H. reflexivity.
Qed.

(** *** OnDeviceReset *)

(** X12.  [OnDeviceReset] always returns and always clears
    [dataPending_].  With a handle and nothing pending it changes nothing
    at all: no reload, no [Create].  Otherwise it tries the reload when
    the resource has a file in the cache, which sets [dataLost_] to
    whether the reload failed, and it sets [dataLost_] whenever no handle
    is left after that attempt, whether or not [Create] then makes one. *)
Theorem OnDeviceReset_flags w :
  exists w', OnDeviceReset w = Done tt w'
    /\ dataPending_ (this w') = false
    /\ if negb (object_name_ (this w) =? 0) && negb (dataPending_ (this w))
       then w' = w
       else dataLost_ (this w')
            = (if object_name_ (this (afterReloadAttempt w)) =? 0 then true
               else dataLost_ (this (afterReloadAttempt w))).
Proof.
  destruct (negb (object_name_ (this w) =? 0) && negb (dataPending_ (this w))) eqn:Hidle.
  - apply andb_true_iff in Hidle. destruct Hidle as [Hn Hp].
    apply negb_true_iff in Hn, Hp.
    exists w. split; [|split; [assumption | reflexivity]].
    unfold OnDeviceReset. mrun. rewrite Hn, Hp. simpl.
    f_equal. destruct w as [t gr r c l]. simpl in *.
    unfold set_this. simpl. f_equal.
    rewrite <- Hp at 1. reflexivity.
  - assert (Hneed : object_name_ (this w) = 0 \/ dataPending_ (this w) = true).
    { apply andb_false_iff in Hidle. destruct Hidle as [H | H];
        apply negb_false_iff in H; [left; apply Z.eqb_eq | right]; assumption. }
    destruct (object_name_ (this (afterReloadAttempt w)) =? 0) eqn:Hafter.
    + apply Z.eqb_eq in Hafter.
      unfold OnDeviceReset. mrun.
      assert (Hc : (object_name_ (this w) =? 0) || dataPending_ (this w) = true).
      { destruct Hneed as [-> | ->]; [reflexivity | apply orb_true_r]. }
      rewrite Hc. unfold afterReloadAttempt in Hafter. unfold cache_ReloadResource.
      destruct (Exists (name_ (this w))); simpl.
      * destruct (ReloadResource w) as [ok wr]. simpl in *.
        rewrite Hafter. simpl.
        destruct (Create_total (set_this (set_dataLost_ (negb ok) (this wr)) wr))
          as (b & wc & HC & _).
        fold (set_this (set_dataLost_ (negb ok) (this wr)) wr). rewrite HC.
        eexists. split; [reflexivity|]. simpl. auto.
      * rewrite Hafter. simpl.
        destruct (Create_total w) as (b & wc & HC & _). rewrite HC.
        eexists. split; [reflexivity|]. simpl. auto.
    + apply Z.eqb_neq in Hafter.
      rewrite (OnDeviceReset_keeps w Hneed Hafter).
      eexists. split; [reflexivity|]. simpl. auto.
Qed.

(** *** The memory-use record *)

Lemma foldl_u32 (l : list Z) : forall acc,
  foldl (fun a x => u32 (a + x)) (u32 acc) l = u32 (acc + total l).
Proof.
  induction l as [|x l IH]; intros acc; simpl.
  - rewrite Z.add_0_r. reflexivity.
  - replace (u32 (u32 acc + x)) with (u32 (acc + x))
      by (unfold u32; rewrite Z.add_mod_idemp_l by lia; reflexivity).
    rewrite IH. f_equal. lia.
Qed.

Lemma add_rounds (buf : list Z) n : forall (k : nat) acc w,
  (k + n <= length buf)%nat ->
  forAccum n (Z.of_nat k) acc
    (fun i total =>
       match buf !! Z.to_nat i with
       | Some use => ret (u32 (total + use))
       | None => crash IndexOutOfRange
       end) w
  = Done (foldl (fun a x => u32 (a + x)) acc (take n (drop k buf))) w.
Proof.
  induction n as [|n IH]; intros k acc w Hlen.
  - reflexivity.
  - change (forAccum (S n) (Z.of_nat k) acc ?body w)
      with (bind (body (Z.of_nat k) acc)
              (fun s' => forAccum n (Z.of_nat k + 1) s' body) w).
    unfold bind at 1. rewrite Nat2Z.id.
    destruct (buf !! k) as [x|] eqn:Hx.
    2: { apply lookup_ge_None in Hx. lia. }
    unfold ret. replace (Z.of_nat k + 1) with (Z.of_nat (S k)) by lia.
    rewrite IH by lia. rewrite (drop_S _ _ _ Hx). reflexivity.
Qed.

(** Recording the memory use of a layer within range stores it in that
    layer's counter and totals the counters. *)
Lemma recordMemoryUse_sum layer memoryUse w :
  0 <= layer < layers_ (this w) ->
  length (PODVector.buffer_ (layerMemoryUse_ (this w))) = Z.to_nat (layers_ (this w)) ->
  let counters := <[Z.to_nat layer := memoryUse]>
                    (PODVector.buffer_ (layerMemoryUse_ (this w))) in
  recordMemoryUse layer memoryUse w
  = Done tt
      (set_this
         (set_memoryUse_
            (u32 (sizeof_Texture2DArray
                  + PODVector.capacity_ (layerMemoryUse_ (this w)) * 4
                  + total counters))
            (withBuffer counters (this w))) w).
Proof.
  intros Hlayer Hlen counters. unfold recordMemoryUse. unfold bind at 1, self.
  assert (Hsize : (PODVector.Size (layerMemoryUse_ (this w)) <=? layer) = false).
  { apply Z.leb_gt. unfold PODVector.Size. rewrite Hlen. lia. }
  rewrite Hsize. unfold bind at 1, update. unfold bind at 1, self.
  unfold bind at 1. unfold addLayerMemoryUse. unfold bind at 1, self.
  unfold PODVector.get, PODVector.set, PODVector.Capacity. simpl.
  fold counters.
  change 0 with (Z.of_nat 0) at 1.
  rewrite (add_rounds counters).
  2: { unfold counters. rewrite length_insert. lia. }
  rewrite drop_0, take_ge by (unfold counters; rewrite length_insert; lia).
  rewrite foldl_u32. reflexivity.
Qed.

(** *** Sums of counters *)

Lemma total_replicate n : total (replicate n 0) = 0.
Proof. induction n as [|n IH]; simpl; [reflexivity | rewrite IH; reflexivity]. Qed.

Lemma total_first n m : (0 < n)%nat -> total (<[0%nat := m]> (replicate n 0)) = m.
Proof.
  destruct n as [|n]; [lia|]. intros _. simpl. rewrite total_replicate. lia.
Qed.

Lemma sizedObject_usage layers width height format usage t :
  usage_ (sizedObject layers width height format usage t) = usage.
Proof.
  unfold sizedObject.
  destruct (TextureUsage_eqb usage TEXTURE_RENDERTARGET), (layers =? 0); reflexivity.
Qed.

(** *** SetLayers *)

(** X15.  [SetLayers] always returns and records the new layer count.
    It drops the handle whenever there is a Graphics subsystem, and keeps
    it when there is none.  It does not touch the size, the format, the
    level count, the per-layer memory counters or the memory use: the
    counters are not resized to the new layer count. *)
Theorem SetLayers_only_layers_and_handle layers w :
  exists w', SetLayers layers w = Done tt w'
    /\ layers_ (this w') = layers
    /\ object_name_ (this w')
       = (if nonNull (graphics_ w) then 0 else object_name_ (this w))
    /\ width_ (this w') = width_ (this w) /\ height_ (this w') = height_ (this w)
    /\ format_ (this w') = format_ (this w) /\ levels_ (this w') = levels_ (this w)
    /\ layerMemoryUse_ (this w') = layerMemoryUse_ (this w)
    /\ memoryUse_ (this w') = memoryUse_ (this w).
Proof.
  destruct (Release_total w) as (w1 & Hrun & _ & _ & _ & Hthis & Hgr).
  unfold SetLayers, bind. rewrite Hrun. unfold update.
  eexists. split; [reflexivity|]. rewrite this_set_this.
  destruct (graphics_ w) as [g|]; simpl.
  - destruct Hgr as (Hname & _).
    destruct Hthis as [Ht | Ht]; rewrite Ht in *; simpl in *;
      repeat split; first [reflexivity | exact Hname | idtac].
  - subst w1. repeat split.
Qed.

(** *** The levels an image is uploaded as *)

Lemma SetData_levels layer level x y width height data w :
  exists ok w', SetData layer level x y width height data w = Done ok w'
                /\ levels_ (this w') = levels_ (this w).
Proof.
  destruct (SetData_total layer level x y width height data w)
    as (ok & w' & Hrun & Hthis & _).
  exists ok, w'. split; [assumption|]. destruct Hthis as [-> | ->]; reflexivity.
Qed.

Lemma mip_rounds layer components L n : forall i image memoryUse w,
  levels_ (this w) = L ->
  (forall j, i <= j < i + Z.of_nat n - 1 -> (j <? u32 (L - 1)) = true) ->
  exists final,
    forAccum n i (image, memoryUse)
      (fun i '(image, memoryUse) =>
         let levelWidth := Image.GetWidth image in
         let levelHeight := Image.GetHeight image in
         let* _ := SetData layer i 0 0 levelWidth levelHeight (Image.GetData image) in
         let memoryUse := u32 (memoryUse + levelWidth * levelHeight * components) in
         let* t := self in
         ret (if i <? u32 (levels_ t - 1) then GetNextLevel image else image,
              memoryUse)) w
    = Done (final, countBytes memoryUse (mipLevels components n image))
        (uploadEach layer i (mipLevels components n image) w).
Proof.
  induction n as [|n IH]; intros i image memoryUse w HL Hnext.
  - exists image. reflexivity.
  - change (forAccum (S n) i ?s ?body w)
      with (bind (body i s) (fun s' => forAccum n (i + 1) s' body) w).
    unfold bind at 1. unfold bind at 1.
    destruct (SetData_levels layer i 0 0 (Image.GetWidth image) (Image.GetHeight image)
                (Image.GetData image) w) as (ok & w1 & Hrun & Hlev).
    change (mipLevels components (S n) image)
      with (mipLevel components image :: mipLevels components n (GetNextLevel image)).
    change (uploadEach layer i (mipLevel components image :: ?rest) w)
      with (uploadEach layer (i + 1) rest
              (worldAfter (SetData layer i 0 0 (Image.GetWidth image)
                             (Image.GetHeight image) (Image.GetData image) w) w)).
    rewrite Hrun. unfold bind at 1, self, ret.
    change (worldAfter (Done ok w1) w) with w1.
    change (countBytes memoryUse (mipLevel components image :: ?rest))
      with (countBytes (u32 (memoryUse
                             + Image.GetWidth image * Image.GetHeight image * components))
              rest).
    rewrite Hlev, HL.
    destruct n as [|n'].
    + eexists. reflexivity.
    + rewrite Hnext by lia.
      apply IH; [congruence|]. intros j Hj. apply Hnext. lia.
Qed.

Lemma uploadMipChain_exact layer components image w :
  levels_ (this w) <= 2 ^ 32 ->
  uploadMipChain layer components image w
  = Done (countBytes 0 (mipLevels components (Z.to_nat (levels_ (this w))) image))
      (uploadEach layer 0 (mipLevels components (Z.to_nat (levels_ (this w))) image) w).
Proof.
  intros Hrange.
  destruct (mip_rounds layer components (levels_ (this w)) (Z.to_nat (levels_ (this w)))
              0 image 0 w eq_refl) as (final & Hrun).
  { intros j Hj. apply Z.ltb_lt. unfold u32. rewrite Z.mod_small by lia. lia. }
  unfold uploadMipChain. unfold bind at 1, self. unfold bind at 1.
  match goal with
  | |- match ?run with _ => _ end = _ => change run with (forAccum (Z.to_nat (levels_ (this w))) 0 (image, 0)
      (fun i '(image, memoryUse) =>
         let levelWidth := Image.GetWidth image in
         let levelHeight := Image.GetHeight image in
         let* _ := SetData layer i 0 0 levelWidth levelHeight (Image.GetData image) in
         let memoryUse := u32 (memoryUse + levelWidth * levelHeight * components) in
         let* t := self in
         ret (if i <? u32 (levels_ t - 1) then GetNextLevel image else image,
              memoryUse)) w)
  end.
  rewrite Hrun. reflexivity.
Qed.

Lemma compressed_rounds layer image mipsToSkip needDecompress n : forall k memoryUse w,
  forAccum n (Z.of_nat k) memoryUse
    (fun i memoryUse =>
       let level := Image.GetCompressedLevel image (u32 (i + mipsToSkip)) in
       if negb needDecompress then
         let* _ := SetData layer i 0 0 (CompressedLevel.width_ level)
                     (CompressedLevel.height_ level) (CompressedLevel.data_ level) in
         ret (u32 (memoryUse
                   + CompressedLevel.rows_ level * CompressedLevel.rowSize_ level))
       else
         let rgbaData := Decompress level in
         let* _ := SetData layer i 0 0 (CompressedLevel.width_ level)
                     (CompressedLevel.height_ level) (Some rgbaData) in
         ret (u32 (memoryUse
                   + CompressedLevel.width_ level * CompressedLevel.height_ level * 4))) w
  = Done (countBytes memoryUse
            (map (compressedLevel image mipsToSkip needDecompress) (seq k n)))
      (uploadEach layer (Z.of_nat k)
         (map (compressedLevel image mipsToSkip needDecompress) (seq k n)) w).
Proof.
  induction n as [|n IH]; intros k memoryUse w.
  - reflexivity.
  - change (forAccum (S n) (Z.of_nat k) ?s ?body w)
      with (bind (body (Z.of_nat k) s)
              (fun s' => forAccum n (Z.of_nat k + 1) s' body) w).
    change (seq k (S n)) with (k :: seq (S k) n).
    change (map ?f (k :: ?rest)) with (f k :: map f rest).
    change (uploadEach layer (Z.of_nat k) (?l :: ?rest) w)
      with (uploadEach layer (Z.of_nat k + 1) rest
              (worldAfter (SetData layer (Z.of_nat k) 0 0 (levelWidth l) (levelHeight l)
                             (levelData l) w) w)).
    change (countBytes memoryUse (?l :: ?rest))
      with (countBytes (u32 (memoryUse + levelBytes l)) rest).
    replace (Z.of_nat k + 1) with (Z.of_nat (S k)) by lia.
    unfold bind at 1.
    destruct needDecompress; cbv beta iota zeta delta [negb]; unfold bind at 1;
      match goal with
      | |- context [SetData ?a ?b ?c ?d ?e ?f ?g w] =>
          destruct (SetData_levels a b c d e f g w) as (ok & w1 & Hrun & _)
      end;
      unfold compressedLevel; cbv beta iota zeta;
      cbn [levelWidth levelHeight levelData levelBytes];
      rewrite Hrun; unfold ret;
      change (worldAfter (Done ok w1) w) with w1;
      apply IH.
Qed.

Lemma uploadCompressedLevels_exact layer image levels mipsToSkip needDecompress w :
  let n := Z.to_nat (Z.min (levels_ (this w)) (u32 (levels - mipsToSkip))) in
  uploadCompressedLevels layer image levels mipsToSkip needDecompress w
  = Done (countBytes 0 (compressedLevels image mipsToSkip needDecompress n))
      (uploadEach layer 0 (compressedLevels image mipsToSkip needDecompress n) w).
Proof.
  intros n. unfold uploadCompressedLevels. unfold bind at 1, self.
  apply (compressed_rounds layer image mipsToSkip needDecompress n 0%nat 0 w).
Qed.

(** *** What the per-region SetData does with a level *)

Lemma SetData_level_live layer level l w g :
  graphics_ w = Some g -> deviceLost_ g = false ->
  exists w' g',
    SetData layer level 0 0 (levelWidth l) (levelHeight l) (levelData l) w
    = Done (accepted (this w) layer level l) w'
    /\ this w' = this w /\ renderer_ w' = renderer_ w /\ cache_ w' = cache_ w
    /\ graphics_ w' = Some g' /\ deviceLost_ g' = false
    /\ nextName_ g' = nextName_ g
    /\ commands_ g'
       = commands_ g ++ (if accepted (this w) layer level l
                         then levelCommands (this w) layer level l else []).
Proof.
  intros Hg Hlost. destruct w as [t gr r c lg]. simpl in Hg. subst gr.
  unfold accepted, reachesDevice, fitsLevel, levelCommands, SetData, SetTextureForUpdate.
  mrun.
  change (Z.land 0 (Z.lnot 3)) with 0.
  assert (Hz : forall b : bool, (if b then 0 else 0) = 0) by (intros []; reflexivity).
  rewrite !Hz, !Z.add_0_l. clear Hz.
  change (0 <? 0) with false. change (0 =? 0) with true.
  simpl. rewrite orb_false_r.
  destruct (object_name_ t =? 0); simpl;
    [eexists _, g; repeat split; try assumption; simpl; rewrite app_nil_r; reflexivity|].
  destruct (levelData l) as [d|]; simpl;
    [|eexists _, g; repeat split; try assumption; simpl; rewrite app_nil_r; reflexivity].
  destruct (layers_ t <=? layer); simpl;
    [eexists _, g; repeat split; try assumption; simpl; rewrite app_nil_r; reflexivity|].
  destruct (levels_ t <=? level); simpl;
    [eexists _, g; repeat split; try assumption; simpl; rewrite app_nil_r; reflexivity|].
  rewrite Hlost. simpl.
  destruct (GetLevelWidth t level <? s32 (levelWidth l)); simpl;
    [eexists _, g; repeat split; try assumption; simpl; rewrite app_nil_r; reflexivity|].
  destruct (GetLevelHeight t level <? s32 (levelHeight l)); simpl;
    [eexists _, g; repeat split; try assumption; simpl; rewrite app_nil_r; reflexivity|].
  destruct (levelWidth l <=? 0); simpl;
    [eexists _, g; repeat split; try assumption; simpl; rewrite app_nil_r; reflexivity|].
  destruct (levelHeight l <=? 0); simpl;
    [eexists _, g; repeat split; try assumption; simpl; rewrite app_nil_r; reflexivity|].
  destruct (IsCompressed t); simpl;
    destruct ((levelWidth l =? GetLevelWidth t level)
              && (levelHeight l =? GetLevelHeight t level) && (layer =? 0)); simpl;
    (eexists _, _; split; [reflexivity|]); simpl;
    (split; [reflexivity|]); (split; [reflexivity|]); (split; [reflexivity|]);
    (split; [reflexivity|]); simpl; rewrite <- ?app_assoc; auto.
Qed.

Lemma uploadEach_live layer ls : forall level w g,
  graphics_ w = Some g -> deviceLost_ g = false ->
  exists g',
    this (uploadEach layer level ls w) = this w
    /\ renderer_ (uploadEach layer level ls w) = renderer_ w
    /\ cache_ (uploadEach layer level ls w) = cache_ w
    /\ graphics_ (uploadEach layer level ls w) = Some g'
    /\ deviceLost_ g' = false /\ nextName_ g' = nextName_ g
    /\ commands_ g' = commands_ g ++ issuedFor (this w) layer level ls.
Proof.
  induction ls as [|l rest IH]; intros level w g Hg Hlost.
  - exists g. cbn [uploadEach issuedFor]. rewrite app_nil_r.
    repeat split; first [assumption | reflexivity].
  - destruct (SetData_level_live layer level l w g Hg Hlost)
      as (w1 & g1 & Hrun & Ht & Hr & Hc & Hg1 & Hl1 & Hn1 & Hc1).
    cbn [uploadEach issuedFor]. rewrite Hrun.
    change (worldAfter (Done ?ok w1) w) with w1.
    destruct (IH (level + 1) w1 g1 Hg1 Hl1) as (g2 & Ht2 & Hr2 & Hc2 & Hg2 & Hl2 & Hn2 & Hcm).
    exists g2. rewrite Ht2, Hr2, Hc2, Hg2, Hcm, Hc1, Ht, Hr, Hc, Hn2, Hn1.
    rewrite <- app_assoc. repeat split; first [assumption | reflexivity].
Qed.



Lemma uploadEach_frame layer ls : forall level w,
  (this (uploadEach layer level ls w) = this w
   \/ this (uploadEach layer level ls w) = set_dataPending_ true (this w))
  /\ renderer_ (uploadEach layer level ls w) = renderer_ w
  /\ cache_ (uploadEach layer level ls w) = cache_ w.
Proof.
  induction ls as [|l rest IH]; intros level w.
  - cbn [uploadEach]. auto.
  - destruct (SetData_total layer level 0 0 (levelWidth l) (levelHeight l) (levelData l) w)
      as (ok & w1 & Hrun & Ht & Hr & Hc).
    cbn [uploadEach]. rewrite Hrun.
    change (worldAfter (Done ok w1) w) with w1.
    destruct (IH (level + 1) w1) as (Ht2 & Hr2 & Hc2).
    rewrite Hr2, Hc2, Hr, Hc. repeat split.
    destruct Ht2 as [-> | ->], Ht as [-> | ->]; auto.
Qed.

(** *** The image form, level by level *)

Lemma record_after_uploads layer ls w0 w :
  (this w = this w0 \/ this w = set_dataPending_ true (this w0)) ->
  0 <= layer < layers_ (this w0) ->
  length (PODVector.buffer_ (layerMemoryUse_ (this w0))) = Z.to_nat (layers_ (this w0)) ->
  (let* _ := recordMemoryUse layer (countBytes 0 ls) in ret true) w
  = Done true (recorded layer (countBytes 0 ls) w).
Proof.
  intros Hthis Hlayer Hlen. unfold bind.
  rewrite recordMemoryUse_sum; [reflexivity | |];
    destruct Hthis as [-> | ->]; assumption.
Qed.


Lemma SetSize_valid layers width height format usage w :
  0 < width -> 0 < height -> usage <> TEXTURE_DEPTHSTENCIL ->
  exists ok w', SetSize layers width height format usage w = Done ok w'
    /\ sameButHandle (sizedObject layers width height format usage (this w)) (this w')
    /\ renderer_ w' = renderer_ w /\ cache_ w' = cache_ w.
Proof.
  intros Hw Hh Hu. rewrite SetSize_accepted by assumption.
  destruct (Create_total
              (set_this (sizedObject layers width height format usage (this w)) w))
    as (ok & w' & Hrun & Hsame & Hr & Hc).
  exists ok, w'. rewrite this_set_this in Hsame. auto.
Qed.

(** The image form for layer 0: the array is sized to the negotiated
    size, each level goes to the per-region [SetData], then the bytes are
    recorded. *)
Lemma SetData_image_layer0_exact image useAlpha w g requested lw lh format :
  graphics_ w = Some g -> 0 < layers_ (this w) ->
  requestedSkip w = Some requested ->
  negotiated w image useAlpha = Some (lw, lh, format) -> 0 < lw -> 0 < lh ->
  levels_ (this (sizedFor w requested image lw lh format)) <= 2 ^ 32 ->
  SetData_image 0 (Some image) useAlpha w
  = Done true
      (recorded 0
         (countBytes 0
            (imageLevels (levels_ (this (sizedFor w requested image lw lh format)))
               requested image useAlpha))
         (uploadEach 0 0
            (imageLevels (levels_ (this (sizedFor w requested image lw lh format)))
               requested image useAlpha)
            (sizedFor w requested image lw lh format))).
Proof.
  intros Hg Hlayers Hskip Hneg Hlw Hlh.
  assert (H0 : (layers_ (this w) =? 0) = false) by (apply Z.eqb_neq; lia).
  assert (H1 : (layers_ (this w) <=? 0) = false) by (apply Z.leb_gt; lia).
  unfold sizedFor.
  destruct (SetSize_valid 0 lw lh format TEXTURE_STATIC (preparedWorld w requested image))
    as (ok & w1 & Hrun & Hsame & _); try assumption; try discriminate.
  rewrite Hrun. change (worldAfter (Done ok w1) ?w0) with w1. intros Hrange.
  assert (Hdone : forall ls,
    (let* _ := recordMemoryUse 0 (countBytes 0 ls) in ret true) (uploadEach 0 0 ls w1)
    = Done true (recorded 0 (countBytes 0 ls) (uploadEach 0 0 ls w1))).
  { intros ls. apply sameButHandle_fields in Hsame.
    destruct Hsame as (_ & _ & _ & Sl & Sm & _).
    destruct (sizedObject_fields 0 lw lh format TEXTURE_STATIC
                (this (preparedWorld w requested image)))
      as (_ & _ & _ & Fl & Fb & _).
    change (0 =? 0) with true in Fl, Fb. cbv iota in Fl, Fb.
    assert (Hl0 : layers_ (this (preparedWorld w requested image)) = layers_ (this w))
      by reflexivity.
    apply (record_after_uploads 0 ls w1); [apply uploadEach_frame | |].
    - rewrite Sl, Fl, Hl0. lia.
    - rewrite Sm, Sl, Fb, Fl, length_replicate. reflexivity. }
  revert Hrun Hrange Hdone. unfold preparedWorld, requestedFor, imageLevels.
  unfold SetData_image. mrun. rewrite H0, H1.
  unfold negotiated in Hneg. unfold requestedSkip in Hskip. rewrite Hskip in Hneg.
  destruct (Image.IsCompressed image); simpl in *.
  - rewrite Hg in Hneg.
    destruct (31 <=? clampToLevels requested (Image.GetNumCompressedLevels image))
      eqn:Hshift; [discriminate|].
    inversion Hneg; subst lw lh format; clear Hneg.
    intros Hrun Hrange Hdone.
    unfold SetData_compressed, mipsToSkipAt, SetNumLevels. mrun.
    rewrite Hg, Hskip, Hshift. simpl.
    unfold set_this in Hrun. simpl in Hrun. rewrite Hrun. simpl.
    rewrite uploadCompressedLevels_exact. apply Hdone.
  - destruct (convertUnsuitable image useAlpha) as [converted|] eqn:Hconv; [|discriminate].
    destruct (formatFor (Image.GetComponents converted) useAlpha) as [f|] eqn:Hfmt;
      [|discriminate].
    inversion Hneg; subst lw lh format; clear Hneg.
    intros Hrun Hrange Hdone.
    unfold SetData_uncompressed, mipsToSkipAt, formatOfComponents. mrun.
    rewrite Hconv, Hskip, Hfmt. simpl.
    destruct (IsCompressed (this w) && (1 <? requestedLevels_ (this w))); simpl;
      match goal with
      | |- context [SetSize 0 ?a ?b ?c TEXTURE_STATIC ?w0] =>
          assert (Hrun' : SetSize 0 a b c TEXTURE_STATIC w0 = Done ok w1) by exact Hrun;
          rewrite Hrun'
      end; simpl;
      rewrite uploadMipChain_exact by assumption; apply Hdone.
Qed.


(** *** Layer 0 on a live device *)

Lemma sizedFor_live w g requested image lw lh format :
  graphics_ w = Some g -> deviceLost_ g = false -> 0 < layers_ (this w) ->
  0 < lw -> 0 < lh ->
  exists g1,
    graphics_ (sizedFor w requested image lw lh format) = Some g1
    /\ deviceLost_ g1 = false
    /\ sameButHandle
         (sizedObject 0 lw lh format TEXTURE_STATIC
            (set_requestedLevels_ (requestedFor (this w) requested image) (this w)))
         (this (sizedFor w requested image lw lh format))
    /\ object_name_ (this (sizedFor w requested image lw lh format)) = Z.pos (nextName_ g)
    /\ levels_ (this (sizedFor w requested image lw lh format))
       = levelsFor (this w) requested image lw lh.
Proof.
  intros Hg Hlost Hlayers Hlw Hlh. unfold sizedFor.
  rewrite SetSize_accepted by (first [assumption | discriminate]).
  set (t0 := set_requestedLevels_ (requestedFor (this w) requested image) (this w)).
  assert (Ht0 : this (preparedWorld w requested image) = t0) by reflexivity.
  rewrite Ht0.
  destruct (sizedObject_fields 0 lw lh format TEXTURE_STATIC t0)
    as (Fw & Fh & Ff & Fl & _).
  change (0 =? 0) with true in Fl. cbv iota in Fl.
  destruct (Create_live_full
              (set_this (sizedObject 0 lw lh format TEXTURE_STATIC t0)
                 (preparedWorld w requested image)) g)
    as (w1 & g1 & Hrun & Hthis & Hg1 & Hl1 & _);
    rewrite ?this_set_this; try assumption;
    try (rewrite ?Fw, ?Fh, ?Fl; subst t0; simpl; lia).
  rewrite this_set_this in Hrun, Hthis. rewrite Hrun.
  change (worldAfter (Done ?ok w1) ?w0) with w1.
  destruct (createdObject_fields (sizedObject 0 lw lh format TEXTURE_STATIC t0) g)
    as (S1 & S2 & N1 & N2 & L1 & L2).
  assert (Hlev : createdLevels (sizedObject 0 lw lh format TEXTURE_STATIC t0)
                 = levelsFor (this w) requested image lw lh).
  { unfold createdLevels, levelsFor. rewrite Fw, Fh.
    assert (Hr : requestedLevels_ (sizedObject 0 lw lh format TEXTURE_STATIC t0)
                 = requestedFor (this w) requested image) by reflexivity.
    rewrite Hr. reflexivity. }
  exists g1. destruct Hthis as [-> | ->];
    (split; [assumption|]); (split; [assumption|]); (split; [assumption|]);
    (split; [assumption|]); rewrite <- Hlev; assumption.
Qed.

Lemma levelsFor_range t requested image width height :
  requestedLevels_ t <= 2 ^ 32 -> levelsFor t requested image width height <= 2 ^ 32.
Proof.
  intros Hr. unfold levelsFor.
  destruct (requestedFor t requested image =? 0).
  - rewrite countLevels_log2.
    + assert (Hu : 0 <= u32 (Z.max width height) < 2 ^ 32)
        by (unfold u32; apply Z.mod_pos_bound; lia).
      destruct (u32 (Z.max width height) =? 0) eqn:Hz; [lia|].
      apply Z.eqb_neq in Hz.
      assert (Z.log2 (u32 (Z.max width height)) < 32)
        by (apply Z.log2_lt_pow2; lia).
      lia.
    + change (2 ^ Z.of_nat 32) with (2 ^ 32). unfold u32. apply Z.mod_pos_bound. lia.
    + lia.
    + simpl. lia.
  - unfold requestedFor.
    destruct (negb (Image.IsCompressed image)).
    + destruct (IsCompressed t && (1 <? requestedLevels_ t)); lia.
    + match goal with
      | |- Z.max (u32 ?x) 1 <= _ =>
          assert (0 <= u32 x < 2 ^ 32) by (unfold u32; apply Z.mod_pos_bound; lia)
      end.
      lia.
Qed.

(** X14.  On a live device the image form of [SetData] for layer 0, given
    an image that negotiates to a positive size, returns true whatever the
    driver answers to the allocation.  The array takes the negotiated
    width, height and format, keeps its layer count, becomes a static
    texture and gets the handle the driver generates next; its level
    count is the requested one, or the full chain of the larger side when
    none is requested.  After the array is sized, every one of those
    levels is handed to the per-region [SetData] for layer 0, and the
    commands issued after the sizing are exactly those of the levels that
    pass the per-region checks, in order.  Every layer's memory counter is
    reset: only layer 0 counts, namely the bytes of all the levels handed
    over, and the memory use of the resource is the size of the object
    plus four bytes per counter of capacity plus those bytes, modulo
    2^32. *)
Theorem layer0_upload image useAlpha w g requested lw lh format :
  graphics_ w = Some g -> deviceLost_ g = false -> 0 < layers_ (this w) ->
  requestedLevels_ (this w) <= 2 ^ 32 ->
  requestedSkip w = Some requested ->
  negotiated w image useAlpha = Some (lw, lh, format) -> 0 < lw -> 0 < lh ->
  let sized := sizedFor w requested image lw lh format in
  let levels := imageLevels (levelsFor (this w) requested image lw lh) requested image
                  useAlpha in
  exists w' g1 g',
    SetData_image 0 (Some image) useAlpha w = Done true w'
    /\ object_name_ (this w') = Z.pos (nextName_ g)
    /\ width_ (this w') = lw /\ height_ (this w') = lh /\ format_ (this w') = format
    /\ layers_ (this w') = layers_ (this w)
    /\ usage_ (this w') = TEXTURE_STATIC
    /\ levels_ (this w') = levelsFor (this w) requested image lw lh
    /\ PODVector.buffer_ (layerMemoryUse_ (this w'))
       = <[0%nat := countBytes 0 levels]> (replicate (Z.to_nat (layers_ (this w))) 0)
    /\ memoryUse_ (this w')
       = u32 (sizeof_Texture2DArray
              + PODVector.capacity_ (layerMemoryUse_ (this w')) * 4
              + countBytes 0 levels)
    /\ graphics_ sized = Some g1 /\ graphics_ w' = Some g'
    /\ commands_ g' = commands_ g1 ++ issuedFor (this sized) 0 0 levels.
Proof.
  intros Hg Hlost Hlayers Hreq Hskip Hneg Hlw Hlh sized levels.
  destruct (sizedFor_live w g requested image lw lh format Hg Hlost Hlayers Hlw Hlh)
    as (g1 & Hg1 & Hl1 & Hsame & Hname & Hlev).
  fold sized in Hg1, Hsame, Hname, Hlev.
  destruct (uploadEach_live 0 levels 0 sized g1 Hg1 Hl1)
    as (g' & Ht & _ & _ & Hg' & _ & _ & Hc').
  pose proof (SetData_image_layer0_exact image useAlpha w g requested lw lh format
                Hg Hlayers Hskip Hneg Hlw Hlh) as Hrun.
  fold sized in Hrun. rewrite Hlev in Hrun. fold levels in Hrun.
  specialize (Hrun (levelsFor_range _ _ _ _ _ Hreq)).
  eexists _, g1, g'. split; [exact Hrun|].
  apply sameButHandle_fields in Hsame.
  destruct Hsame as (Sw & Sh & Sf & Sl & Sm & Su & _).
  destruct (sizedObject_fields 0 lw lh format TEXTURE_STATIC
              (set_requestedLevels_ (requestedFor (this w) requested image) (this w)))
    as (Fw & Fh & Ff & Fl & Fb & _).
  pose proof (sizedObject_usage 0 lw lh format TEXTURE_STATIC
                (set_requestedLevels_ (requestedFor (this w) requested image) (this w)))
    as Fu.
  change (0 =? 0) with true in Fl, Fb. cbv iota in Fl, Fb.
  assert (Hl0 : layers_ (set_requestedLevels_ (requestedFor (this w) requested image)
                           (this w)) = layers_ (this w)) by reflexivity.
  assert (Hb1 : PODVector.buffer_ (layerMemoryUse_ (this sized))
                = replicate (Z.to_nat (layers_ (this w))) 0)
    by (rewrite Sm, Fb, Hl0; reflexivity).
  unfold recorded. rewrite this_set_this, Ht. simpl.
  rewrite Hb1. change (Z.to_nat 0) with 0%nat.
  rewrite total_first by lia.
  rewrite Hname, Sw, Sh, Sf, Sl, Su, Fw, Fh, Ff, Fl, Fu, Hl0, Hlev.
  repeat split; first [reflexivity | assumption].
Qed.

(** *** The size layer 0 gives the array *)

Lemma uploadMipChain_total layer components image w :
  exists memoryUse w', uploadMipChain layer components image w = Done memoryUse w'
    /\ (this w' = this w \/ this w' = set_dataPending_ true (this w)).
Proof.
  unfold uploadMipChain. unfold bind at 1, self. unfold bind at 1.
  match goal with
  | |- context [forAccum ?n 0 ?s0 ?body w] =>
      assert (Hbody : forall i (s : Image.t * Z) w1,
                (this w1 = this w \/ this w1 = set_dataPending_ true (this w)) ->
                exists s' w', body i s w1 = Done s' w'
                  /\ (this w' = this w \/ this w' = set_dataPending_ true (this w)));
      [| destruct (forAccum_invariant
                     (fun _ w' => this w' = this w
                                  \/ this w' = set_dataPending_ true (this w))
                     body Hbody n 0 s0 w (or_introl eq_refl))
           as (s' & w' & Hrun & Hinv);
         rewrite Hrun; exists (snd s'), w'; split; [reflexivity | assumption] ]
  end.
  intros i [im mem] w1 Hinv. unfold bind at 1.
  match goal with
  | |- context [SetData ?a ?b ?c ?d ?e ?f ?g w1] =>
      destruct (SetData_total a b c d e f g w1) as (ok & w2 & Hrun & Ht2 & _)
  end.
  rewrite Hrun. mrun. eexists _, _. split; [reflexivity|]. simpl.
  destruct Hinv as [H1 | H1], Ht2 as [H2 | H2]; rewrite H2, H1; auto.
Qed.

(** Whatever the device does, the image form for layer 0 returns true
    and leaves the array with the negotiated size and format. *)
Lemma SetData_image_layer0_size image useAlpha w requested lw lh format :
  0 < layers_ (this w) -> requestedSkip w = Some requested ->
  negotiated w image useAlpha = Some (lw, lh, format) -> 0 < lw -> 0 < lh ->
  exists w', SetData_image 0 (Some image) useAlpha w = Done true w'
    /\ width_ (this w') = lw /\ height_ (this w') = lh /\ format_ (this w') = format
    /\ requestedLevels_ (this w') = requestedFor (this w) requested image.
Proof.
  intros Hlayers Hskip Hneg Hlw Hlh.
  assert (H0 : (layers_ (this w) =? 0) = false) by (apply Z.eqb_neq; lia).
  assert (H1 : (layers_ (this w) <=? 0) = false) by (apply Z.leb_gt; lia).
  destruct (SetSize_valid 0 lw lh format TEXTURE_STATIC (preparedWorld w requested image))
    as (ok & w1 & Hrun & Hsame & _); try assumption; try discriminate.
  assert (Hdone : forall m w2,
    (this w2 = this w1 \/ this w2 = set_dataPending_ true (this w1)) ->
    exists w', (let* _ := recordMemoryUse 0 m in ret true) w2 = Done true w'
      /\ width_ (this w') = lw /\ height_ (this w') = lh /\ format_ (this w') = format
      /\ requestedLevels_ (this w') = requestedFor (this w) requested image).
  { intros m w2 Ht2. apply sameButHandle_fields in Hsame.
    destruct Hsame as (Sw & Sh & Sf & Sl & Sm & _ & _ & Sr).
    destruct (sizedObject_fields 0 lw lh format TEXTURE_STATIC
                (this (preparedWorld w requested image)))
      as (Fw & Fh & Ff & Fl & Fb & _).
    change (0 =? 0) with true in Fl, Fb. cbv iota in Fl, Fb.
    assert (Hl0 : layers_ (this (preparedWorld w requested image)) = layers_ (this w))
      by reflexivity.
    assert (Hr0 : requestedLevels_ (sizedObject 0 lw lh format TEXTURE_STATIC
                                      (this (preparedWorld w requested image)))
                  = requestedFor (this w) requested image) by reflexivity.
    unfold bind. rewrite recordMemoryUse_sum.
    - eexists. split; [reflexivity|]. rewrite this_set_this. simpl.
      destruct Ht2 as [-> | ->]; simpl; rewrite Sw, Sh, Sf, Sr, Fw, Fh, Ff, Hr0; auto.
    - destruct Ht2 as [-> | ->]; simpl; rewrite Sl, Fl, Hl0; lia.
    - destruct Ht2 as [-> | ->]; simpl; rewrite Sm, Sl, Fb, Fl, length_replicate;
        reflexivity. }
  revert Hrun Hdone. unfold preparedWorld, requestedFor.
  unfold SetData_image. mrun. rewrite H0, H1.
  unfold negotiated in Hneg. unfold requestedSkip in Hskip. rewrite Hskip in Hneg.
  destruct (Image.IsCompressed image); simpl in *.
  - remember (graphics_ w) as gr eqn:Hg in Hneg.
    destruct gr as [g|]; [|discriminate]. symmetry in Hg.
    destruct (31 <=? clampToLevels requested (Image.GetNumCompressedLevels image))
      eqn:Hshift; [discriminate|].
    inversion Hneg; subst lw lh format; clear Hneg.
    intros Hrun Hdone.
    unfold SetData_compressed, mipsToSkipAt, SetNumLevels. mrun.
    rewrite Hg, Hskip, Hshift. simpl.
    match goal with
    | |- context [SetSize 0 ?a ?b ?c TEXTURE_STATIC ?w0] =>
        assert (Hrun' : SetSize 0 a b c TEXTURE_STATIC w0 = Done ok w1) by exact Hrun;
        rewrite Hrun'
    end. simpl.
    rewrite uploadCompressedLevels_exact. apply Hdone. apply uploadEach_frame.
  - destruct (convertUnsuitable image useAlpha) as [converted|] eqn:Hconv; [|discriminate].
    destruct (formatFor (Image.GetComponents converted) useAlpha) as [f|] eqn:Hfmt;
      [|discriminate].
    inversion Hneg; subst lw lh format; clear Hneg.
    intros Hrun Hdone.
    unfold SetData_uncompressed, mipsToSkipAt, formatOfComponents. mrun.
    rewrite Hconv, Hskip, Hfmt. simpl.
    destruct (IsCompressed (this w) && (1 <? requestedLevels_ (this w))); simpl;
      match goal with
      | |- context [SetSize 0 ?a ?b ?c TEXTURE_STATIC ?w0] =>
          assert (Hrun' : SetSize 0 a b c TEXTURE_STATIC w0 = Done ok w1) by exact Hrun;
          rewrite Hrun'
      end; simpl;
      match goal with
      | |- context [uploadMipChain ?a ?b ?c w1] =>
          destruct (uploadMipChain_total a b c w1) as (m & w2 & Hup & Ht2);
          rewrite Hup; simpl; apply Hdone; assumption
      end.
Qed.

Lemma clamp_facts requested levels width height :
  1 <= levels < 2 ^ 32 -> 0 <= requested < 2 ^ 32 ->
  Z.min requested (levels - 1) < 31 ->
  let skip := clampMipsToSkip requested levels width height in
  0 <= skip <= requested
  /\ skip <= levels - 1
  /\ (skip = 0 \/ (4 <= width ÷ 2 ^ skip /\ 4 <= height ÷ 2 ^ skip))
  /\ (forall k, skip < k <= Z.min requested (levels - 1) ->
                width ÷ 2 ^ k < 4 \/ height ÷ 2 ^ k < 4)
  /\ clampMipsToSkip 3 levels 8 8 = (if levels =? 1 then 0 else 1).
Proof.
  intros Hlevels Hreq Hshift skip.
  assert (Hclamp : clampToLevels requested levels = Z.min requested (levels - 1)).
  { unfold clampToLevels. destruct (levels <=? requested) eqn:Hc.
    - apply Z.leb_le in Hc. unfold u32. rewrite Z.mod_small by lia. lia.
    - apply Z.leb_gt in Hc. lia. }
  subst skip. unfold clampMipsToSkip. rewrite Hclamp.
  destruct (decrementWhileSmall_spec (Z.to_nat (Z.min requested (levels - 1)))
              width height (Z.min requested (levels - 1)))
    as (Hr & Hstop & Habove); try lia.
  split; [lia | split; [lia | split; [| split]]].
  - destruct Hstop as [H0 | Hbig]; [left; assumption | right].
    unfold tooSmall in Hbig. apply orb_false_iff in Hbig.
    destruct Hbig as [Hw Hh]. apply Z.ltb_ge in Hw, Hh. auto.
  - intros k Hk. specialize (Habove k Hk). unfold tooSmall in Habove.
    apply orb_true_iff in Habove. destruct Habove as [H | H]; apply Z.ltb_lt in H; auto.
  - unfold clampToLevels.
    destruct (Z.eq_dec levels 1) as [-> | H1]; [reflexivity|].
    destruct (Z.eq_dec levels 2) as [-> | H2]; [reflexivity|].
    destruct (Z.eq_dec levels 3) as [-> | H3]; [reflexivity|].
    assert (Hc : (levels <=? 3) = false) by (apply Z.leb_gt; lia).
    assert (H1' : (levels =? 1) = false) by (apply Z.eqb_neq; lia).
    rewrite Hc, H1'. reflexivity.
Qed.

(** C4, amended.  On the compressed path, for an image with at least one
    level, the skip count taken from the quality table is lowered to at
    most the level count minus one and then decremented while the first
    surviving level is below 4 texels in width or height.  The result is
    0, or leaves a first surviving level of at least 4x4; it is the
    largest such count not above the first clamp.  For an 8x8 image and
    a requested skip of 3 the result is 1 when the image has two levels or
    more, and 0 when it has one.  That count is the one the image form
    uses: loaded as layer 0, a compressed image gives the array its size
    divided by two to the clamped count, and as many requested levels as
    survive.  An uncompressed image is not clamped at all: loaded as
    layer 0 it gives the array the size of the level reached by taking
    the next level exactly as many times as the table says. *)
Theorem mip_skip_clamp :
  (forall requested levels width height,
     1 <= levels < 2 ^ 32 -> 0 <= requested < 2 ^ 32 ->
     Z.min requested (levels - 1) < 31 ->
     let skip := clampMipsToSkip requested levels width height in
     0 <= skip <= requested
     /\ skip <= levels - 1
     /\ (skip = 0 \/ (4 <= width ÷ 2 ^ skip /\ 4 <= height ÷ 2 ^ skip))
     /\ (forall k, skip < k <= Z.min requested (levels - 1) ->
                   width ÷ 2 ^ k < 4 \/ height ÷ 2 ^ k < 4)
     /\ clampMipsToSkip 3 levels 8 8 = (if levels =? 1 then 0 else 1))
  /\ (forall w g image useAlpha requested,
        graphics_ w = Some g -> 0 < layers_ (this w) ->
        requestedSkip w = Some requested ->
        Image.IsCompressed image = true ->
        1 <= Image.GetNumCompressedLevels image < 2 ^ 32 -> 0 <= requested < 2 ^ 32 ->
        Z.min requested (Image.GetNumCompressedLevels image - 1) < 31 ->
        let skip := clampMipsToSkip requested (Image.GetNumCompressedLevels image)
                      (Image.GetWidth image) (Image.GetHeight image) in
        0 < Image.GetWidth image ÷ 2 ^ skip -> 0 < Image.GetHeight image ÷ 2 ^ skip ->
        exists w', SetData_image 0 (Some image) useAlpha w = Done true w'
          /\ width_ (this w') = Image.GetWidth image ÷ 2 ^ skip
          /\ height_ (this w') = Image.GetHeight image ÷ 2 ^ skip
          /\ requestedLevels_ (this w') = Image.GetNumCompressedLevels image - skip)
  /\ (forall w image useAlpha requested converted format,
        0 < layers_ (this w) -> requestedSkip w = Some requested ->
        Image.IsCompressed image = false ->
        convertUnsuitable image useAlpha = Some converted ->
        formatFor (Image.GetComponents converted) useAlpha = Some format ->
        let top := Nat.iter (Z.to_nat requested) GetNextLevel converted in
        0 < Image.GetWidth top -> 0 < Image.GetHeight top ->
        exists w', SetData_image 0 (Some image) useAlpha w = Done true w'
          /\ width_ (this w') = Image.GetWidth top
          /\ height_ (this w') = Image.GetHeight top).
Proof.
  split; [exact clamp_facts | split].
  - intros w g image useAlpha requested Hg Hlayers Hskip Hcomp Hlevels Hreq Hshift skip
      Hw Hh.
    destruct (clamp_facts requested (Image.GetNumCompressedLevels image)
                (Image.GetWidth image) (Image.GetHeight image) Hlevels Hreq Hshift)
      as (Hs1 & Hs2 & _).
    fold skip in Hs1, Hs2.
    assert (Hclamp : clampToLevels requested (Image.GetNumCompressedLevels image)
                     = Z.min requested (Image.GetNumCompressedLevels image - 1)).
    { unfold clampToLevels.
      destruct (Image.GetNumCompressedLevels image <=? requested) eqn:Hc.
      - apply Z.leb_le in Hc. unfold u32. rewrite Z.mod_small by lia. lia.
      - apply Z.leb_gt in Hc. lia. }
    assert (Hpow : shl1 skip = 2 ^ skip) by (apply shl1_pow2; lia).
    destruct (SetData_image_layer0_size image useAlpha w requested
                (Image.GetWidth image ÷ 2 ^ skip) (Image.GetHeight image ÷ 2 ^ skip)
                (if GetFormat (Image.GetCompressedFormat image) =? 0
                 then GetRGBAFormat else GetFormat (Image.GetCompressedFormat image)))
      as (w' & Hrun & Fw & Fh & _ & Fr); try assumption.
    { unfold negotiated. unfold requestedSkip in Hskip. rewrite Hskip, Hcomp, Hg.
      cbn [negb]. rewrite Hclamp.
      assert (Hs : (31 <=? Z.min requested (Image.GetNumCompressedLevels image - 1))
                   = false) by (apply Z.leb_gt; lia).
      rewrite Hs. fold skip. rewrite Hpow. reflexivity. }
    exists w'. repeat split; try assumption.
    rewrite Fr. unfold requestedFor. rewrite Hcomp. cbn [negb]. fold skip.
    unfold u32. rewrite Z.mod_small by lia. lia.
  - intros w image useAlpha requested converted format Hlayers Hskip Hcomp Hconv Hfmt
      top Hw Hh.
    destruct (SetData_image_layer0_size image useAlpha w requested
                (Image.GetWidth top) (Image.GetHeight top) format)
      as (w' & Hrun & Fw & Fh & _); try assumption.
    { unfold negotiated. unfold requestedSkip in Hskip.
      rewrite Hskip, Hcomp. cbn [negb]. rewrite Hconv, Hfmt. reflexivity. }
    exists w'. auto.
Qed.

(** *** While the device is lost *)






End Properties.

(** ** The claims at concrete inputs *)

(** C1 as stated fails.  On a live device, with static usage and two
    layers, a 32768x4 size is beyond what the driver allocates: [Create]
    sees the error and [SetSize] returns false.  And with [layers] = 0 on an
    array that has two layers, [SetSize] succeeds and the layer count stays
    2, not 0. *)
Lemma SetSize_success_counterexample :
  (graphics_ freshWorld = Some freshGraphics /\ deviceLost_ freshGraphics = false
   /\ resultOf (SetSize (E := limited) 2 32768 4 GL_RGBA TEXTURE_STATIC freshWorld)
      = Some false)
  /\ (resultOf (SetSize (E := plain) 0 8 8 GL_RGBA TEXTURE_STATIC (sizedWorld plain ""))
      = Some true
      /\ layers_ (this (worldAfter
                         (SetSize (E := plain) 0 8 8 GL_RGBA TEXTURE_STATIC
                            (sizedWorld plain ""))
                         (sizedWorld plain ""))) = 2).
Proof. vm_compute. repeat split; reflexivity. Qed.

(** C1, amended, at: two layers of 4x4 RGBA, static usage, a fresh object
    on a live device, a driver without errors. *)
Lemma SetSize_succeeds_on_live_device_witness :
  (0 < 4 /\ TEXTURE_STATIC <> TEXTURE_DEPTHSTENCIL
   /\ graphics_ freshWorld = Some freshGraphics /\ deviceLost_ freshGraphics = false)
  /\ exists w', SetSize (E := plain) 2 4 4 GL_RGBA TEXTURE_STATIC freshWorld = Done true w'
       /\ width_ (this w') = 4 /\ height_ (this w') = 4
       /\ format_ (this w') = GL_RGBA
       /\ layers_ (this w') = (if 2 =? 0 then layers_ (this freshWorld) else 2)
       /\ object_name_ (this w') <> 0.
Proof.
  split.
  - repeat split; try reflexivity; discriminate.
  - apply (SetSize_succeeds_on_live_device (E := plain) 2 4 4 GL_RGBA TEXTURE_STATIC
             freshWorld freshGraphics);
      try reflexivity; try discriminate.
    right. reflexivity.
Defined.

(** C2 as stated fails.  A two-layer array loaded from a descriptor that
    names no layer receives a per-region [SetData] while the device is
    lost: the call returns true and raises [dataPending_].  The device
    comes back and [OnDeviceReset] reloads through the cache: the reload
    sets the layer count to zero and releases the handle, [Create] then
    refuses, and the object is left without a handle. *)
Lemma reset_without_handle_counterexample :
  let lost := setDeviceLost true (sizedWorld layerless "arr.xml") in
  let pending := worldAfter (SetData (E := layerless) 0 0 0 0 4 4 (Some (blank 64)) lost)
                   lost in
  let back := setDeviceLost false pending in
  let final := worldAfter (OnDeviceReset (E := layerless) back) back in
  object_name_ (this lost) = 1
  /\ resultOf (SetData (E := layerless) 0 0 0 0 4 4 (Some (blank 64)) lost) = Some true
  /\ dataPending_ (this pending) = true
  /\ resultOf (OnDeviceReset (E := layerless) back) = Some tt
  /\ dataPending_ (this final) = false
  /\ object_name_ (this final) = 0.
Proof. vm_compute. repeat split; reflexivity. Qed.

(** C2, amended, at: level 0 of layer 0 of a sized two-layer 4x4 array with
    no file behind it, the device lost and then restored. *)
Lemma SetData_while_lost_then_reset_witness :
  let w := setDeviceLost true (sizedWorld plain "") in
  (graphics_ w = Some (deviceOf w) /\ deviceLost_ (deviceOf w) = true
   /\ object_name_ (this w) <> 0 /\ 0 < layers_ (this w) /\ 0 < levels_ (this w))
  /\ exists w1,
       SetData (E := plain) 0 0 0 0 4 4 (Some (blank 64)) w = Done true w1
       /\ dataPending_ (this w1) = true
       /\ graphics_ w1 = graphics_ w
       /\ exists w3,
            OnDeviceReset (E := plain) (set_graphics_ (Some freshGraphics) w1) = Done tt w3
            /\ dataPending_ (this w3) = false
            /\ (object_name_ (this w3) =? 0)
               = (object_name_
                    (this (afterReloadAttempt (E := plain)
                             (set_graphics_ (Some freshGraphics) w1))) =? 0)
                 && negb (canCreate
                            (afterReloadAttempt (E := plain)
                               (set_graphics_ (Some freshGraphics) w1)))
            /\ (if Exists (Externals := plain) (name_ (this w)) then True
                else object_name_ (this w3) = object_name_ (this w)).
Proof.
  intros w. split.
  - repeat split; try reflexivity. vm_compute. discriminate.
  - apply (SetData_while_lost_then_reset (E := plain) 0 0 0 0 4 4 (blank 64) w
             (deviceOf w) freshGraphics);
      try reflexivity. vm_compute. discriminate.
Defined.



(** C4 as stated fails.  An 8x8 compressed image that stores one level,
    with a requested skip of 3, is uploaded at 8x8: the skip used is 0, not
    1.  A 2x2 compressed image is uploaded at 2x2, below 4x4.  A 4x4
    uncompressed image with a requested skip of 3 is uploaded at 1x1: that
    path does not clamp. *)
Lemma mip_skip_counterexample :
  clampMipsToSkip 3 1 8 8 = 0
  /\ (let w := worldAfter (SetData_image (E := plain) 0 (Some (dxt1Image 8 8 [(8, 8)]))
                             false (layeredWorld 1 3)) (layeredWorld 1 3) in
      (width_ (this w), height_ (this w)) = (8, 8))
  /\ (let w := worldAfter (SetData_image (E := plain) 0
                             (Some (dxt1Image 2 2 [(2, 2); (1, 1)]))
                             false (layeredWorld 1 3)) (layeredWorld 1 3) in
      (width_ (this w), height_ (this w)) = (2, 2))
  /\ (let w := worldAfter (SetData_image (E := plain) 0 (Some (solidImage 4 4 4))
                             false (layeredWorld 1 3)) (layeredWorld 1 3) in
      (width_ (this w), height_ (this w)) = (1, 1)).
Proof. vm_compute. repeat split; reflexivity. Qed.

(** C4, amended, at: an 8x8 image with four levels and a requested skip
    of 3; that image, DXT1-compressed, loaded as layer 0 of a two-layer
    array whose quality table asks for 3; an 8x8 four-channel image loaded
    as layer 0 of a two-layer array whose quality table asks for 2. *)
Lemma mip_skip_clamp_witness :
  let c := layeredWorld 2 3 in
  let image := dxt1Image 8 8 [(8, 8); (4, 4); (2, 2); (1, 1)] in
  let u := layeredWorld 2 2 in
  let skip := clampMipsToSkip 3 (Image.GetNumCompressedLevels image)
                (Image.GetWidth image) (Image.GetHeight image) in
  let top := Nat.iter (Z.to_nat 2) (GetNextLevel (Externals := plain)) (solidImage 8 8 4) in
  (1 <= 4 < 2 ^ 32 /\ 0 <= 3 < 2 ^ 32 /\ Z.min 3 (4 - 1) < 31
   /\ graphics_ c = Some freshGraphics /\ 0 < layers_ (this c)
   /\ requestedSkip c = Some 3 /\ Image.IsCompressed image = true
   /\ 1 <= Image.GetNumCompressedLevels image < 2 ^ 32
   /\ Z.min 3 (Image.GetNumCompressedLevels image - 1) < 31
   /\ 0 < Image.GetWidth image ÷ 2 ^ skip /\ 0 < Image.GetHeight image ÷ 2 ^ skip
   /\ 0 < layers_ (this u) /\ requestedSkip u = Some 2
   /\ Image.IsCompressed (solidImage 8 8 4) = false
   /\ convertUnsuitable (E := plain) (solidImage 8 8 4) false = Some (solidImage 8 8 4)
   /\ formatFor (E := plain) (Image.GetComponents (solidImage 8 8 4)) false = Some GL_RGBA
   /\ 0 < Image.GetWidth top /\ 0 < Image.GetHeight top)
  /\ (0 <= clampMipsToSkip 3 4 8 8 <= 3
      /\ clampMipsToSkip 3 4 8 8 <= 4 - 1
      /\ (clampMipsToSkip 3 4 8 8 = 0
          \/ (4 <= 8 ÷ 2 ^ clampMipsToSkip 3 4 8 8 /\ 4 <= 8 ÷ 2 ^ clampMipsToSkip 3 4 8 8))
      /\ (forall k, clampMipsToSkip 3 4 8 8 < k <= Z.min 3 (4 - 1) ->
                    8 ÷ 2 ^ k < 4 \/ 8 ÷ 2 ^ k < 4)
      /\ clampMipsToSkip 3 4 8 8 = (if 4 =? 1 then 0 else 1))
  /\ (exists w', SetData_image (E := plain) 0 (Some image) false c = Done true w'
        /\ width_ (this w') = Image.GetWidth image ÷ 2 ^ skip
        /\ height_ (this w') = Image.GetHeight image ÷ 2 ^ skip
        /\ requestedLevels_ (this w') = Image.GetNumCompressedLevels image - skip)
  /\ (exists w', SetData_image (E := plain) 0 (Some (solidImage 8 8 4)) false u = Done true w'
        /\ width_ (this w') = Image.GetWidth top
        /\ height_ (this w') = Image.GetHeight top).
Proof.
  intros c image u skip top.
  destruct (mip_skip_clamp (E := plain)) as (A & B & C).
  split; [|split; [|split]].
  - repeat split; try reflexivity; try lia;
      vm_compute; first [reflexivity | discriminate].
  - apply (A 3 4 8 8); lia.
  - apply (B c freshGraphics image false 3); try reflexivity; try lia;
      vm_compute; split; first [reflexivity | discriminate].
  - apply (C u (solidImage 8 8 4) false 2 (solidImage 8 8 4) GL_RGBA); reflexivity.
Defined.

(** C5 as stated fails.  For a 3x3 array [Create] stores 2 levels, while
    ceil(log2 3) + 1 is 3. *)
Lemma Create_level_count_counterexample :
  let w := worldOf (set_layers_ 1 (set_height_ 3 (set_width_ 3 (Texture2DArray_new ""))))
             (Some freshGraphics) in
  requestedLevels_ (this w) = 0
  /\ resultOf (Create (E := plain) w) = Some true
  /\ levels_ (this (worldAfter (Create (E := plain) w) w)) = 2
  /\ Z.log2_up (Z.max 3 3) + 1 = 3.
Proof. vm_compute. repeat split; reflexivity. Qed.

(** C5, amended, at: a 3x3 array with one layer on a live device. *)
Lemma Create_level_count_witness :
  let w := worldOf (set_layers_ 1 (set_height_ 3 (set_width_ 3 (Texture2DArray_new ""))))
             (Some freshGraphics) in
  (graphics_ w = Some freshGraphics /\ deviceLost_ freshGraphics = false
   /\ requestedLevels_ (this w) = 0 /\ layers_ (this w) <> 0
   /\ 1 <= width_ (this w) < 2 ^ 31 /\ 1 <= height_ (this w) < 2 ^ 31)
  /\ exists ok w', Create (E := plain) w = Done ok w'
       /\ levels_ (this w') = Z.log2 (Z.max (width_ (this w)) (height_ (this w))) + 1.
Proof.
  intros w. split.
  - repeat split; try reflexivity; vm_compute; discriminate.
  - apply (Create_level_count (E := plain) w freshGraphics);
      try reflexivity; try (vm_compute; discriminate);
      split; vm_compute; try reflexivity; discriminate.
Defined.

(** C6 as stated fails.  After a successful [SetSize] on a live device and
    before any upload to layer 0, the image form of [SetData] for layer 1
    with a matching 4x4 four-channel image returns true, logs nothing and
    uploads the image. *)
Lemma layer1_before_layer0_counterexample :
  let w := sizedWorld plain "" in
  let after := worldAfter (SetData_image (E := plain) 1 (Some (solidImage 4 4 4)) false w)
                 w in
  resultOf (SetSize (E := plain) 2 4 4 GL_RGBA TEXTURE_STATIC freshWorld) = Some true
  /\ resultOf (SetData_image (E := plain) 1 (Some (solidImage 4 4 4)) false w) = Some true
  /\ log_ after = []
  /\ PODVector.buffer_ (layerMemoryUse_ (this after)) = [0; 84].
Proof. vm_compute. repeat split; reflexivity. Qed.

(** C6, amended, at: a two-layer array without a handle, layer 1, a 4x4
    four-channel image. *)
Lemma later_layer_needs_layer0_witness :
  let w := worldOf (set_layers_ 2 (Texture2DArray_new "")) (Some freshGraphics) in
  (object_name_ (this w) = 0 /\ 0 < 1 < layers_ (this w)
   /\ negotiated (E := plain) w (solidImage 4 4 4) false = Some (4, 4, GL_RGBA))
  /\ SetData_image (E := plain) 1 (Some (solidImage 4 4 4)) false w
     = Done false
         (set_log_ (log_ w ++ [LOGERROR "Texture array layer 0 must be loaded first"]) w).
Proof.
  intros w. split.
  - repeat split; reflexivity.
  - apply (later_layer_needs_layer0 (E := plain) 1 (solidImage 4 4 4) false w 4 4 GL_RGBA);
      repeat split; reflexivity.
Defined.

(** C7 at: a sized two-layer 4x4 RGBA array, layer 1, an 8x8 four-channel
    image. *)
Lemma mismatched_layer_changes_nothing_witness :
  let w := sizedWorld plain "" in
  (object_name_ (this w) <> 0 /\ 0 < 1 < layers_ (this w)
   /\ negotiated (E := plain) w (solidImage 8 8 4) false = Some (8, 8, GL_RGBA)
   /\ 8 <> width_ (this w))
  /\ exists w', SetData_image (E := plain) 1 (Some (solidImage 8 8 4)) false w
                = Done false w'
       /\ this w' = this w /\ graphics_ w' = graphics_ w
       /\ renderer_ w' = renderer_ w /\ cache_ w' = cache_ w.
Proof.
  intros w. split.
  - repeat split; try reflexivity; vm_compute; discriminate.
  - apply (mismatched_layer_changes_nothing (E := plain) 1 (solidImage 8 8 4) false w
             8 8 GL_RGBA);
      [ vm_compute; discriminate | split; reflexivity | reflexivity
      | left; vm_compute; discriminate ].
Defined.

(** C8 at: a sized array asked for a width of 0. *)
Lemma SetSize_rejected_leaves_state_witness :
  0 <= 0
  /\ exists w', SetSize (E := plain) 2 0 4 GL_RGBA TEXTURE_STATIC (sizedWorld plain "")
                = Done false w'
       /\ this w' = this (sizedWorld plain "")
       /\ graphics_ w' = graphics_ (sizedWorld plain "")
       /\ renderer_ w' = renderer_ (sizedWorld plain "")
       /\ cache_ w' = cache_ (sizedWorld plain "").
Proof.
  split.
  - lia.
  - apply (SetSize_rejected_leaves_state (E := plain) 2 0 4 GL_RGBA TEXTURE_STATIC
             (sizedWorld plain "")).
    left. lia.
Defined.

(** C10 at: a sized two-layer array resized to 8x8 with [layers] = 0. *)
Lemma SetSize_layer_count_and_counters_witness :
  (0 < 8 /\ TEXTURE_STATIC <> TEXTURE_DEPTHSTENCIL)
  /\ exists ok w',
       SetSize (E := plain) 0 8 8 GL_RGBA TEXTURE_STATIC (sizedWorld plain "") = Done ok w'
       /\ layers_ (this w') = (if 0 =? 0 then layers_ (this (sizedWorld plain "")) else 0)
       /\ PODVector.buffer_ (layerMemoryUse_ (this w'))
          = replicate (Z.to_nat (layers_ (this w'))) 0.
Proof.
  split.
  - split; [lia | discriminate].
  - apply (SetSize_layer_count_and_counters (E := plain) 0 8 8 GL_RGBA TEXTURE_STATIC
             (sizedWorld plain "")); [lia | lia | discriminate].
Defined.

(** ** Further properties at concrete inputs *)

(** X1 at: a sized array bound to texture unit 3. *)
Lemma Release_unbinds_and_deletes_witness :
  let w := boundWorld in
  let g := deviceOf boundWorld in
  (graphics_ w = Some g /\ deviceLost_ g = false /\ object_name_ (this w) <> 0)
  /\ exists g',
       Release (E := plain) w
       = Done tt (set_this (releasedObject (this w)) (set_graphics_ (Some g') w))
       /\ (forall i, 0 <= i ->
             Graphics_GetTexture g' i
             = if (i <? MAX_TEXTURE_UNITS (Externals := plain))
                  && isThisTexture (Graphics_GetTexture g i)
               then None else Graphics_GetTexture g i)
       /\ last (commands_ g') = Some (glDeleteTextures (object_name_ (this w))).
Proof.
  intros w g. split.
  - repeat split; try reflexivity. vm_compute. discriminate.
  - apply (Release_unbinds_and_deletes (E := plain) w g); try reflexivity.
    vm_compute. discriminate.
Defined.

(** X5 at: an 8x8 DXT1 array and a 4x4 block written at (5, 6). *)
Lemma SetData_compressed_alignment_witness :
  IsCompressed (E := plain) (this compressedWorld) = true
  /\ SetData (E := plain) 0 0 5 6 4 4 (Some (blank 8)) compressedWorld
     = SetData (E := plain) 0 0 (4 * (5 / 4)) (4 * (6 / 4)) 4 4 (Some (blank 8))
         compressedWorld.
Proof.
  split.
  - reflexivity.
  - apply (SetData_compressed_alignment (E := plain) 0 0 5 6 4 4 (Some (blank 8))
             compressedWorld).
    reflexivity.
Defined.

(** X6 at: a 32768x4 RGBA array on a driver that allocates at most 16384
    texels in a direction. *)
Lemma SetSize_driver_error_witness :
  (0 < 32768 /\ 0 < 4 /\ TEXTURE_STATIC <> TEXTURE_DEPTHSTENCIL
   /\ graphics_ freshWorld = Some freshGraphics /\ deviceLost_ freshGraphics = false
   /\ (if 2 =? 0 then layers_ (this freshWorld) else 2) <> 0
   /\ IsCompressedFormat (Externals := limited) GL_RGBA = false
   /\ glError (Externals := limited)
        (glTexImage3D (target_ (this freshWorld)) 0
           (if sRGB_ (this freshWorld) then GetSRGBFormat (Externals := limited) GL_RGBA
            else GL_RGBA)
           32768 4 (if 2 =? 0 then layers_ (this freshWorld) else 2) 0
           (GetExternalFormat (Externals := limited) GL_RGBA)
           (GetDataType (Externals := limited) GL_RGBA) None) <> 0)
  /\ exists w', SetSize (E := limited) 2 32768 4 GL_RGBA TEXTURE_STATIC freshWorld
                = Done false w'
       /\ object_name_ (this w') = Z.pos (nextName_ freshGraphics)
       /\ width_ (this w') = 32768 /\ height_ (this w') = 4
       /\ format_ (this w') = GL_RGBA
       /\ log_ w' = log_ freshWorld ++ [LOGERROR "Failed to create texture array"].
Proof.
  split.
  - repeat split; try reflexivity; try lia; vm_compute; discriminate.
  - apply (SetSize_driver_error (E := limited) 2 32768 4 GL_RGBA TEXTURE_STATIC
             freshWorld freshGraphics);
      try reflexivity; try lia; vm_compute; discriminate.
Defined.

(** X7 at: a 4x4 RGBA render target of two layers. *)
Lemma SetSize_usage_witness :
  (0 < 4 /\ TEXTURE_RENDERTARGET <> TEXTURE_DEPTHSTENCIL)
  /\ exists ok w',
       SetSize (E := plain) 2 4 4 GL_RGBA TEXTURE_RENDERTARGET freshWorld = Done ok w'
       /\ usage_ (this w') = TEXTURE_RENDERTARGET
       /\ nonNull (renderSurface_ (this w'))
          = TextureUsage_eqb TEXTURE_RENDERTARGET TEXTURE_RENDERTARGET
       /\ subscribedToRenderSurfaceUpdate_ (this w')
          = TextureUsage_eqb TEXTURE_RENDERTARGET TEXTURE_RENDERTARGET
       /\ filterMode_ (this w')
          = (if TextureUsage_eqb TEXTURE_RENDERTARGET TEXTURE_RENDERTARGET
             then FILTER_NEAREST else filterMode_ (this freshWorld))
       /\ requestedLevels_ (this w')
          = (if TextureUsage_eqb TEXTURE_RENDERTARGET TEXTURE_RENDERTARGET then 1
             else requestedLevels_ (this freshWorld)).
Proof.
  split.
  - split; [lia | discriminate].
  - apply (SetSize_usage (E := plain) 2 4 4 GL_RGBA TEXTURE_RENDERTARGET freshWorld);
      [lia | lia | discriminate].
Defined.

(** X8 at: a descriptor naming the layers a.png and b.png, read into a
    fresh array on a live device. *)
Lemma BeginLoad_collects_witness :
  (graphics_ freshWorld = Some freshGraphics /\ deviceLost_ freshGraphics = false)
  /\ BeginLoad (E := missingImages) [] freshWorld
     = match XMLFile_Load (Externals := missingImages) [] with
       | Some xml =>
           let names :=
             map (resolvedName (E := missingImages)
                    (fst (fst (SplitPath (Externals := missingImages)
                                 (name_ (this freshWorld))))))
               (childrenNamed xml "layer") in
           Done true
             (set_this
                (set_loadImages_
                   (map (prefetched (E := missingImages)
                           (isAsyncLoading (asyncLoadState_ (this freshWorld)))) names)
                   (set_loadParameters_ (Some xml) (this freshWorld)))
                (set_cache_ {| dependencies_ := names |} freshWorld))
       | None =>
           Done false
             (set_this (set_loadParameters_ None (this freshWorld))
                (set_cache_ {| dependencies_ := [] |} freshWorld))
       end.
Proof.
  split.
  - split; reflexivity.
  - apply (BeginLoad_collects (E := missingImages) [] freshWorld freshGraphics);
      reflexivity.
Defined.

(** X9 at: a fresh array without Graphics, asked for two 4x4 RGBA layers. *)
Lemma headless_outcomes_witness :
  let w := headlessWorld in
  (graphics_ w = None /\ 0 < 4 /\ TEXTURE_STATIC <> TEXTURE_DEPTHSTENCIL)
  /\ (BeginLoad (E := plain) [] w = Done true w
      /\ EndLoad (E := plain) w = Done true w
      /\ Release (E := plain) w = Done tt w
      /\ Create (E := plain) w = Done false w
      /\ SetSize (E := plain) 2 4 4 GL_RGBA TEXTURE_STATIC w
         = Done false
             (set_this (sizedObject (E := plain) 2 4 4 GL_RGBA TEXTURE_STATIC (this w)) w)
      /\ (exists w', SetData (E := plain) 0 0 0 0 4 4 (Some (blank 64)) w = Done false w'
                     /\ this w' = this w /\ graphics_ w' = None)
      /\ (exists w', GetData (E := plain) 0 0 (Some 0) w = Done false w'
                     /\ this w' = this w /\ graphics_ w' = None)).
Proof.
  intros w. split.
  - split; [reflexivity | split; [lia | discriminate]].
  - apply (headless_outcomes (E := plain) w [] 2 4 4 GL_RGBA TEXTURE_STATIC
             0 0 0 0 4 4 (Some (blank 64)) (Some 0));
      [reflexivity | lia | lia | discriminate].
Defined.

(** X10 at: the two-layer descriptor parsed on a live device, neither
    image found. *)
Lemma EndLoad_all_images_missing_witness :
  let w := parsedWorld in
  (graphics_ w = Some freshGraphics /\ deviceLost_ freshGraphics = false
   /\ Forall (fun image => image = None)
        (loadImages_ (SetParameters (Externals := missingImages)
                        (loadParameters_ (this w)) (this w))))
  /\ exists w', EndLoad (E := missingImages) w = Done true w'
       /\ layers_ (this w')
          = Z.of_nat (length (loadImages_ (SetParameters (Externals := missingImages)
                                             (loadParameters_ (this w)) (this w))))
       /\ object_name_ (this w') = 0
       /\ loadImages_ (this w') = [] /\ loadParameters_ (this w') = None.
Proof.
  intros w.
  assert (Hmissing : Forall (fun image : option Image.t => image = None)
                       (loadImages_ (SetParameters (Externals := missingImages)
                                       (loadParameters_ (this w)) (this w)))).
  { vm_compute. repeat constructor. }
  split.
  - repeat split; try reflexivity. exact Hmissing.
  - apply (EndLoad_all_images_missing (E := missingImages) w freshGraphics);
      [reflexivity | reflexivity | exact Hmissing].
Defined.

(** X11 at: a descriptor naming two layers whose images are 4x4 and 8x8.
    The upload of the second layer fails, because it does not match the
    first, and [EndLoad] returns true all the same. *)
Lemma EndLoad_never_false_witness :
  let w := mismatchedWorld in
  let o := EndLoad (E := mismatchedImages) w in
  (o = Done (default false (resultOf o)) (worldAfter o w))
  /\ In (LOGERROR "Texture array layer does not match size or format of layer 0")
        (log_ (worldAfter o w))
  /\ default false (resultOf o) = true.
Proof.
  intros w o.
  assert (Hrun : o = Done (default false (resultOf o)) (worldAfter o w))
    by (vm_compute; reflexivity).
  split; [exact Hrun | split].
  - vm_compute. left. reflexivity.
  - apply (EndLoad_never_false (E := mismatchedImages) w (default false (resultOf o))
             (worldAfter o w)).
    exact Hrun.
Defined.


(** X14 at: layer 0 of a two-layer array, given a 4x4 RGBA image.  The
    array gets three levels; they count 64 + 16 + 4 bytes and issue four
    commands each. *)
Lemma layer0_upload_witness :
  let w := layeredWorld 2 0 in
  let sized := sizedFor (E := plain) w 0 (solidImage 4 4 4) 4 4 GL_RGBA in
  let levels := imageLevels (E := plain)
                  (levelsFor (E := plain) (this w) 0 (solidImage 4 4 4) 4 4) 0
                  (solidImage 4 4 4) false in
  (graphics_ w = Some freshGraphics /\ deviceLost_ freshGraphics = false
   /\ 0 < layers_ (this w)
   /\ requestedLevels_ (this w) <= 2 ^ 32
   /\ requestedSkip w = Some 0
   /\ negotiated (E := plain) w (solidImage 4 4 4) false = Some (4, 4, GL_RGBA)
   /\ 0 < 4)
  /\ (countBytes 0 levels = 84
      /\ length (issuedFor (E := plain) (this sized) 0 0 levels) = 12%nat)
  /\ exists w' g1 g',
       SetData_image (E := plain) 0 (Some (solidImage 4 4 4)) false w = Done true w'
       /\ object_name_ (this w') = Z.pos (nextName_ freshGraphics)
       /\ width_ (this w') = 4 /\ height_ (this w') = 4 /\ format_ (this w') = GL_RGBA
       /\ layers_ (this w') = layers_ (this w)
       /\ usage_ (this w') = TEXTURE_STATIC
       /\ levels_ (this w') = levelsFor (E := plain) (this w) 0 (solidImage 4 4 4) 4 4
       /\ PODVector.buffer_ (layerMemoryUse_ (this w'))
          = <[0%nat := countBytes 0 levels]> (replicate (Z.to_nat (layers_ (this w))) 0)
       /\ memoryUse_ (this w')
          = u32 (sizeof_Texture2DArray (Externals := plain)
                 + PODVector.capacity_ (layerMemoryUse_ (this w')) * 4
                 + countBytes 0 levels)
       /\ graphics_ sized = Some g1 /\ graphics_ w' = Some g'
       /\ commands_ g' = commands_ g1 ++ issuedFor (E := plain) (this sized) 0 0 levels.
Proof.
  intros w sized levels. split; [|split].
  - repeat split; try reflexivity. vm_compute. discriminate.
  - split; reflexivity.
  - apply (layer0_upload (E := plain) (solidImage 4 4 4) false w freshGraphics 0
             4 4 GL_RGBA); try reflexivity. vm_compute. discriminate.
Defined.
